(** * Octopus Energy France integration: off-peak parser, refresh
      coordinator and monthly aggregation

    A shallow embedding of [utils.py], [coordinator.py] and the aggregation
    code of [sensor.py], followed by the properties of the specification
    that were checked against it.

    Conventions of the embedding:
    - Python [float] is IEEE binary64, i.e. Rocq's primitive [float];
      Python [int] is [Z].
    - Python [str] is [string]; the regular expression classes [\d] and
      [[A-Z]] are the ASCII ones.
    - A raised exception is a value of [Py.exn]; only subclasses of
      [Exception] are modelled (interpreter signals such as task
      cancellation, which derive from [BaseException] alone, are not).
    - A JSON object received from the API is a record whose fields are
      [Py.field]s: the key may be absent, hold [null], or hold a value of
      the type the GraphQL schema gives it. *)

From Stdlib Require Import ZArith List String Ascii Bool Floats Lia.
From Stdlib Require Import DecimalString Sorted.
Import ListNotations.

Set Warnings "-inexact-float,-register-all".

Local Open Scope string_scope.
Local Open Scope list_scope.
Local Open Scope Z_scope.

(* ===================================================================== *)
(** * Part I: the embedding *)
(* ===================================================================== *)

(** ** Python runtime notions used by the embedded modules *)

Module Py.

(** Exception classes that the modelled code raises or catches.
    [OtherException] stands for any further subclass of [Exception], for
    instance the errors of the HTTP client. *)
Inductive exn_class : Type :=
| UpdateFailed
| KeyError
| IndexError
| TypeError
| AttributeError
| ValueError
| OverflowError
| OtherException (name : string).

(** An exception instance: its class, [str(err)] and [__cause__]. *)
Inductive exn : Type :=
| Exn (cls : exn_class) (msg : string) (cause : option exn).

Definition exn_cls (e : exn) : exn_class := let 'Exn c _ _ := e in c.
Definition exn_msg (e : exn) : string := let 'Exn _ m _ := e in m.
Definition exn_cause (e : exn) : option exn := let 'Exn _ _ c := e in c.

Definition is_UpdateFailed (e : exn) : bool :=
  match exn_cls e with UpdateFailed => true | _ => false end.

(** [isinstance(e, Exception)]: every modelled class derives from it. *)
Definition is_Exception (e : exn) : bool :=
  match exn_cls e with
  | UpdateFailed | KeyError | IndexError | TypeError | AttributeError
  | ValueError | OverflowError | OtherException _ => true
  end.

(** Outcome of evaluating an expression or calling a function. *)
Inductive result (A : Type) : Type :=
| Ok (a : A)
| Raise (e : exn).
Arguments Ok {A} a.
Arguments Raise {A} e.

Definition bind {A B : Type} (m : result A) (k : A -> result B) : result B :=
  match m with
  | Ok a => k a
  | Raise e => Raise e
  end.

(** Records written by [_LOGGER]. *)
Inductive log_level : Type := DEBUG | WARNING | ERROR.

Record log_record : Type := LogRecord {
  level : log_level;
  subject : string;      (* first [%s] argument *)
  error : exn            (* the logged exception *)
}.

(** A call that may log and may raise. *)
Definition logged (A : Type) : Type := (result A * list log_record)%type.

Definition returned {A : Type} (m : logged A) : result A := fst m.
Definition records {A : Type} (m : logged A) : list log_record := snd m.

(** A key of a JSON object: missing, [null], or a value. *)
Inductive field (A : Type) : Type :=
| Absent
| Null
| Has (a : A).
Arguments Absent {A}.
Arguments Null {A}.
Arguments Has {A} a.

(** [d.get(key)]: [None] when the key is missing or holds [null]. *)
Definition get {A : Type} (f : field A) : option A :=
  match f with
  | Has a => Some a
  | Absent | Null => None
  end.

(** Truth value of [str | None]. *)
Definition truthy_str (s : option string) : bool :=
  match s with
  | Some (String _ _) => true
  | Some EmptyString | None => false
  end.

(** [x == "literal"] where [x] is [str | None]. *)
Definition eq_str (x : option string) (lit : string) : bool :=
  match x with
  | Some s => String.eqb s lit
  | None => false
  end.

(** *** Numbers *)

(** The integer [z] as a spec float with mantissa [|z|] and exponent 0. *)
Definition Z2SF_exact (z : Z) : spec_float :=
  match z with
  | Z0 => S754_zero false
  | Zpos p => S754_finite false p 0
  | Zneg p => S754_finite true p 0
  end.

(** [a / b] on two ints: the correctly rounded quotient ([b] is a non-zero
    literal at every use). *)
Definition int_truediv (a b : Z) : float :=
  SF2Prim (SFdiv prec emax (Z2SF_exact a) (Z2SF_exact b)).

(** [float(z)] on an int: nearest binary64, [OverflowError] when there is
    none. *)
Definition float_of_int (z : Z) : result float :=
  let f := SF2Prim (binary_normalize prec emax z 0 false) in
  if is_infinity f
  then Raise (Exn OverflowError "int too large to convert to float" None)
  else Ok f.

(** [round(x, ndigits)] for [ndigits >= 0]: the exact value of [x] is
    rounded half-to-even at [ndigits] decimals, and the decimal obtained is
    rounded to the nearest binary64. *)
Definition round (x : float) (ndigits : nat) : float :=
  match Prim2SF x with
  | S754_finite s m e =>
      if 0 <=? e then x
      else
        let scale := 10 ^ Z.of_nat ndigits in
        let num := Zpos m * scale in
        let den := 2 ^ (- e) in
        let q := num / den in
        let r := num mod den in
        let k := match 2 * r ?= den with
                 | Lt => q
                 | Gt => q + 1
                 | Eq => if Z.even q then q else q + 1
                 end in
        match k with
        | Zpos p =>
            SF2Prim (SFdiv prec emax (S754_finite s p 0) (Z2SF_exact scale))
        | _ => if s then neg_zero else zero
        end
  | _ => x
  end.

(** *** Strings *)

Definition is_digit (c : ascii) : bool :=
  let n := N_of_ascii c in (48 <=? n)%N && (n <=? 57)%N.

Definition is_upper (c : ascii) : bool :=
  let n := N_of_ascii c in (65 <=? n)%N && (n <=? 90)%N.

Definition digit_value (c : ascii) : Z := Z.of_N (N_of_ascii c) - 48.

(** Longest prefix whose characters satisfy [p], and what follows it. *)
Fixpoint span (p : ascii -> bool) (s : list ascii) : list ascii * list ascii :=
  match s with
  | c :: tl =>
      if p c then let '(run, rest) := span p tl in (c :: run, rest)
      else ([], s)
  | [] => ([], [])
  end.

Definition decimal_value (digits : list ascii) : Z :=
  fold_left (fun acc c => acc * 10 + digit_value c) digits 0.

(** [int(s)] on a string of decimal digits.  CPython refuses more than
    4300 digits (the default [sys.int_max_str_digits]). *)
Definition int_of_digits (digits : list ascii) : result Z :=
  if (4300 <? List.length digits)%nat
  then Raise (Exn ValueError
                "Exceeds the limit (4300 digits) for integer string conversion"
                None)
  else Ok (decimal_value digits).

(** [f"{n:02d}"] for [n >= 0]. *)
Definition format_02d (n : Z) : string :=
  let s := NilZero.string_of_uint (N.to_uint (Z.to_N n)) in
  if (String.length s <? 2)%nat then ("0" ++ s)%string else s.

(** *** [datetime.time] *)

Record time : Type := Time { hour : Z; minute : Z }.

(** [time(h, m)] validates both components. *)
Definition mk_time (h m : Z) : result time :=
  if negb ((0 <=? h) && (h <=? 23))
  then Raise (Exn ValueError "hour must be in 0..23" None)
  else if negb ((0 <=? m) && (m <=? 59))
  then Raise (Exn ValueError "minute must be in 0..59" None)
  else Ok (Time h m).

End Py.

Notation "x <- m ;; k" := (Py.bind m (fun x => k))
  (at level 61, m at next level, right associativity).

(** ** [utils.py] *)

Module Utils.
Import Py.

(** One entry of [result["ranges"]]. *)
Record TimeRange : Type := {
  start : string;
  end_ : string;
  start_time : time;
  end_time : time;
  start_minutes : Z;
  end_minutes : Z;
  duration_minutes : Z;
  duration_hours : float;
  cross_midnight : bool
}.

(** The dictionary returned by [parse_off_peak_hours]. *)
Record OffPeak : Type := {
  type : option string;
  ranges : list TimeRange;
  total_hours : float;
  range_count : Z
}.

Definition default_result : OffPeak :=
  {| type := None; ranges := []; total_hours := 0%float; range_count := 0 |}.

Definition set_type (t : string) (r : OffPeak) : OffPeak :=
  {| type := Some t; ranges := ranges r;
     total_hours := total_hours r; range_count := range_count r |}.

Definition append_range (x : TimeRange) (r : OffPeak) : OffPeak :=
  {| type := type r; ranges := ranges r ++ [x];
     total_hours := total_hours r; range_count := range_count r |}.

Definition set_totals (h : float) (n : Z) (r : OffPeak) : OffPeak :=
  {| type := type r; ranges := ranges r;
     total_hours := h; range_count := n |}.

(** [re.match(r"^([A-Z]+)", label)]: group 1, when there is a match. *)
Definition match_type (label : list ascii) : option string :=
  match fst (span is_upper label) with
  | [] => None
  | run => Some (string_of_list_ascii run)
  end.

(** The four groups of one match of [(\d+)H(\d+)-(\d+)H(\d+)]. *)
Definition groups : Type :=
  (list ascii * list ascii * list ascii * list ascii)%type.

(** The pattern anchored at the head of [s]: the groups and the number of
    characters matched.  Every [\d+] is followed by a non-digit literal or
    ends the pattern, so the only way to match takes each run of digits
    whole. *)
Definition match_time_pattern (s : list ascii) : option (groups * nat) :=
  match span is_digit s with
  | ((_ :: _) as g1, "H"%char :: s1) =>
      match span is_digit s1 with
      | ((_ :: _) as g2, "-"%char :: s2) =>
          match span is_digit s2 with
          | ((_ :: _) as g3, "H"%char :: s3) =>
              match span is_digit s3 with
              | ((_ :: _) as g4, _) =>
                  Some ((g1, g2, g3, g4),
                        (List.length g1 + List.length g2 + List.length g3
                         + List.length g4 + 3)%nat)
              | _ => None
              end
          | _ => None
          end
      | _ => None
      end
  | _ => None
  end.

(** [re.findall(time_pattern, label)]: leftmost matches, none overlapping.
    [skip] counts the characters still covered by the previous match. *)
Fixpoint findall_from (skip : nat) (s : list ascii) : list groups :=
  match s with
  | [] => []
  | c :: tl =>
      match skip with
      | S k => findall_from k tl
      | O =>
          match match_time_pattern (c :: tl) with
          | Some (g, n) => g :: findall_from (Nat.pred n) tl
          | None => findall_from 0 tl
          end
      end
  end.

Definition findall (label : list ascii) : list groups := findall_from 0 label.

(** Body of the [for match in matches] loop up to the dictionary that is
    appended: the four [int] conversions, the minutes, the duration, and
    the two [time] objects. *)
Definition range_of_match (m : groups) : result TimeRange :=
  let '(g1, g2, g3, g4) := m in
  start_hour <- int_of_digits g1 ;;
  start_min <- int_of_digits g2 ;;
  end_hour <- int_of_digits g3 ;;
  end_min <- int_of_digits g4 ;;
  let start_minutes := start_hour * 60 + start_min in
  let end_minutes := end_hour * 60 + end_min in
  let crosses_midnight := end_minutes <=? start_minutes in
  let duration_minutes :=
    if negb crosses_midnight
    then end_minutes - start_minutes
    else (24 * 60 - start_minutes) + end_minutes in
  t_start <- mk_time start_hour start_min ;;
  t_end <- mk_time end_hour end_min ;;
  Ok {| start := (format_02d start_hour ++ ":" ++ format_02d start_min)%string;
        end_ := (format_02d end_hour ++ ":" ++ format_02d end_min)%string;
        start_time := t_start;
        end_time := t_end;
        start_minutes := start_minutes;
        end_minutes := end_minutes;
        duration_minutes := duration_minutes;
        duration_hours := round (int_truediv duration_minutes 60) 2;
        cross_midnight := crosses_midnight |}.

(** The loop over the matches.  It threads [total_minutes] and the
    dictionary under construction; when an iteration raises, the
    dictionary is left as the previous iterations made it. *)
Fixpoint parse_ranges (matches : list groups) (total_minutes : Z)
  (res : OffPeak) : OffPeak * result Z :=
  match matches with
  | [] => (res, Ok total_minutes)
  | m :: rest =>
      match range_of_match m with
      | Ok x =>
          parse_ranges rest (total_minutes + duration_minutes x)
            (append_range x res)
      | Raise e => (res, Raise e)
      end
  end.

(** The [try] block: the dictionary at the point control leaves the block,
    and whether it left by an exception. *)
Definition try_block (label : list ascii) (res : OffPeak)
  : OffPeak * result unit :=
  let res1 :=
    match match_type label with
    | Some t => set_type t res
    | None => res
    end in
  let matches := findall label in
  match parse_ranges matches 0 res1 with
  | (res2, Ok total_minutes) =>
      (set_totals (round (int_truediv total_minutes 60) 2)
                  (Z.of_nat (List.length (ranges res2))) res2,
       Ok tt)
  | (res2, Raise e) => (res2, Raise e)
  end.

Definition parse_off_peak_hours (off_peak_label : option string)
  : logged OffPeak :=
  let result := default_result in
  if negb (truthy_str off_peak_label) then (Ok result, [])
  else
    let label := match off_peak_label with Some s => s | None => "" end in
    match try_block (list_ascii_of_string label) result with
    | (result', Ok _) => (Ok result', [])
    | (result', Raise err) =>
        if is_Exception err
        then (Ok result', [LogRecord WARNING label err])
        else (Raise err, [])
    end.

(** [format_frequency_label]. *)
Definition format_frequency_label (freq : string) : string :=
  if String.eqb freq "HOUR_INTERVAL" then "Hourly (72-hour window)"
  else if String.eqb freq "DAY_INTERVAL" then "Daily (31-day window)"
  else if String.eqb freq "WEEK_INTERVAL" then "Weekly"
  else if String.eqb freq "MONTH_INTERVAL" then "Monthly"
  else freq.

End Utils.

(** ** [const.py] *)

Module Const.

Definition DEFAULT_SCAN_INTERVAL : Z := 60.
Definition FREQ_HOURLY : string := "HOUR_INTERVAL".
Definition FREQ_DAILY : string := "DAY_INTERVAL".
Definition FREQ_WEEKLY : string := "WEEK_INTERVAL".
Definition FREQ_MONTHLY : string := "MONTH_INTERVAL".
Definition DEFAULT_READING_FREQUENCY : string := FREQ_HOURLY.
Definition SUPPORTED_READING_FREQUENCIES : list string :=
  [FREQ_HOURLY; FREQ_DAILY].

End Const.

(** ** The JSON documents exchanged with the API client

    Only the keys read by the modelled code are listed. *)

Module Api.
Import Py.

(** A JSON number. *)
Inductive number : Type :=
| Int (z : Z)
| Float (f : float).

(** [float(v)] on a JSON number. *)
Definition to_float (v : number) : result float :=
  match v with
  | Int z => float_of_int z
  | Float f => Ok f
  end.

(** [costInclTax].  A dictionary is true when it has a key; with this key
    missing the code adds nothing whatever the other keys are. *)
Record Cost : Type := { estimatedAmount : field number }.

Record Statistic : Type := {
  label : field string;
  value : field number;
  costInclTax : field Cost
}.

Record MetaData : Type := { statistics : field (list Statistic) }.

Record Reading : Type := {
  startAt : field string;
  metaData : field MetaData
}.

(** A supply point (electricity or gas meter). *)
Record Meter : Type := {
  id : field string;
  distributorStatus : field string;
  poweredStatus : field string;
  offPeakLabel : field string
}.

Record SupplyPoints : Type := {
  electricity : field (list Meter);
  gas : field (list Meter)
}.

(** The dictionary returned by [get_account_data]. *)
Record AccountData : Type := {
  account_id : field string;
  account_number : field string;
  supply_points : field SupplyPoints
}.

(** [data["electricity"]] in the coordinator's data. *)
Record ElectricityData : Type := { readings : field (list Reading) }.

(** [coordinator.data]. *)
Record Snapshot : Type := {
  data_supply_points : field SupplyPoints;
  data_electricity : field ElectricityData
}.

End Api.

(** ** [coordinator.py] *)

Module Coordinator.
Import Py Api.

(** Wall-clock instants and durations, in microseconds.  [now] is the
    present time, so the year range of [datetime] is not modelled. *)
Definition datetime : Type := Z.
Definition timedelta : Type := Z.

Definition timedelta_hours (h : Z) : timedelta := h * 3600 * 1000000.
Definition timedelta_days (d : Z) : timedelta := d * 86400 * 1000000.

(** Keyword and positional arguments of [get_energy_readings]. *)
Record ReadingsQuery : Type := {
  q_account_id : string;
  q_start : string;
  q_end : string;
  q_meter_id : string;
  q_utility_type : string;
  q_reading_frequency : string;
  q_reading_quality : string;
  q_first : Z
}.

(** The API client: each awaited call returns or raises. *)
Record ApiClient : Type := {
  get_account_data : string -> result AccountData;
  get_energy_readings : ReadingsQuery -> result (list Reading)
}.

(** The coordinator's own attributes. *)
Record Self : Type := {
  api_client : ApiClient;
  self_account_number : string;
  reading_frequency : string
}.

(** [_compute_date_window]: the window as two instants. *)
Definition date_window (reading_frequency : string) (now : datetime)
  : datetime * datetime :=
  let start :=
    if String.eqb reading_frequency Const.FREQ_HOURLY
    then now - timedelta_hours 72
    else if String.eqb reading_frequency Const.FREQ_DAILY
    then now - timedelta_days 31
    else now - timedelta_days 7 in
  (start, now).

(** [_compute_date_window], with [isoformat] as rendered by the host. *)
Definition _compute_date_window (isoformat : datetime -> string)
  (self : Self) (now : datetime) : string * string :=
  let '(start, now') := date_window (reading_frequency self) now in
  (isoformat start, isoformat now').

(** The condition of the list comprehension that drops a meter. *)
Definition is_terminated (sp : Meter) : bool :=
  eq_str (get (distributorStatus sp)) "RESIL"
  && eq_str (get (poweredStatus sp)) "LIMI".

(** [[sp for sp in meters if not (...)]]. *)
Definition filter_supply_points (meters : list Meter) : list Meter :=
  filter (fun sp => negb (is_terminated sp)) meters.

(** [account_data["supply_points"]["electricity"]], as subscripted and
    iterated by the comprehension. *)
Definition electricity_of (account_data : AccountData)
  : result (SupplyPoints * list Meter) :=
  match supply_points account_data with
  | Absent => Raise (Exn KeyError "'supply_points'" None)
  | Null =>
      Raise (Exn TypeError "'NoneType' object is not subscriptable" None)
  | Has sps =>
      match electricity sps with
      | Absent => Raise (Exn KeyError "'electricity'" None)
      | Null =>
          Raise (Exn TypeError "'NoneType' object is not iterable" None)
      | Has meters => Ok (sps, meters)
      end
  end.

(** [points[0]["id"] if points else None]. *)
Definition first_meter_id (points : option (list Meter))
  : result (option string) :=
  match points with
  | Some (m :: _) =>
      match id m with
      | Absent => Raise (Exn KeyError "'id'" None)
      | Null => Ok None
      | Has i => Ok (Some i)
      end
  | Some [] | None => Ok None
  end.

(** The local variables of [_fetch_all_data] after the call to
    [get_energy_readings]. *)
Record Fetched : Type := {
  f_account_id : string;
  f_account_data : AccountData;
  f_electricity_meter_id : option string;
  f_gas_meter_id : option string;
  f_window : string * string;
  f_electricity_readings : list Reading
}.

(** [_fetch_all_data] up to and including the call to
    [get_energy_readings]. *)
Definition fetch_readings (isoformat : datetime -> string) (self : Self)
  (now : datetime) : result Fetched :=
  account_data <- get_account_data (api_client self)
                    (self_account_number self) ;;
  let account_id := get (account_id account_data) in
  let account_number := get (account_number account_data) in
  if negb (truthy_str account_id)
  then Raise (Exn UpdateFailed "Missing account_id in API response" None)
  else if negb (truthy_str account_number)
  then Raise (Exn UpdateFailed "Missing account_number in API response" None)
  else
    found <- electricity_of account_data ;;
    let '(sps, meters) := found in
    let kept := filter_supply_points meters in
    let sps' := {| electricity := Has kept; gas := gas sps |} in
    let account_data' :=
      {| account_id := Api.account_id account_data;
         account_number := Api.account_number account_data;
         supply_points := Has sps' |} in
    electricity_meter_id <- first_meter_id (Some kept) ;;
    gas_meter_id <- first_meter_id (get (gas sps')) ;;
    let '(elec_start, elec_end) := _compute_date_window isoformat self now in
    let aid := match account_id with Some a => a | None => "" end in
    electricity_readings <-
      (if truthy_str electricity_meter_id
       then get_energy_readings (api_client self)
              {| q_account_id := aid;
                 q_start := elec_start;
                 q_end := elec_end;
                 q_meter_id := match electricity_meter_id with
                               | Some m => m
                               | None => ""
                               end;
                 q_utility_type := "electricity";
                 q_reading_frequency := reading_frequency self;
                 q_reading_quality := "ACTUAL";
                 q_first := 500 |}
       else Ok []) ;;
    Ok {| f_account_id := aid;
          f_account_data := account_data';
          f_electricity_meter_id := electricity_meter_id;
          f_gas_meter_id := gas_meter_id;
          f_window := (elec_start, elec_end);
          f_electricity_readings := electricity_readings |}.

(** [_fetch_all_data].  [remainder] stands for the rest of the function
    body, from the call to [get_electricity_index] to the [return]; it is
    left open, and may itself raise. *)
Definition _fetch_all_data (isoformat : datetime -> string)
  (remainder : Fetched -> result Snapshot) (self : Self) (now : datetime)
  : result Snapshot :=
  fetched <- fetch_readings isoformat self now ;;
  remainder fetched.

(** [_async_update_data]: the two [except] clauses, in order. *)
Definition _async_update_data (isoformat : datetime -> string)
  (remainder : Fetched -> result Snapshot) (self : Self) (now : datetime)
  : result Snapshot :=
  match _fetch_all_data isoformat remainder self now with
  | Ok data => Ok data
  | Raise err =>
      if is_UpdateFailed err then Raise err
      else if is_Exception err
      then Raise (Exn UpdateFailed
                    ("Error communicating with API: " ++ exn_msg err)%string
                    (Some err))
      else Raise err
  end.

End Coordinator.

(** ** [sensor.py] *)

Module Sensor.
Import Py Api.

(** The entries of a sensor configuration that the aggregation reads. *)
Record SensorConfig : Type := {
  key : string;
  precision : option nat
}.

(** [_statistics_labels_for_key]. *)
Definition _statistics_labels_for_key (key : string) : list string * bool :=
  if String.eqb key "conso_base" then (["BASE"], false)
  else if String.eqb key "conso_hp" then (["HEURES_PLEINES"], false)
  else if String.eqb key "conso_hc" then (["HEURES_CREUSES"], false)
  else if String.eqb key "cout_base" then (["CONSO_BASE"], true)
  else if String.eqb key "cout_hp" then (["CONSO_HEURES_PLEINES"], true)
  else if String.eqb key "cout_hc" then (["CONSO_HEURES_CREUSES"], true)
  else ([], false).

(** [x in labels] for [x : str | None] and a set of strings. *)
Definition label_in (x : option string) (labels : list string) : bool :=
  match x with
  | Some s => existsb (String.eqb s) labels
  | None => false
  end.

(** The key of the sort: [x.get("startAt") or ""]. *)
Definition sort_key (x : Reading) : string :=
  match get (startAt x) with
  | Some s => s
  | None => ""
  end.

(** Insertion of [x] in front of the first element whose key is not
    smaller: the elements with equal keys keep their order. *)
Fixpoint insert_by_key (x : Reading) (l : list Reading) : list Reading :=
  match l with
  | [] => [x]
  | y :: tl =>
      if String.leb (sort_key x) (sort_key y) then x :: y :: tl
      else y :: insert_by_key x tl
  end.

(** [sorted(readings, key=...)]: the stable sort by key. *)
Definition sorted_by_key (readings : list Reading) : list Reading :=
  fold_right insert_by_key [] readings.

(** [_safe_sorted_readings].  The keys are strings, which always compare,
    so the [except] branch is not taken. *)
Definition _safe_sorted_readings (readings : list Reading) : list Reading :=
  sorted_by_key readings.

(** [reading.get("metaData", {}).get("statistics", []) or []]. *)
Definition statistics_of (reading : Reading) : result (list Statistic) :=
  match metaData reading with
  | Absent => Ok []
  | Null =>
      Raise (Exn AttributeError
               "'NoneType' object has no attribute 'get'" None)
  | Has md =>
      match statistics md with
      | Has l => Ok l
      | Absent | Null => Ok []
      end
  end.

(** One iteration of [for stat in statistics]: the new [total]. *)
Definition add_statistic (accepted_labels : list string) (is_cost : bool)
  (total : float) (stat : Statistic) : result float :=
  if negb (label_in (get (label stat)) accepted_labels) then Ok total
  else if negb is_cost then
    match get (value stat) with
    | Some v => x <- to_float v ;; Ok (total + x)%float
    | None => Ok total
    end
  else
    match get (costInclTax stat) with
    | Some cost =>
        match estimatedAmount cost with
        | Has amount => x <- to_float amount ;; Ok (total + x / 100)%float
        | Null =>
            Raise (Exn TypeError
                     "float() argument must be a string or a real number, not 'NoneType'"
                     None)
        | Absent => Ok total
        end
    | None => Ok total
    end.

(** The whole inner loop. *)
Fixpoint add_statistics (accepted_labels : list string) (is_cost : bool)
  (total : float) (stats : list Statistic) : result float :=
  match stats with
  | [] => Ok total
  | stat :: rest =>
      total' <- add_statistic accepted_labels is_cost total stat ;;
      add_statistics accepted_labels is_cost total' rest
  end.

(** The clock and the timestamp parser that the aggregation calls:
    [current_month] is [dt_util.now().strftime("%Y-%m")] and [month_of_iso s]
    is [datetime.fromisoformat(s).strftime("%Y-%m")], which may raise. *)
Record Calendar : Type := {
  current_month : string;
  month_of_iso : string -> result string
}.

Definition with_record {A : Type} (r : log_record) (m : logged A) : logged A :=
  (fst m, r :: snd m).

(** The loop [for reading in sorted_readings], from a given [total]. *)
Fixpoint add_readings (cal : Calendar) (accepted_labels : list string)
  (is_cost : bool) (total : float) (sorted_readings : list Reading)
  : logged float :=
  match sorted_readings with
  | [] => (Ok total, [])
  | reading :: rest =>
      let continue := add_readings cal accepted_labels is_cost total rest in
      match get (startAt reading) with
      | Some ((String _ _) as reading_date) =>
          match month_of_iso cal reading_date with
          | Raise e =>
              if is_Exception e
              then with_record (LogRecord DEBUG reading_date e) continue
              else (Raise e, [])
          | Ok reading_month =>
              if negb (String.eqb reading_month (current_month cal))
              then continue
              else
                match statistics_of reading with
                | Raise e => (Raise e, [])
                | Ok stats =>
                    match add_statistics accepted_labels is_cost total stats
                    with
                    | Raise e => (Raise e, [])
                    | Ok total' =>
                        add_readings cal accepted_labels is_cost total' rest
                    end
                end
          end
      | Some EmptyString | None => continue
      end
  end.

(** [data.get("electricity", {}).get("readings", [])]: [None] stands for a
    [null] list. *)
Definition electricity_readings (data : Snapshot)
  : result (option (list Reading)) :=
  match data_electricity data with
  | Absent => Ok (Some [])
  | Null =>
      Raise (Exn AttributeError
               "'NoneType' object has no attribute 'get'" None)
  | Has e =>
      match readings e with
      | Absent => Ok (Some [])
      | Null => Ok None
      | Has l => Ok (Some l)
      end
  end.

(** The sum of the month before the final rounding. *)
Definition monthly_sum (cal : Calendar) (cfg : SensorConfig)
  (readings : list Reading) : logged float :=
  let sorted_readings := _safe_sorted_readings readings in
  let '(accepted_labels, is_cost) := _statistics_labels_for_key (key cfg) in
  add_readings cal accepted_labels is_cost 0 sorted_readings.

(** [OctopusElectricitySensor._calculate_monthly_total]. *)
Definition _calculate_monthly_total (cal : Calendar) (cfg : SensorConfig)
  (data : Snapshot) : logged float :=
  match electricity_readings data with
  | Raise e => (Raise e, [])
  | Ok r =>
      match r with
      | Some ((_ :: _) as readings) =>
          match monthly_sum cal cfg readings with
          | (Ok total, logs) =>
              match precision cfg with
              | Some p => (Ok (round total p), logs)
              | None => (Ok total, logs)
              end
          | (Raise e, logs) => (Raise e, logs)
          end
      | Some [] | None => (Ok 0%float, [])
      end
  end.

(** [latest_reading.get("metaData", {}).get("statistics", [])]. *)
Definition latest_statistics (reading : Reading)
  : result (option (list Statistic)) :=
  match metaData reading with
  | Absent => Ok (Some [])
  | Null =>
      Raise (Exn AttributeError
               "'NoneType' object has no attribute 'get'" None)
  | Has md =>
      match statistics md with
      | Absent => Ok (Some [])
      | Null => Ok None
      | Has l => Ok (Some l)
      end
  end.

(** [stat.get("label", "")]. *)
Definition label_or_empty (stat : Statistic) : option string :=
  match label stat with
  | Absent => Some ""
  | Null => None
  | Has s => Some s
  end.

(** ["LIT" in labels] for a set of [str | None]. *)
Definition has_label (lit : string) (labels : list (option string)) : bool :=
  existsb (fun x => eq_str x lit) labels.

(** The [try] block of [_detect_tariff_type_for_meter]; [None] when control
    falls out of the block without a [return]. *)
Definition detect_try_block (data : Snapshot) : result (option string) :=
  electricity_readings <- electricity_readings data ;;
  match electricity_readings with
  | None | Some [] => Ok (Some "UNKNOWN")
  | Some (r :: rs) =>
      let latest_reading := last rs r in
      statistics <- latest_statistics latest_reading ;;
      match statistics with
      | None | Some [] => Ok (Some "UNKNOWN")
      | Some stats =>
          let labels := map label_or_empty stats in
          if has_label "CONSO_BASE" labels then Ok (Some "BASE")
          else if has_label "CONSO_HEURES_PLEINES" labels
                  && has_label "CONSO_HEURES_CREUSES" labels
          then Ok (Some "HPHC")
          else Ok None
      end
  end.

(** The classes named by [except (KeyError, IndexError, TypeError)]. *)
Definition is_lookup_error (e : exn) : bool :=
  match exn_cls e with
  | KeyError | IndexError | TypeError => true
  | _ => false
  end.

(** [_detect_tariff_type_for_meter]. *)
Definition _detect_tariff_type_for_meter (data : Snapshot) (prm_id : string)
  : logged string :=
  match detect_try_block data with
  | Ok (Some tariff) => (Ok tariff, [])
  | Ok None => (Ok "UNKNOWN", [])
  | Raise e =>
      if is_lookup_error e
      then (Ok "UNKNOWN", [LogRecord ERROR prm_id e])
      else (Raise e, [])
  end.

(** The meters of [async_setup_entry] that reach the body of the loop
    [for elec_meter in supply_points.get("electricity", [])], i.e. those
    for which sensors are created. *)
Definition setup_electricity_meters (data : Snapshot) : result (list Meter) :=
  match data_supply_points data with
  | Absent => Ok []
  | Null =>
      Raise (Exn AttributeError
               "'NoneType' object has no attribute 'get'" None)
  | Has sps =>
      match electricity sps with
      | Absent => Ok []
      | Null =>
          Raise (Exn TypeError "'NoneType' object is not iterable" None)
      | Has meters =>
          Ok (filter
                (fun elec_meter =>
                   negb (eq_str (get (distributorStatus elec_meter)) "RESIL"
                         && eq_str (get (poweredStatus elec_meter)) "LIMI"))
                meters)
      end
  end.

End Sensor.

(** ** A timestamp parser for the examples

    [Sensor.Calendar] leaves [datetime.fromisoformat] open.  The examples
    use the following instance, which reads the extended format
    [YYYY-MM-DDThh:mm:ss] with an optional [Z] or [+hh:mm] / [-hh:mm]
    offset, for the years 1000 to 9999, and answers [ValueError] on
    anything else. *)

Module Iso.
Import Py.

Definition two_digits (a b : ascii) : option Z :=
  if is_digit a && is_digit b
  then Some (digit_value a * 10 + digit_value b)
  else None.

Definition is_leap (y : Z) : bool :=
  ((y mod 4 =? 0) && negb (y mod 100 =? 0)) || (y mod 400 =? 0).

Definition days_in_month (y m : Z) : Z :=
  if m =? 2 then (if is_leap y then 29 else 28)
  else if (m =? 4) || (m =? 6) || (m =? 9) || (m =? 11) then 30
  else 31.

Definition valid_offset (s : list ascii) : bool :=
  match s with
  | [] => true
  | ["Z"%char] => true
  | [sign; h1; h2; ":"%char; m1; m2] =>
      (Ascii.eqb sign "+" || Ascii.eqb sign "-")
      && match two_digits h1 h2, two_digits m1 m2 with
         | Some h, Some m => (h <=? 23) && (m <=? 59)
         | _, _ => false
         end
  | _ => false
  end.

Definition invalid (s : string) : exn :=
  Exn ValueError ("Invalid isoformat string: '" ++ s ++ "'")%string None.

Definition month_of_iso (s : string) : result string :=
  match list_ascii_of_string s with
  | y1 :: y2 :: y3 :: y4 :: "-"%char :: m1 :: m2 :: "-"%char :: d1 :: d2
    :: "T"%char :: h1 :: h2 :: ":"%char :: n1 :: n2 :: ":"%char :: s1 :: s2
    :: offset =>
      match two_digits y1 y2, two_digits y3 y4, two_digits m1 m2,
            two_digits d1 d2, two_digits h1 h2, two_digits n1 n2,
            two_digits s1 s2 with
      | Some yh, Some yl, Some m, Some d, Some h, Some n, Some sec =>
          let y := yh * 100 + yl in
          if (1000 <=? y) && (1 <=? m) && (m <=? 12) && (1 <=? d)
             && (d <=? days_in_month y m) && (h <=? 23) && (n <=? 59)
             && (sec <=? 59) && valid_offset offset
          then Ok (string_of_list_ascii [y1; y2; y3; y4; "-"%char; m1; m2])
          else Raise (invalid s)
      | _, _, _, _, _, _, _ => Raise (invalid s)
      end
  | _ => Raise (invalid s)
  end.

Definition calendar (current_month : string) : Sensor.Calendar :=
  {| Sensor.current_month := current_month;
     Sensor.month_of_iso := month_of_iso |}.

End Iso.

(** ** Notions used to state the properties *)

Module Spec.
Import Py Api.

(** The reading's start timestamp parses to the target month. *)
Definition in_month (cal : Sensor.Calendar) (r : Reading) : bool :=
  match get (startAt r) with
  | Some s =>
      match Sensor.month_of_iso cal s with
      | Ok m => String.eqb m (Sensor.current_month cal)
      | Raise _ => false
      end
  | None => false
  end.

(** Adding all statistics of the given readings, in order. *)
Fixpoint add_all (accepted_labels : list string) (is_cost : bool)
  (total : float) (rs : list Reading) : result float :=
  match rs with
  | [] => Ok total
  | r :: rest =>
      stats <- Sensor.statistics_of r ;;
      total' <- Sensor.add_statistics accepted_labels is_cost total stats ;;
      add_all accepted_labels is_cost total' rest
  end.

(** The following four notions are written from the specification of the
    aggregator, not from its code. *)

(** The label of the statistic is one of the target labels. *)
Definition targeted (target_labels : list string) (st : Statistic) : bool :=
  match label st with
  | Has l => if in_dec string_dec l target_labels then true else false
  | Absent | Null => false
  end.

(** The number that a statistic brings: its value for a consumption, the
    estimated amount of its cost, in minor units, for a cost. *)
Definition brought (as_cost : bool) (st : Statistic) : option number :=
  if as_cost then
    match costInclTax st with
    | Has c =>
        match estimatedAmount c with
        | Has n => Some n
        | Absent | Null => None
        end
    | Absent | Null => None
    end
  else
    match value st with
    | Has v => Some v
    | Absent | Null => None
    end.

(** What one statistic contributes: nothing unless it is targeted and
    brings a number; the number itself for a consumption, a hundredth of
    it for a cost. *)
Definition contribution (target_labels : list string) (as_cost : bool)
  (st : Statistic) : list float :=
  if targeted target_labels st then
    match brought as_cost st with
    | Some n =>
        match to_float n with
        | Ok x => [if as_cost then (x / 100)%float else x]
        | Raise _ => []
        end
    | None => []
    end
  else [].

(** The contributions of the statistics of a reading, in order. *)
Definition contributions (target_labels : list string) (as_cost : bool)
  (r : Reading) : list float :=
  match metaData r with
  | Has md =>
      match statistics md with
      | Has sts => flat_map (contribution target_labels as_cost) sts
      | Absent | Null => []
      end
  | Absent | Null => []
  end.

(** The sum of floats from 0.0, taken from left to right. *)
Definition float_sum (xs : list float) : float :=
  fold_left PrimFloat.add xs 0%float.

(** The reading holds no [null] where an object or a number is read, and
    no integer beyond the floats, among what the aggregation reads. *)
Definition readable (target_labels : list string) (as_cost : bool)
  (r : Reading) : Prop :=
  metaData r <> Null
  /\ forall md sts st,
       metaData r = Has md -> statistics md = Has sts -> In st sts ->
       targeted target_labels st = true ->
       (as_cost = true ->
        forall c, costInclTax st = Has c -> estimatedAmount c <> Null)
       /\ (forall n, brought as_cost st = Some n ->
                     exists x, to_float n = Ok x).

(** The final rounding of the aggregation. *)
Definition to_precision (p : option nat) (total : float) : float :=
  match p with
  | Some n => round total n
  | None => total
  end.

(** The order in which the readings are sorted. *)
Definition key_le (x y : Reading) : Prop :=
  String.leb (Sensor.sort_key x) (Sensor.sort_key y) = true.

(** A meter is terminated and its supply limited. *)
Definition terminated (m : Meter) : Prop :=
  get (distributorStatus m) = Some "RESIL"
  /\ get (poweredStatus m) = Some "LIMI".

(** What the parser computes for one range from its four numbers. *)
Definition range_shape (r : Utils.TimeRange) : Prop :=
  let s := Utils.start_minutes r in
  let e := Utils.end_minutes r in
  s = hour (Utils.start_time r) * 60 + minute (Utils.start_time r)
  /\ e = hour (Utils.end_time r) * 60 + minute (Utils.end_time r)
  /\ (e <= s ->
      Utils.cross_midnight r = true
      /\ Utils.duration_minutes r = (1440 - s) + e)
  /\ (s < e ->
      Utils.cross_midnight r = false
      /\ Utils.duration_minutes r = e - s)
  /\ Utils.duration_hours r = round (int_truediv (Utils.duration_minutes r) 60) 2.

(** Sum of the durations of a list of ranges, in minutes. *)
Definition sum_minutes (l : list Utils.TimeRange) : Z :=
  fold_right (fun r acc => Utils.duration_minutes r + acc) 0 l.

(** The result dictionary agrees with its own list of ranges. *)
Definition consistent (res : Utils.OffPeak) : Prop :=
  Utils.range_count res = Z.of_nat (List.length (Utils.ranges res))
  /\ Utils.total_hours res
     = round (int_truediv (sum_minutes (Utils.ranges res)) 60) 2.

End Spec.

(** ** Data of the examples *)

Module Examples.
Import Py Api.

Definition meter (i : string) (distributor powered : field string) : Meter :=
  {| id := Has i; distributorStatus := distributor;
     poweredStatus := powered; offPeakLabel := Null |}.

Definition terminated_meter : Meter := meter "PRM1" (Has "RESIL") (Has "LIMI").
Definition resil_active_meter : Meter :=
  meter "PRM2" (Has "RESIL") (Has "ACTIVE").
Definition serv_limited_meter : Meter := meter "PRM3" (Has "SERVC") (Has "LIMI").

Definition account (i n : field string) (meters : list Meter) : AccountData :=
  {| account_id := i; account_number := n;
     supply_points := Has {| electricity := Has meters; gas := Absent |} |}.

(** An API client with fixed answers. *)
Definition client (answer : result AccountData) : Coordinator.ApiClient :=
  {| Coordinator.get_account_data := fun _ => answer;
     Coordinator.get_energy_readings := fun _ => Ok [] |}.

Definition coordinator (answer : result AccountData) (freq : string)
  : Coordinator.Self :=
  {| Coordinator.api_client := client answer;
     Coordinator.self_account_number := "A-12345678";
     Coordinator.reading_frequency := freq |}.

(** Instants are printed as their number of microseconds. *)
Definition isoformat (t : Coordinator.datetime) : string :=
  NilZero.string_of_int (Z.to_int t).

(** A remainder of [_fetch_all_data] that publishes what was fetched. *)
Definition publish (f : Coordinator.Fetched) : result Snapshot :=
  Ok {| data_supply_points := supply_points (Coordinator.f_account_data f);
        data_electricity :=
          Has {| readings := Has (Coordinator.f_electricity_readings f) |} |}.

(** A remainder that fails with the refresh-failure kind itself. *)
Definition index_unavailable (f : Coordinator.Fetched) : result Snapshot :=
  Raise (Exn UpdateFailed "index unavailable" None).

Definition night_range : Utils.TimeRange :=
  {| Utils.start := "22:00"; Utils.end_ := "06:00";
     Utils.start_time := Time 22 0; Utils.end_time := Time 6 0;
     Utils.start_minutes := 1320; Utils.end_minutes := 360;
     Utils.duration_minutes := 480; Utils.duration_hours := 8%float;
     Utils.cross_midnight := true |}.

Definition night_result : Utils.OffPeak :=
  {| Utils.type := Some "HC"; Utils.ranges := [night_range];
     Utils.total_hours := 8%float; Utils.range_count := 1 |}.

Definition morning_range : Utils.TimeRange :=
  {| Utils.start := "00:30"; Utils.end_ := "06:30";
     Utils.start_time := Time 0 30; Utils.end_time := Time 6 30;
     Utils.start_minutes := 30; Utils.end_minutes := 390;
     Utils.duration_minutes := 360; Utils.duration_hours := 6%float;
     Utils.cross_midnight := false |}.

(** What is returned for ["HC 00H30-06H30 22H00-24H00"]. *)
Definition partial_result : Utils.OffPeak :=
  {| Utils.type := Some "HC"; Utils.ranges := [morning_range];
     Utils.total_hours := 0%float; Utils.range_count := 0 |}.

(** What [_fetch_all_data] holds after fetching for an account with a
    terminated meter and a "RESIL" but "ACTIVE" one, hourly frequency, at
    the instant 1762178400000000. *)
Definition fetched : Coordinator.Fetched :=
  {| Coordinator.f_account_id := "42";
     Coordinator.f_account_data :=
       account (Has "42") (Has "A-12345678") [resil_active_meter];
     Coordinator.f_electricity_meter_id := Some "PRM2";
     Coordinator.f_gas_meter_id := None;
     Coordinator.f_window := ("1761919200000000", "1762178400000000");
     Coordinator.f_electricity_readings := [] |}.

Definition two_meter_snapshot : Snapshot :=
  {| data_supply_points :=
       Has {| electricity := Has [terminated_meter; resil_active_meter];
              gas := Absent |};
     data_electricity := Absent |}.

Definition priced (lbl : string) (cents : Z) : Statistic :=
  {| label := Has lbl; value := Null;
     costInclTax := Has {| estimatedAmount := Has (Int cents) |} |}.

Definition unpriced (lbl : string) : Statistic :=
  {| label := Has lbl; value := Null; costInclTax := Null |}.

Definition reading (at_ : field string) (stats : list Statistic) : Reading :=
  {| startAt := at_; metaData := Has {| statistics := Has stats |} |}.

Definition snapshot (rs : field (list Reading)) : Snapshot :=
  {| data_supply_points := Absent;
     data_electricity := Has {| readings := rs |} |}.

Definition cout_base : Sensor.SensorConfig :=
  {| Sensor.key := "cout_base"; Sensor.precision := Some 2%nat |}.

Definition conso_base : Sensor.SensorConfig :=
  {| Sensor.key := "conso_base"; Sensor.precision := Some 2%nat |}.

(** A statistic with a consumption in kWh and no cost. *)
Definition consumed (lbl : string) (kwh : float) : Statistic :=
  {| label := Has lbl; value := Has (Float kwh); costInclTax := Null |}.

(** Readings around the end of January 2024, as delivered: two readings
    of February, one of the last second of January, and two readings
    without usable timestamp whose [metaData] is null. *)
Definition winter_readings : list Reading :=
  [ reading (Has "2024-02-29T23:59:59+01:00")
      [priced "CONSO_BASE" 66; consumed "BASE" 0.25];
    reading (Has "2024-01-31T23:59:59+01:00")
      [priced "CONSO_BASE" 5000; consumed "BASE" 40];
    {| startAt := Has "not a date"; metaData := Null |};
    {| startAt := Null; metaData := Null |};
    reading (Has "2024-02-01T00:00:00+01:00")
      [priced "CONSO_BASE" 1234; priced "CONSO_HEURES_PLEINES" 999;
       consumed "BASE" 1.5] ].

End Examples.

From Stdlib Require Import Permutation DecimalNat.

(** ** [sensor.py], further functions *)

Module SensorMore.
Import Py Api Sensor.

(** The timestamps collected by the first loop of [_window_info]: the
    [startAt] of the readings that have a non-empty one. *)
Definition starts_of (readings : list Reading) : list string :=
  flat_map
    (fun r =>
       match get (startAt r) with
       | Some ((String _ _) as s) => [s]
       | Some EmptyString | None => []
       end)
    readings.

Fixpoint insert_string (x : string) (l : list string) : list string :=
  match l with
  | [] => [x]
  | y :: tl =>
      if String.leb x y then x :: y :: tl else y :: insert_string x tl
  end.

(** [sorted(starts)] on a list of strings. *)
Definition sorted_strings (starts : list string) : list string :=
  fold_right insert_string [] starts.

(** [_window_info]. *)
Definition _window_info (readings : list Reading)
  : option string * option string * Z :=
  let starts := starts_of readings in
  match starts with
  | [] => (None, None, 0)
  | _ :: _ =>
      let starts_sorted := sorted_strings starts in
      (Some (hd "" starts_sorted), Some (last starts_sorted ""),
       Z.of_nat (List.length starts_sorted))
  end.

(** The keys and precisions of [ELECTRICITY_SENSORS], in order. *)
Definition ELECTRICITY_SENSORS : list SensorConfig :=
  [ {| key := "conso_base"; precision := Some 2%nat |};
    {| key := "conso_hp"; precision := Some 2%nat |};
    {| key := "conso_hc"; precision := Some 2%nat |};
    {| key := "cout_base"; precision := Some 2%nat |};
    {| key := "cout_hp"; precision := Some 2%nat |};
    {| key := "cout_hc"; precision := Some 2%nat |};
    {| key := "contract"; precision := None |} ].

(** [x in [...]] on strings. *)
Definition str_in (x : string) (l : list string) : bool :=
  existsb (String.eqb x) l.

(** The configurations for which the loop
    [for sensor_config in ELECTRICITY_SENSORS] of [async_setup_entry]
    appends an [OctopusElectricitySensor], given the tariff detected. *)
Definition electricity_sensor_configs (tariff_type : string)
  : list SensorConfig :=
  filter
    (fun sensor_config =>
       let sensor_key := key sensor_config in
       String.eqb sensor_key "contract"
       || (String.eqb tariff_type "BASE"
           && str_in sensor_key ["conso_base"; "cout_base"])
       || (String.eqb tariff_type "HPHC"
           && str_in sensor_key
                ["conso_hp"; "conso_hc"; "cout_hp"; "cout_hc"]))
    ELECTRICITY_SENSORS.

(** [str(x)] for [x : str | None], as formatted by a logging call. *)
Definition str_of (x : option string) : string :=
  match x with
  | Some s => s
  | None => "None"
  end.

(** The [OctopusElectricitySensor] entities appended for the meters of a
    list, each as its [prm_id] and configuration: the body of the loop
    [for elec_meter in ...] after its guard.  The index sensors appended
    by the same loop are other entities and are left out; they are read
    from [data["electricity"]], which the tariff detection has accessed
    before. *)
Fixpoint electricity_entities_of (data : Snapshot) (meters : list Meter)
  : logged (list (option string * SensorConfig)) :=
  match meters with
  | [] => (Ok [], [])
  | elec_meter :: rest =>
      let prm_id := get (id elec_meter) in
      match _detect_tariff_type_for_meter data (str_of prm_id) with
      | (Raise e, logs) => (Raise e, logs)
      | (Ok tariff_type, logs) =>
          let mine :=
            map (fun cfg => (prm_id, cfg))
                (electricity_sensor_configs tariff_type) in
          match electricity_entities_of data rest with
          | (Raise e, logs') => (Raise e, logs ++ logs')
          | (Ok others, logs') => (Ok (mine ++ others), logs ++ logs')
          end
      end
  end.

(** The [OctopusElectricitySensor] entities of [async_setup_entry]. *)
Definition electricity_entities (data : Snapshot)
  : logged (list (option string * SensorConfig)) :=
  match setup_electricity_meters data with
  | Raise e => (Raise e, [])
  | Ok meters => electricity_entities_of data meters
  end.

(** The keys of [GAS_SENSORS], in order. *)
Definition GAS_SENSORS : list SensorConfig :=
  [ {| key := "consumption"; precision := Some 2%nat |};
    {| key := "contract"; precision := None |} ].

(** The parameters, after [self], of the [__init__] that class
    [OctopusGasSensor] is left with.  Its body defines [__init__] twice,
    first with [(coordinator, pce_ref, sensor_config, reading_frequency)]
    and, further down, with [(coordinator, account_number, sensor_config)];
    the second binding replaces the first. *)
Definition OctopusGasSensor_init : list string :=
  ["coordinator"; "account_number"; "sensor_config"].

(** A positional argument of the call. *)
Inductive argument : Type :=
| TheCoordinator
| AString (s : option string)
| AConfig (c : SensorConfig).

(** The names of the parameters left without argument, as CPython lists
    them. *)
Definition missing_names (names : list string) : string :=
  match names with
  | [] => ""
  | [a] => "'" ++ a ++ "'"
  | [a; b] => "'" ++ a ++ "' and '" ++ b ++ "'"
  | _ =>
      String.concat ", "
        (map (fun n => "'" ++ n ++ "'") (removelast names))
      ++ ", and '" ++ last names "" ++ "'"
  end%string.

(** [OctopusGasSensor(a1, ..., an)]: the arguments are bound to the parameters
    of [__init__] when there are as many of them, and the call raises
    [TypeError] otherwise.  On success the bound arguments stand for the
    entity. *)
Definition OctopusGasSensor (args : list argument) : result (list argument) :=
  let params := OctopusGasSensor_init in
  let given := List.length args in
  if (List.length params <? given)%nat
  then Raise (Exn TypeError
                ("OctopusGasSensor.__init__() takes "
                 ++ NilZero.string_of_uint (Nat.to_uint (S (List.length params)))
                 ++ " positional arguments but "
                 ++ NilZero.string_of_uint (Nat.to_uint (S given))
                 ++ " were given")%string
                None)
  else if (given <? List.length params)%nat
  then Raise (Exn TypeError
                ("OctopusGasSensor.__init__() missing "
                 ++ NilZero.string_of_uint
                      (Nat.to_uint (List.length params - given))
                 ++ " required positional argument"
                 ++ (if (List.length params - given =? 1)%nat then ""
                     else "s")
                 ++ ": " ++ missing_names (skipn given params))%string
                None)
  else Ok args.

(** Evaluation of a list of constructor calls, up to the first that
    raises. *)
Fixpoint sequence {A : Type} (l : list (result A)) : result (list A) :=
  match l with
  | [] => Ok []
  | m :: rest => x <- m ;; xs <- sequence rest ;; Ok (x :: xs)
  end.

(** The generator handed to [entities.extend] for the gas meters:
    [OctopusGasSensor(coordinator, gas_meter.get("id"), sensor_config,
    reading_frequency)] for each gas meter and each of [GAS_SENSORS]. *)
Definition gas_entities (data : Snapshot) (reading_frequency : string)
  : result (list (list argument)) :=
  match data_supply_points data with
  | Absent => Ok []
  | Null =>
      Raise (Exn AttributeError
               "'NoneType' object has no attribute 'get'" None)
  | Has sps =>
      match gas sps with
      | Absent => Ok []
      | Null =>
          Raise (Exn TypeError "'NoneType' object is not iterable" None)
      | Has gas_meters =>
          sequence
            (flat_map
               (fun gas_meter =>
                  map (fun sensor_config =>
                         OctopusGasSensor
                           [TheCoordinator; AString (get (id gas_meter));
                            AConfig sensor_config;
                            AString (Some reading_frequency)])
                      GAS_SENSORS)
               gas_meters)
      end
  end.

End SensorMore.

(** ** [binary_sensor.py] *)

Module BinarySensor.
Import Py Api.

(** A value stored in the attributes of a binary sensor. *)
Inductive attribute : Type :=
| NoneValue
| Str (s : string)
| Num (x : float)
| Count (n : Z).

(** A dictionary with string keys, in insertion order. *)
Definition dict : Type := list (string * attribute).

(** [d[k] = v]. *)
Fixpoint dict_set (k : string) (v : attribute) (d : dict) : dict :=
  match d with
  | [] => [(k, v)]
  | (k', v') :: tl =>
      if String.eqb k' k then (k', v) :: tl else (k', v') :: dict_set k v tl
  end.

(** [d.get(k)]. *)
Fixpoint dict_get (k : string) (d : dict) : option attribute :=
  match d with
  | [] => None
  | (k', v') :: tl => if String.eqb k' k then Some v' else dict_get k tl
  end.

(** [f"off_peak_range_{i}<suffix>"]. *)
Definition range_key (i : nat) (suffix : string) : string :=
  ("off_peak_range_" ++ NilZero.string_of_uint (Nat.to_uint i) ++ suffix)
  %string.

(** The loop [for i, time_range in enumerate(ranges, i)]. *)
Fixpoint add_ranges (i : nat) (ranges : list Utils.TimeRange)
  (electricity_attributes : dict) : dict :=
  match ranges with
  | [] => electricity_attributes
  | time_range :: rest =>
      add_ranges (S i) rest
        (dict_set (range_key i "_duration")
           (Num (Utils.duration_hours time_range))
           (dict_set (range_key i "_end") (Str (Utils.end_ time_range))
              (dict_set (range_key i "_start")
                 (Str (Utils.start time_range))
                 electricity_attributes)))
  end.

(** The dictionary [electricity_attributes] once the ranges are added. *)
Definition electricity_attributes (off_peak_data : Utils.OffPeak)
  (reading_frequency prm_id : string) : dict :=
  add_ranges 1 (Utils.ranges off_peak_data)
    [ ("off_peak_type",
       match Utils.type off_peak_data with
       | Some t => Str t
       | None => NoneValue
       end);
      ("off_peak_total_hours", Num (Utils.total_hours off_peak_data));
      ("off_peak_range_count", Count (Utils.range_count off_peak_data));
      ("reading_frequency", Str reading_frequency);
      ("prm_id", Str prm_id) ].

(** The arguments with which [OctopusFrenchHcBinarySensor] is created. *)
Record HcSensor : Type := {
  prm_id : string;
  electricity_sensor_attributes : dict;
  reading_frequency : string
}.

(** One iteration of [for meter in electricity_points]: the sensor
    appended, if any. *)
Definition hc_sensor_for (reading_frequency : string) (meter : Meter)
  : logged (option HcSensor) :=
  let off_peak_label := get (offPeakLabel meter) in
  match get (id meter) with
  | Some ((String _ _) as prm_id) =>
      if truthy_str off_peak_label then
        match Utils.parse_off_peak_hours off_peak_label with
        | (Ok off_peak_data, logs) =>
            match Utils.ranges off_peak_data with
            | _ :: _ =>
                (Ok (Some
                       {| prm_id := prm_id;
                          electricity_sensor_attributes :=
                            electricity_attributes off_peak_data
                              reading_frequency prm_id;
                          reading_frequency := reading_frequency |}),
                 logs)
            | [] => (Ok None, logs)
            end
        | (Raise e, logs) => (Raise e, logs)
        end
      else (Ok None, [])
  | Some EmptyString | None => (Ok None, [])
  end.

(** The loop over the meters: the list [sensors]. *)
Fixpoint hc_sensors (reading_frequency : string) (meters : list Meter)
  : logged (list HcSensor) :=
  match meters with
  | [] => (Ok [], [])
  | meter :: rest =>
      match hc_sensor_for reading_frequency meter with
      | (Raise e, logs) => (Raise e, logs)
      | (Ok made, logs) =>
          match hc_sensors reading_frequency rest with
          | (Raise e, logs') => (Raise e, logs ++ logs')
          | (Ok others, logs') =>
              (Ok (match made with
                   | Some s => s :: others
                   | None => others
                   end),
               logs ++ logs')
          end
      end
  end.

(** [async_setup_entry]: the sensors handed to [async_add_entities].
    [data] is [coordinator.data], [None] before the first refresh; an
    empty dictionary has no supply points and gives no sensor either
    way. *)
Definition async_setup_entry (data : option Snapshot)
  (reading_frequency : string) : logged (list HcSensor) :=
  match data with
  | None => (Ok [], [])
  | Some data =>
      match data_supply_points data with
      | Absent => (Ok [], [])
      | Null =>
          (Raise (Exn AttributeError
                    "'NoneType' object has no attribute 'get'" None), [])
      | Has sps =>
          match electricity sps with
          | Absent => (Ok [], [])
          | Null =>
              (Raise (Exn TypeError "'NoneType' object is not iterable"
                        None), [])
          | Has electricity_points =>
              hc_sensors reading_frequency electricity_points
          end
      end
  end.

End BinarySensor.

(** ** Further notions used to state properties *)

Module SpecMore.
Import Py Api.

(** The times and minutes of a range lie within one day. *)
Definition within_a_day (r : Utils.TimeRange) : Prop :=
  0 <= hour (Utils.start_time r) <= 23
  /\ 0 <= minute (Utils.start_time r) <= 59
  /\ 0 <= hour (Utils.end_time r) <= 23
  /\ 0 <= minute (Utils.end_time r) <= 59
  /\ 0 <= Utils.start_minutes r <= 1439
  /\ 0 <= Utils.end_minutes r <= 1439
  /\ 1 <= Utils.duration_minutes r <= 1440
  /\ (Utils.duration_minutes r = 1440
      <-> Utils.start_minutes r = Utils.end_minutes r).

(** The three answers of the tariff detection. *)
Definition is_tariff (t : string) : Prop :=
  t = "BASE" \/ t = "HPHC" \/ t = "UNKNOWN".

(** The snapshot makes the tariff detection call [.get] on [None]. *)
Definition null_on_the_way (data : Snapshot) : Prop :=
  data_electricity data = Null
  \/ exists el r rs,
       data_electricity data = Has el
       /\ readings el = Has (r :: rs)
       /\ metaData (last rs r) = Null.

(** The first occurrence of the time pattern in the label converts to a
    range. *)
Definition first_range_is_valid (label : string) : bool :=
  match Utils.findall (list_ascii_of_string label) with
  | m :: _ =>
      match Utils.range_of_match m with
      | Ok _ => true
      | Raise _ => false
      end
  | [] => false
  end.

(** The meter has an identifier and an off-peak label with a valid first
    range. *)
Definition has_off_peak_hours (m : Meter) : bool :=
  truthy_str (get (id m))
  && match get (offPeakLabel m) with
     | Some l => first_range_is_valid l
     | None => false
     end.

(** The string is made of decimal digits. *)
Fixpoint digits_only (s : string) : Prop :=
  match s with
  | EmptyString => True
  | String c t => is_digit c = true /\ digits_only t
  end.

(** The three suffixes of the attributes of a range. *)
Definition range_suffix (s : string) : Prop :=
  s = "_start" \/ s = "_end" \/ s = "_duration".

(** The string does not begin with an uppercase ASCII letter. *)
Definition no_upper_head (s : list ascii) : Prop :=
  match s with
  | [] => True
  | c :: _ => is_upper c = false
  end.

End SpecMore.

(** ** Further data of the examples *)

Module ExamplesMore.
Import Py Api.

(** A coordinator whose client fails on every request for readings. *)
Definition failing_readings_coordinator (meters : list Meter)
  : Coordinator.Self :=
  {| Coordinator.api_client :=
       {| Coordinator.get_account_data :=
            fun _ => Ok (Examples.account (Has "42") (Has "A-12345678")
                           meters);
          Coordinator.get_energy_readings :=
            fun _ => Raise (Exn (OtherException "ClientError") "timeout"
                              None) |};
     Coordinator.self_account_number := "A-12345678";
     Coordinator.reading_frequency := "HOUR_INTERVAL" |}.

Definition account_without_supply_points : AccountData :=
  {| account_id := Has "42"; account_number := Has "A-12345678";
     supply_points := Absent |}.

(** A snapshot with a terminated meter, a kept one, and a last reading
    priced at the base tariff. *)
Definition base_snapshot : Snapshot :=
  {| data_supply_points :=
       Has {| electricity :=
                Has [Examples.terminated_meter; Examples.resil_active_meter];
              gas := Absent |};
     data_electricity :=
       Has {| readings :=
                Has [Examples.reading (Has "2024-02-10T12:00:00+01:00")
                       [Examples.priced "CONSO_BASE" 1234]] |} |}.

Definition base_entities : list (option string * Sensor.SensorConfig) :=
  [ (Some "PRM2",
     {| Sensor.key := "conso_base"; Sensor.precision := Some 2%nat |});
    (Some "PRM2",
     {| Sensor.key := "cout_base"; Sensor.precision := Some 2%nat |});
    (Some "PRM2",
     {| Sensor.key := "contract"; Sensor.precision := None |}) ].

(** A meter with off-peak hours across midnight. *)
Definition night_meter : Meter :=
  {| id := Has "PRM4"; distributorStatus := Has "SERVC";
     poweredStatus := Has "ACTIVE";
     offPeakLabel := Has "HC 22H00-06H00" |}.

(** A meter whose only range has an hour of 25. *)
Definition invalid_hours_meter : Meter :=
  {| id := Has "PRM5"; distributorStatus := Has "SERVC";
     poweredStatus := Has "ACTIVE";
     offPeakLabel := Has "HC 25H00-06H00" |}.

Definition night_sensor : BinarySensor.HcSensor :=
  {| BinarySensor.prm_id := "PRM4";
     BinarySensor.electricity_sensor_attributes :=
       [ ("off_peak_type", BinarySensor.Str "HC");
         ("off_peak_total_hours", BinarySensor.Num 8);
         ("off_peak_range_count", BinarySensor.Count 1);
         ("reading_frequency", BinarySensor.Str "HOUR_INTERVAL");
         ("prm_id", BinarySensor.Str "PRM4");
         ("off_peak_range_1_start", BinarySensor.Str "22:00");
         ("off_peak_range_1_end", BinarySensor.Str "06:00");
         ("off_peak_range_1_duration", BinarySensor.Num 8) ];
     BinarySensor.reading_frequency := "HOUR_INTERVAL" |}.

Definition off_peak_snapshot : Snapshot :=
  {| data_supply_points :=
       Has {| electricity :=
                Has [Examples.resil_active_meter; night_meter;
                     invalid_hours_meter];
              gas := Absent |};
     data_electricity := Absent |}.

End ExamplesMore.

(* ===================================================================== *)
(** * Part II: properties *)
(* ===================================================================== *)

Import Py.

(** ** The off-peak label parser *)

Section OffPeakParser.
Import Utils.

Example parse_two_ranges :
  returned (parse_off_peak_hours (Some "HC 00H30-06H30 14H30-16H30"))
  = Ok {| type := Some "HC";
          ranges :=
            [ {| start := "00:30"; end_ := "06:30";
                 start_time := Time 0 30; end_time := Time 6 30;
                 start_minutes := 30; end_minutes := 390;
                 duration_minutes := 360; duration_hours := 6%float;
                 cross_midnight := false |};
              {| start := "14:30"; end_ := "16:30";
                 start_time := Time 14 30; end_time := Time 16 30;
                 start_minutes := 870; end_minutes := 990;
                 duration_minutes := 120; duration_hours := 2%float;
                 cross_midnight := false |} ];
          total_hours := 8%float;
          range_count := 2 |}.
Proof. vm_compute. reflexivity. Qed.

(** A label with a type and no range. *)
Example parse_type_only :
  parse_off_peak_hours (Some "HP")
  = (Ok {| type := Some "HP"; ranges := [];
           total_hours := 0%float; range_count := 0 |}, []).
Proof. vm_compute. reflexivity. Qed.

(** Inversion of the monadic bind. *)
Lemma bind_Ok_inv {A B : Type} (m : result A) (k : A -> result B) (b : B) :
  (x <- m ;; k x) = Ok b -> exists a, m = Ok a /\ k a = Ok b.
Proof.
  destruct m as [a | e]; simpl; intros H.
  - exists a. split; [reflexivity | exact H].
  - discriminate H.
Qed.

Lemma mk_time_Ok_inv (h m : Z) (t : time) :
  mk_time h m = Ok t -> t = Time h m.
Proof.
  unfold mk_time. intros H.
  destruct (negb ((0 <=? h) && (h <=? 23))); [discriminate H |].
  destruct (negb ((0 <=? m) && (m <=? 59))); [discriminate H |].
  now inversion H.
Qed.

(** Every range built by the loop body has the shape of the specification. *)
Lemma range_of_match_shape (m : groups) (r : TimeRange) :
  range_of_match m = Ok r -> Spec.range_shape r.
Proof.
  destruct m as [[[g1 g2] g3] g4]. unfold range_of_match. intros H.
  apply bind_Ok_inv in H. destruct H as (sh & _ & H).
  apply bind_Ok_inv in H. destruct H as (sm & _ & H).
  apply bind_Ok_inv in H. destruct H as (eh & _ & H).
  apply bind_Ok_inv in H. destruct H as (em & _ & H).
  apply bind_Ok_inv in H. destruct H as (ts & Hts & H).
  apply bind_Ok_inv in H. destruct H as (te & Hte & H).
  apply mk_time_Ok_inv in Hts. apply mk_time_Ok_inv in Hte.
  inversion H; subst; clear H. unfold Spec.range_shape; simpl.
  repeat split.
  - apply Z.leb_le in H. now rewrite H.
  - apply Z.leb_le in H. rewrite H. simpl. lia.
  - apply Z.leb_gt. lia.
  - assert (E : (eh * 60 + em <=? sh * 60 + sm) = false)
      by (apply Z.leb_gt; lia).
    now rewrite E.
Qed.

(** The loop only ever appends ranges produced by its body. *)
Lemma parse_ranges_Forall (P : TimeRange -> Prop) :
  (forall m r, range_of_match m = Ok r -> P r) ->
  forall matches total res,
    Forall P (ranges res) ->
    Forall P (ranges (fst (parse_ranges matches total res))).
Proof.
  intros HP matches.
  induction matches as [| m rest IH]; intros total res Hres; simpl.
  - exact Hres.
  - destruct (range_of_match m) as [x | e] eqn:Hm; simpl.
    + apply IH. simpl. apply Forall_app. split; [exact Hres |].
      constructor; [| constructor]. now apply (HP m).
    + exact Hres.
Qed.

(** When the loop completes, its counter is the sum of what it appended. *)
Lemma parse_ranges_total (matches : list groups) :
  forall total res res' total',
    parse_ranges matches total res = (res', Ok total') ->
    total' - Spec.sum_minutes (ranges res')
    = total - Spec.sum_minutes (ranges res).
Proof.
  induction matches as [| m rest IH]; intros total res res' total' H;
    simpl in H.
  - now inversion H.
  - destruct (range_of_match m) as [x | e]; [| discriminate H].
    apply IH in H. rewrite H. simpl.
    assert (E : forall l, Spec.sum_minutes (l ++ [x])
                          = Spec.sum_minutes l + duration_minutes x).
    { induction l as [| y l IHl]; simpl; [lia | rewrite IHl; lia]. }
    rewrite E. lia.
Qed.

Lemma try_block_ranges (P : TimeRange -> Prop) (label : list ascii) :
  (forall m r, range_of_match m = Ok r -> P r) ->
  Forall P (ranges (fst (try_block label default_result))).
Proof.
  intros HP. unfold try_block.
  set (res1 := match match_type label with
               | Some t => set_type t default_result
               | None => default_result
               end).
  assert (H1 : Forall P (ranges res1))
    by (subst res1; destruct (match_type label); constructor).
  pose proof (parse_ranges_Forall P HP (findall label) 0 res1 H1) as H.
  destruct (parse_ranges (findall label) 0 res1) as [res2 [t | e]];
    simpl in *; exact H.
Qed.

(** The value returned is the dictionary as the [try] block left it, or
    the default one when the label is empty. *)
Lemma parse_returns (label : option string) :
  exists res,
    returned (parse_off_peak_hours label) = Ok res
    /\ (res = default_result
        \/ exists s, res = fst (try_block (list_ascii_of_string s)
                                          default_result)).
Proof.
  unfold parse_off_peak_hours.
  destruct (negb (truthy_str label)).
  - exists default_result. split; [reflexivity | now left].
  - set (s := match label with Some s => s | None => "" end).
    destruct (try_block (list_ascii_of_string s) default_result)
      as [res [u | err]] eqn:E.
    + exists res. split; [reflexivity |]. right. exists s. now rewrite E.
    + exists res. assert (Hx : is_Exception err = true)
        by (destruct err as [[] ? ?]; reflexivity).
      rewrite Hx. split; [reflexivity |]. right. exists s. now rewrite E.
Qed.

(** C5. Every time range that the parser returns is computed as the
    specification says: its minutes are [hour*60+minute] of its two times;
    when the end is not after the start it is flagged as crossing midnight
    and lasts [(1440 - start) + end] minutes, otherwise it is not flagged
    and lasts [end - start] minutes; its duration in hours is the duration
    in minutes divided by 60 and rounded to 2 decimals.  On
    ["HC 22H00-06H00"] there is one range, of 8.0 hours, across midnight. *)
Theorem parsed_ranges_follow_the_rule :
  (forall (label : option string) (res : OffPeak) (r : TimeRange),
      returned (parse_off_peak_hours label) = Ok res ->
      In r (ranges res) ->
      Spec.range_shape r)
  /\ (exists res r,
         returned (parse_off_peak_hours (Some "HC 22H00-06H00")) = Ok res
         /\ ranges res = [r]
         /\ start_minutes r = 22 * 60 + 0
         /\ end_minutes r = 6 * 60 + 0
         /\ duration_minutes r = 480
         /\ duration_hours r = 8%float
         /\ cross_midnight r = true).
Proof.
  split.
  - intros label res r Hres Hin.
    destruct (parse_returns label) as (res' & Hret & Hsrc).
    rewrite Hret in Hres. inversion Hres; subst res'; clear Hres.
    destruct Hsrc as [-> | (s & ->)].
    + destruct Hin.
    + pose proof (try_block_ranges Spec.range_shape (list_ascii_of_string s)
                    range_of_match_shape) as HF.
      rewrite Forall_forall in HF. now apply HF.
  - eexists. eexists. vm_compute. repeat split.
Qed.

Lemma parsed_ranges_follow_the_rule_witness :
  returned (parse_off_peak_hours (Some "HC 22H00-06H00"))
  = Ok Examples.night_result
  /\ In Examples.night_range (ranges Examples.night_result)
  /\ Spec.range_shape Examples.night_range.
Proof.
  assert (H1 : returned (parse_off_peak_hours (Some "HC 22H00-06H00"))
               = Ok Examples.night_result) by (vm_compute; reflexivity).
  assert (H2 : In Examples.night_range (ranges Examples.night_result))
    by (left; reflexivity).
  split; [exact H1 |]. split; [exact H2 |].
  exact (proj1 parsed_ranges_follow_the_rule _ _ _ H1 H2).
Defined.

(** C9. A missing label and the empty label both give the default result:
    no type, no range, a total of 0.0 hours and a count of 0; nothing is
    raised and nothing is logged. *)
Theorem parse_missing_or_empty_label :
  parse_off_peak_hours None
  = (Ok {| type := None; ranges := [];
           total_hours := 0%float; range_count := 0 |}, [])
  /\ parse_off_peak_hours (Some "")
     = (Ok {| type := None; ranges := [];
              total_hours := 0%float; range_count := 0 |}, []).
Proof. split; reflexivity. Qed.

(** C8. The parser returns a dictionary for every label.  When the [try]
    block raises, the exception is logged as one warning and the
    dictionary is returned as the block left it. *)
Theorem parse_catches_every_error (label : option string) :
  (exists res, returned (parse_off_peak_hours label) = Ok res)
  /\ (forall (s : string) (res : OffPeak) (err : exn),
         label = Some s ->
         try_block (list_ascii_of_string s) default_result
         = (res, Raise err) ->
         parse_off_peak_hours label
         = (Ok res, [LogRecord WARNING s err])).
Proof.
  split.
  - destruct (parse_returns label) as (res & H & _). now exists res.
  - intros s res err -> Hblock. unfold parse_off_peak_hours.
    destruct s as [| c s'].
    + vm_compute in Hblock. discriminate Hblock.
    + cbn [truthy_str negb]. rewrite Hblock.
      assert (Hx : is_Exception err = true)
        by (destruct err as [[] ? ?]; reflexivity).
      now rewrite Hx.
Qed.

Lemma parse_catches_every_error_witness :
  parse_off_peak_hours (Some "HC 00H30-06H30 22H00-24H00")
  = (Ok Examples.partial_result,
     [LogRecord WARNING "HC 00H30-06H30 22H00-24H00"
        (Exn ValueError "hour must be in 0..23" None)]).
Proof.
  apply (proj2 (parse_catches_every_error
                  (Some "HC 00H30-06H30 22H00-24H00"))
           "HC 00H30-06H30 22H00-24H00" Examples.partial_result
           (Exn ValueError "hour must be in 0..23" None)).
  - reflexivity.
  - vm_compute. reflexivity.
Defined.

(** When the [try] block runs to its end, the count is the number of
    ranges and the total is their summed minutes over 60, rounded. *)
Lemma try_block_complete_consistent (label : list ascii) (res : OffPeak)
  (u : unit) :
  try_block label default_result = (res, Ok u) -> Spec.consistent res.
Proof.
  unfold try_block.
  set (res1 := match match_type label with
               | Some t => set_type t default_result
               | None => default_result
               end).
  assert (H1 : ranges res1 = [])
    by (subst res1; destruct (match_type label); reflexivity).
  destruct (parse_ranges (findall label) 0 res1) as [res2 [t | e]] eqn:E;
    intros H; [| discriminate H].
  inversion H; subst res; clear H.
  apply parse_ranges_total in E. rewrite H1 in E. simpl in E.
  unfold Spec.consistent; simpl. split; [reflexivity |].
  replace t with (Spec.sum_minutes (ranges res2)) by lia. reflexivity.
Qed.

(** C10. On a label whose second range has an hour of 24, the first range
    has been appended when [time] raises: the dictionary returned holds
    one range while its count is 0 and its total 0.0. *)
Theorem parse_partial_result_is_inconsistent :
  exists res,
    returned (parse_off_peak_hours (Some "HC 00H30-06H30 22H00-24H00"))
    = Ok res
    /\ List.length (ranges res) = 1%nat
    /\ Spec.sum_minutes (ranges res) = 360
    /\ range_count res = 0
    /\ total_hours res = 0%float
    /\ ~ Spec.consistent res.
Proof.
  exists Examples.partial_result.
  split; [vm_compute; reflexivity |].
  repeat split.
  intros [Hcount _]. vm_compute in Hcount. discriminate Hcount.
Qed.

End OffPeakParser.

(** ** The refresh coordinator *)

Section RefreshCoordinator.
Import Api Coordinator.

Variable isoformat : datetime -> string.
Variable remainder : Fetched -> result Snapshot.

(** C4. The request window ends at [now] and starts 72 hours earlier for
    the hourly frequency (not 48), 31 days earlier for the daily one, and
    7 days earlier for any other value; the two instants are returned in
    ISO format. *)
Theorem window_by_frequency (self : Self) (now : datetime) :
  let hour_us := 3600000000 in
  let day_us := 24 * hour_us in
  (reading_frequency self = "HOUR_INTERVAL" ->
   _compute_date_window isoformat self now
   = (isoformat (now - 72 * hour_us), isoformat now)
   /\ fst (date_window (reading_frequency self) now) <> now - 48 * hour_us)
  /\ (reading_frequency self = "DAY_INTERVAL" ->
      _compute_date_window isoformat self now
      = (isoformat (now - 31 * day_us), isoformat now))
  /\ (reading_frequency self <> "HOUR_INTERVAL" ->
      reading_frequency self <> "DAY_INTERVAL" ->
      _compute_date_window isoformat self now
      = (isoformat (now - 7 * day_us), isoformat now)).
Proof.
  intros hour_us day_us. unfold _compute_date_window, date_window.
  unfold Const.FREQ_HOURLY, Const.FREQ_DAILY, timedelta_hours, timedelta_days.
  subst hour_us day_us.
  split; [| split].
  - intros H. rewrite H. cbn [String.eqb Ascii.eqb Bool.eqb fst].
    split; [reflexivity | lia].
  - intros H. rewrite H. cbn [String.eqb Ascii.eqb Bool.eqb]. reflexivity.
  - intros Hh Hd.
    apply String.eqb_neq in Hh. apply String.eqb_neq in Hd.
    rewrite Hh, Hd. reflexivity.
Qed.

Lemma is_UpdateFailed_spec (e : exn) :
  is_UpdateFailed e = true <-> exn_cls e = UpdateFailed.
Proof.
  unfold is_UpdateFailed. destruct (exn_cls e); split; intros H;
    try reflexivity; discriminate H.
Qed.

(** C2. Within one refresh: an account response without account id or
    without account number makes the refresh raise [UpdateFailed]; an
    exception of any other class raised while fetching is re-raised as one
    [UpdateFailed] whose cause is the original exception; an
    [UpdateFailed] raised while fetching comes out as it is. *)
Theorem refresh_raises_update_failed (self : Self) (now : datetime) :
  (forall account_data,
      get_account_data (api_client self) (self_account_number self)
      = Ok account_data ->
      (truthy_str (get (account_id account_data)) = false ->
       _async_update_data isoformat remainder self now
       = Raise (Exn UpdateFailed "Missing account_id in API response" None))
      /\ (truthy_str (get (account_id account_data)) = true ->
          truthy_str (get (account_number account_data)) = false ->
          _async_update_data isoformat remainder self now
          = Raise (Exn UpdateFailed
                     "Missing account_number in API response" None)))
  /\ (forall err,
         _fetch_all_data isoformat remainder self now = Raise err ->
         exn_cls err <> UpdateFailed ->
         _async_update_data isoformat remainder self now
         = Raise (Exn UpdateFailed
                    ("Error communicating with API: " ++ exn_msg err)%string
                    (Some err)))
  /\ (forall err,
         _fetch_all_data isoformat remainder self now = Raise err ->
         exn_cls err = UpdateFailed ->
         _async_update_data isoformat remainder self now = Raise err).
Proof.
  split; [| split].
  - intros account_data Hget.
    unfold _async_update_data, _fetch_all_data, fetch_readings.
    rewrite Hget. cbn [bind]. split.
    + intros Hid. rewrite Hid. reflexivity.
    + intros Hid Hnum. rewrite Hid, Hnum. reflexivity.
  - intros err Hfetch Hcls. unfold _async_update_data. rewrite Hfetch.
    destruct (is_UpdateFailed err) eqn:E.
    + apply is_UpdateFailed_spec in E. contradiction.
    + assert (Hx : is_Exception err = true)
        by (destruct err as [[] ? ?]; reflexivity).
      now rewrite Hx.
  - intros err Hfetch Hcls. unfold _async_update_data. rewrite Hfetch.
    apply is_UpdateFailed_spec in Hcls. now rewrite Hcls.
Qed.

(** The comprehension keeps exactly the meters that are not terminated. *)
Lemma is_terminated_spec (m : Meter) :
  is_terminated m = true <-> Spec.terminated m.
Proof.
  unfold is_terminated, Spec.terminated, eq_str.
  rewrite andb_true_iff.
  destruct (get (distributorStatus m)) as [d |],
           (get (poweredStatus m)) as [p |]; simpl.
  - rewrite !String.eqb_eq. split; intros [H1 H2].
    + now subst.
    + now inversion H1; inversion H2.
  - split; intros [H1 H2]; discriminate.
  - split; intros [H1 H2]; discriminate.
  - split; intros [H1 H2]; discriminate.
Qed.

Lemma fetch_readings_account (self : Self) (now : datetime) (f : Fetched) :
  fetch_readings isoformat self now = Ok f ->
  exists account_data sps meters,
    get_account_data (api_client self) (self_account_number self)
    = Ok account_data
    /\ supply_points account_data = Has sps
    /\ electricity sps = Has meters
    /\ supply_points (f_account_data f)
       = Has {| electricity := Has (filter_supply_points meters);
                gas := gas sps |}.
Proof.
  unfold fetch_readings. intros H.
  destruct (get_account_data (api_client self) (self_account_number self))
    as [ad | e] eqn:Hget; [| discriminate H].
  cbn [bind] in H.
  destruct (negb (truthy_str (get (account_id ad)))); [discriminate H |].
  destruct (negb (truthy_str (get (account_number ad)))); [discriminate H |].
  unfold electricity_of in H.
  destruct (supply_points ad) as [| | sps] eqn:Hsps; try discriminate H.
  destruct (electricity sps) as [| | meters] eqn:Hel; try discriminate H.
  cbn [bind] in H.
  exists ad, sps, meters. repeat split; try assumption.
  destruct (first_meter_id (Some (filter_supply_points meters)))
    as [eid | e]; [| discriminate H].
  cbn [bind] in H.
  destruct (first_meter_id _) as [gid | e] in H; [| discriminate H].
  cbn [bind] in H.
  destruct (_compute_date_window isoformat self now) as [a b].
  destruct (if truthy_str eid then _ else _) as [rs | e] in H;
    [| discriminate H].
  cbn [bind] in H. inversion H. reflexivity.
Qed.

(** C3. A meter of the account is dropped exactly when its distributor
    status is "RESIL" and its powered status is "LIMI": the list kept by
    the comprehension, the list stored back into the account data by a
    successful fetch, and the meters for which the sensor platform creates
    entities, all hold the other meters and only them.  A "RESIL" meter
    that is "ACTIVE" is kept. *)
Theorem terminated_meters_are_dropped :
  (forall (meters : list Meter) (m : Meter),
      In m (filter_supply_points meters)
      <-> In m meters /\ ~ Spec.terminated m)
  /\ (forall (self : Self) (now : datetime) (f : Fetched) (m : Meter),
         fetch_readings isoformat self now = Ok f ->
         exists account_data sps meters kept,
           get_account_data (api_client self) (self_account_number self)
           = Ok account_data
           /\ supply_points account_data = Has sps
           /\ electricity sps = Has meters
           /\ supply_points (f_account_data f)
              = Has {| electricity := Has kept; gas := gas sps |}
           /\ (In m kept <-> In m meters /\ ~ Spec.terminated m))
  /\ (forall (sps : SupplyPoints) (data : Snapshot) (meters : list Meter)
             (m : Meter),
         data_supply_points data = Has sps ->
         electricity sps = Has meters ->
         exists kept,
           Sensor.setup_electricity_meters data = Ok kept
           /\ (In m kept <-> In m meters /\ ~ Spec.terminated m))
  /\ In Examples.resil_active_meter
        (filter_supply_points
           [Examples.terminated_meter; Examples.resil_active_meter;
            Examples.serv_limited_meter])
  /\ ~ In Examples.terminated_meter
         (filter_supply_points
            [Examples.terminated_meter; Examples.resil_active_meter;
             Examples.serv_limited_meter]).
Proof.
  assert (Hfilter : forall meters m,
             In m (filter_supply_points meters)
             <-> In m meters /\ ~ Spec.terminated m).
  { intros meters m. unfold filter_supply_points. rewrite filter_In.
    rewrite negb_true_iff, <- not_true_iff_false, is_terminated_spec.
    reflexivity. }
  split; [exact Hfilter |]. split; [| split; [| split]].
  - intros self now f m Hf.
    destruct (fetch_readings_account self now f Hf)
      as (ad & sps & meters & H1 & H2 & H3 & H4).
    exists ad, sps, meters, (filter_supply_points meters).
    split; [exact H1 |]. split; [exact H2 |]. split; [exact H3 |].
    split; [exact H4 | apply Hfilter].
  - intros sps data meters m Hsps Hel.
    unfold Sensor.setup_electricity_meters. rewrite Hsps, Hel.
    eexists. split; [reflexivity |]. apply (Hfilter meters m).
  - vm_compute. left. reflexivity.
  - rewrite Hfilter. intros [_ H]. apply H. split; reflexivity.
Qed.

End RefreshCoordinator.

Lemma window_by_frequency_witness :
  Coordinator._compute_date_window Examples.isoformat
    (Examples.coordinator (Ok (Examples.account (Has "1") (Has "A") []))
       "HOUR_INTERVAL")
    1762178400000000
  = ("1761919200000000", "1762178400000000")
  /\ Coordinator._compute_date_window Examples.isoformat
       (Examples.coordinator (Ok (Examples.account (Has "1") (Has "A") []))
          "DAY_INTERVAL")
       1762178400000000
     = ("1759500000000000", "1762178400000000")
  /\ Coordinator._compute_date_window Examples.isoformat
       (Examples.coordinator (Ok (Examples.account (Has "1") (Has "A") []))
          "WEEK_INTERVAL")
       1762178400000000
     = ("1761573600000000", "1762178400000000").
Proof.
  split; [| split].
  - exact (proj1 (proj1 (window_by_frequency Examples.isoformat
                           (Examples.coordinator _ "HOUR_INTERVAL")
                           1762178400000000) eq_refl)).
  - exact (proj1 (proj2 (window_by_frequency Examples.isoformat
                           (Examples.coordinator _ "DAY_INTERVAL")
                           1762178400000000)) eq_refl).
  - apply (proj2 (proj2 (window_by_frequency Examples.isoformat
                           (Examples.coordinator _ "WEEK_INTERVAL")
                           1762178400000000))); discriminate.
Defined.

Lemma refresh_raises_update_failed_witness :
  Coordinator._async_update_data Examples.isoformat Examples.publish
    (Examples.coordinator (Ok (Examples.account Absent (Has "A-12345678") []))
       "HOUR_INTERVAL") 0
  = Raise (Exn UpdateFailed "Missing account_id in API response" None)
  /\ Coordinator._async_update_data Examples.isoformat Examples.publish
       (Examples.coordinator (Ok (Examples.account (Has "42") Null []))
          "HOUR_INTERVAL") 0
     = Raise (Exn UpdateFailed "Missing account_number in API response" None)
  /\ Coordinator._async_update_data Examples.isoformat Examples.publish
       (Examples.coordinator
          (Raise (Exn (OtherException "ClientError") "timeout" None))
          "HOUR_INTERVAL") 0
     = Raise (Exn UpdateFailed "Error communicating with API: timeout"
                (Some (Exn (OtherException "ClientError") "timeout" None)))
  /\ Coordinator._async_update_data Examples.isoformat
       Examples.index_unavailable
       (Examples.coordinator
          (Ok (Examples.account (Has "42") (Has "A-12345678") []))
          "HOUR_INTERVAL") 0
     = Raise (Exn UpdateFailed "index unavailable" None).
Proof.
  split; [| split; [| split]].
  - apply (proj1 (proj1 (refresh_raises_update_failed Examples.isoformat
                           Examples.publish (Examples.coordinator _ _) 0)
                    (Examples.account Absent (Has "A-12345678") [])
                    eq_refl)).
    reflexivity.
  - apply (proj2 (proj1 (refresh_raises_update_failed Examples.isoformat
                           Examples.publish (Examples.coordinator _ _) 0)
                    (Examples.account (Has "42") Null [])
                    eq_refl)); reflexivity.
  - apply (proj1 (proj2 (refresh_raises_update_failed Examples.isoformat
                           Examples.publish (Examples.coordinator _ _) 0))
             (Exn (OtherException "ClientError") "timeout" None)).
    + reflexivity.
    + discriminate.
  - apply (proj2 (proj2 (refresh_raises_update_failed Examples.isoformat
                           Examples.index_unavailable
                           (Examples.coordinator _ _) 0))
             (Exn UpdateFailed "index unavailable" None)); reflexivity.
Defined.

Lemma terminated_meters_are_dropped_witness :
  (exists account_data sps meters kept,
      Coordinator.get_account_data (Examples.client
        (Ok (Examples.account (Has "42") (Has "A-12345678")
               [Examples.terminated_meter; Examples.resil_active_meter])))
        "A-12345678"
      = Ok account_data
      /\ Api.supply_points account_data = Has sps
      /\ Api.electricity sps = Has meters
      /\ Api.supply_points (Coordinator.f_account_data Examples.fetched)
         = Has {| Api.electricity := Has kept; Api.gas := Api.gas sps |}
      /\ (In Examples.resil_active_meter kept
          <-> In Examples.resil_active_meter meters
              /\ ~ Spec.terminated Examples.resil_active_meter))
  /\ (exists kept,
         Sensor.setup_electricity_meters Examples.two_meter_snapshot = Ok kept
         /\ (In Examples.terminated_meter kept
             <-> In Examples.terminated_meter
                   [Examples.terminated_meter; Examples.resil_active_meter]
                 /\ ~ Spec.terminated Examples.terminated_meter)).
Proof.
  split.
  - apply (proj1 (proj2 (terminated_meters_are_dropped Examples.isoformat))
             (Examples.coordinator
                (Ok (Examples.account (Has "42") (Has "A-12345678")
                       [Examples.terminated_meter;
                        Examples.resil_active_meter]))
                "HOUR_INTERVAL")
             1762178400000000 Examples.fetched Examples.resil_active_meter).
    vm_compute. reflexivity.
  - apply (proj1 (proj2 (proj2
             (terminated_meters_are_dropped Examples.isoformat)))
             {| Api.electricity :=
                  Has [Examples.terminated_meter;
                       Examples.resil_active_meter];
                Api.gas := Absent |}
             Examples.two_meter_snapshot); reflexivity.
Defined.

(** ** The order on sort keys *)

Section KeyOrder.

Lemma string_compare_trans (a : string) :
  forall b c,
    String.compare a b <> Gt -> String.compare b c <> Gt ->
    String.compare a c <> Gt.
Proof.
  induction a as [| x a IH]; intros [| y b] [| z c]; simpl;
    try congruence.
  destruct (Ascii.compare x y) eqn:Exy; try congruence.
  - apply Ascii.compare_eq_iff in Exy. subst y.
    destruct (Ascii.compare x z); try congruence. apply IH.
  - destruct (Ascii.compare y z) eqn:Eyz; try congruence.
    + apply Ascii.compare_eq_iff in Eyz. subst z. rewrite Exy. congruence.
    + unfold Ascii.compare in *.
      rewrite N.compare_lt_iff in Exy, Eyz.
      assert (E : (N_of_ascii x ?= N_of_ascii z)%N = Lt)
        by (apply N.compare_lt_iff; lia).
      rewrite E. congruence.
Qed.

Lemma string_leb_trans (a b c : string) :
  String.leb a b = true -> String.leb b c = true -> String.leb a c = true.
Proof.
  unfold String.leb. intros Hab Hbc.
  pose proof (string_compare_trans a b c) as H.
  destruct (String.compare a b); try discriminate Hab;
    destruct (String.compare b c); try discriminate Hbc;
    destruct (String.compare a c); try reflexivity;
    exfalso; apply H; congruence.
Qed.

End KeyOrder.

(** ** The stable sort of the readings *)

Section SortedReadings.
Import Api Sensor.
Import Spec.

Lemma insert_by_key_Forall (P : Reading -> Prop) (x : Reading) :
  forall l, P x -> Forall P l -> Forall P (insert_by_key x l).
Proof.
  induction l as [| y tl IH]; intros Hx Hl; simpl.
  - now constructor.
  - destruct (String.leb (sort_key x) (sort_key y)).
    + now constructor.
    + inversion Hl; subst. constructor; [assumption | now apply IH].
Qed.

Lemma insert_by_key_sorted (x : Reading) :
  forall l, StronglySorted key_le l -> StronglySorted key_le (insert_by_key x l).
Proof.
  induction l as [| y tl IH]; intros Hs; simpl.
  - constructor; constructor.
  - inversion Hs as [| ? ? Htl Hy]; subst.
    destruct (String.leb (sort_key x) (sort_key y)) eqn:E.
    + constructor; [assumption |]. constructor; [exact E |].
      eapply Forall_impl; [| exact Hy].
      intros z Hz. unfold key_le in *. eapply string_leb_trans; eassumption.
    + constructor; [now apply IH |].
      apply insert_by_key_Forall; [| assumption].
      unfold key_le.
      destruct (String.leb_total (sort_key x) (sort_key y)) as [H | H];
        [congruence | exact H].
Qed.

Lemma sorted_by_key_sorted (l : list Reading) :
  StronglySorted key_le (sorted_by_key l).
Proof.
  induction l as [| x l IH]; simpl.
  - constructor.
  - now apply insert_by_key_sorted.
Qed.

(** In front of readings that are all at least as large, insertion puts
    the new reading first. *)
Lemma insert_by_key_first (x : Reading) (l : list Reading) :
  Forall (key_le x) l -> insert_by_key x l = x :: l.
Proof.
  destruct l as [| y tl]; intros H; simpl; [reflexivity |].
  inversion H as [| ? ? Hy _]; subst. unfold key_le in Hy. now rewrite Hy.
Qed.

Lemma Forall_filter (P : Reading -> Prop) (p : Reading -> bool) :
  forall l, Forall P l -> Forall P (filter p l).
Proof.
  induction l as [| y tl IH]; intros H; simpl; [constructor |].
  inversion H; subst. destruct (p y); [constructor |]; auto.
Qed.

(** Selecting readings commutes with inserting into a sorted list. *)
Lemma filter_insert_by_key (p : Reading -> bool) (x : Reading) :
  forall l,
    StronglySorted key_le l ->
    filter p (insert_by_key x l)
    = if p x then insert_by_key x (filter p l) else filter p l.
Proof.
  induction l as [| y tl IH]; intros Hs; simpl.
  - now destruct (p x).
  - inversion Hs as [| ? ? Htl Hy]; subst.
    destruct (String.leb (sort_key x) (sort_key y)) eqn:E; simpl.
    + destruct (p x) eqn:Hpx; [| reflexivity].
      symmetry. apply insert_by_key_first.
      assert (Hall : Forall (key_le x) (y :: tl)).
      { constructor; [exact E |].
        eapply Forall_impl; [| exact Hy].
        intros z Hz. unfold key_le in *.
        eapply string_leb_trans; eassumption. }
      change (if p y then y :: filter p tl else filter p tl)
        with (filter p (y :: tl)).
      now apply Forall_filter.
    + rewrite (IH Htl).
      destruct (p y), (p x); simpl; try reflexivity. now rewrite E.
Qed.

(** Selecting readings commutes with the stable sort. *)
Lemma filter_sorted_by_key (p : Reading -> bool) (l : list Reading) :
  filter p (sorted_by_key l) = sorted_by_key (filter p l).
Proof.
  induction l as [| x l IH]; simpl; [reflexivity |].
  rewrite filter_insert_by_key by apply sorted_by_key_sorted.
  rewrite IH. now destruct (p x).
Qed.

Lemma insert_by_key_In (x r : Reading) (l : list Reading) :
  In r (insert_by_key x l) <-> r = x \/ In r l.
Proof.
  induction l as [| y tl IH]; simpl.
  - split; [intros [<- | []]; now left | intros [-> | []]; now left].
  - destruct (String.leb (sort_key x) (sort_key y)); simpl.
    + split; [intros [<- | H]; [now left | now right]
             | intros [-> | H]; [now left | now right]].
    + rewrite IH. split.
      * intros [<- | [-> | H]]; [right; now left | now left |
                                  right; now right].
      * intros [-> | [<- | H]]; [right; now left | now left |
                                  right; now right].
Qed.

(** Sorting neither loses nor invents a reading. *)
Lemma sorted_by_key_In (r : Reading) (l : list Reading) :
  In r (sorted_by_key l) <-> In r l.
Proof.
  induction l as [| x l IH]; simpl; [reflexivity |].
  rewrite insert_by_key_In, IH. split; intros [H | H]; auto.
Qed.

End SortedReadings.

(** ** The monthly aggregation *)

Section MonthlyAggregation.
Import Api Sensor.

Variable cal : Calendar.

(** [datetime.fromisoformat("")] raises. *)
Hypothesis empty_unparsable : exists e, month_of_iso cal "" = Raise e.

Lemma returned_with_record {A : Type} (r : log_record) (m : logged A) :
  returned (with_record r m) = returned m.
Proof. reflexivity. Qed.

(** The loop adds the statistics of the readings of the month, and of no
    other reading. *)
Lemma add_readings_returned (accepted : list string) (is_cost : bool) :
  forall (l : list Reading) (total : float),
    returned (add_readings cal accepted is_cost total l)
    = Spec.add_all accepted is_cost total (filter (Spec.in_month cal) l).
Proof.
  destruct empty_unparsable as [e0 He0].
  induction l as [| r rest IH]; intros total; [reflexivity |].
  cbn [add_readings filter]. unfold Spec.in_month.
  destruct (get (startAt r)) as [[| c s] |].
  - rewrite He0. apply IH.
  - destruct (month_of_iso cal (String c s)) as [m | e].
    + destruct (String.eqb m (current_month cal)); cbn [negb].
      * cbn [Spec.add_all]. destruct (statistics_of r) as [stats | e];
          [| reflexivity].
        cbn [bind].
        destruct (add_statistics accepted is_cost total stats) as [t | e];
          [| reflexivity].
        cbn [bind]. apply IH.
      * apply IH.
    + assert (Hx : is_Exception e = true)
        by (destruct e as [[] ? ?]; reflexivity).
      rewrite Hx, returned_with_record. apply IH.
  - apply IH.
Qed.

(** The value returned by the aggregation, for any list of readings. *)
Lemma calculate_monthly_total_returned (cfg : SensorConfig) (data : Snapshot)
  (l : list Reading) :
  electricity_readings data = Ok (Some l) ->
  returned (_calculate_monthly_total cal cfg data)
  = (total <- Spec.add_all (fst (_statistics_labels_for_key (key cfg)))
                (snd (_statistics_labels_for_key (key cfg))) 0
                (filter (Spec.in_month cal) (_safe_sorted_readings l)) ;;
     Ok (Spec.to_precision (precision cfg) total)).
Proof.
  intros Hdata. unfold _calculate_monthly_total. rewrite Hdata.
  destruct l as [| r l'].
  - cbn. destruct (precision cfg); reflexivity.
  - unfold monthly_sum.
    destruct (_statistics_labels_for_key (key cfg)) as [accepted is_cost].
    cbn [fst snd].
    rewrite <- add_readings_returned.
    destruct (add_readings cal accepted is_cost 0
                (_safe_sorted_readings (r :: l'))) as [[t | e] logs];
      cbn [returned fst bind]; [| reflexivity].
    destruct (precision cfg); reflexivity.
Qed.

(** The code's test of a label is membership in the target labels. *)
Lemma label_in_targeted (accepted : list string) (st : Statistic) :
  label_in (get (label st)) accepted = Spec.targeted accepted st.
Proof.
  unfold Spec.targeted, label_in.
  destruct (label st) as [| | l]; cbn [get]; try reflexivity.
  destruct (in_dec string_dec l accepted) as [Hin | Hout].
  - apply existsb_exists. exists l. split; [exact Hin |].
    apply String.eqb_refl.
  - apply not_true_is_false. intros H. apply existsb_exists in H.
    destruct H as (x & Hx & E). apply String.eqb_eq in E. now subst x.
Qed.

(** One iteration of the inner loop adds the contribution of the
    statistic. *)
Lemma add_statistic_contribution (accepted : list string) (is_cost : bool)
  (total : float) (st : Statistic) :
  (Spec.targeted accepted st = true ->
   (is_cost = true ->
    forall c, costInclTax st = Has c -> estimatedAmount c <> Null)
   /\ (forall n, Spec.brought is_cost st = Some n ->
                 exists x, to_float n = Ok x)) ->
  add_statistic accepted is_cost total st
  = Ok (fold_left PrimFloat.add (Spec.contribution accepted is_cost st)
          total).
Proof.
  intros H. unfold add_statistic, Spec.contribution.
  rewrite label_in_targeted.
  destruct (Spec.targeted accepted st); cbn [negb]; [| reflexivity].
  destruct (H eq_refl) as [Hnull Hnum]. clear H.
  unfold Spec.brought in *. destruct is_cost; cbn [negb].
  - destruct (costInclTax st) as [| | c] eqn:Ec; cbn [get]; try reflexivity.
    destruct (estimatedAmount c) as [| | n] eqn:En; try reflexivity.
    + exfalso. now apply (Hnull eq_refl c).
    + destruct (Hnum n eq_refl) as [x Hx]. now rewrite Hx.
  - destruct (value st) as [| | v]; cbn [get]; try reflexivity.
    destruct (Hnum v eq_refl) as [x Hx]. now rewrite Hx.
Qed.

(** The loop over the readings of the month adds their contributions. *)
Lemma add_all_contributions (accepted : list string) (is_cost : bool)
  (rs : list Reading) :
  forall total : float,
    (forall r, In r rs -> Spec.readable accepted is_cost r) ->
    Spec.add_all accepted is_cost total rs
    = Ok (fold_left PrimFloat.add
            (flat_map (Spec.contributions accepted is_cost) rs) total).
Proof.
  induction rs as [| r rest IH]; intros total Hrs; [reflexivity |].
  cbn [Spec.add_all flat_map]. rewrite fold_left_app.
  destruct (Hrs r (or_introl eq_refl)) as [Hmd Hst].
  assert (Hsts : forall sts t,
             (forall st, In st sts ->
                Spec.targeted accepted st = true ->
                (is_cost = true ->
                 forall c, costInclTax st = Has c -> estimatedAmount c <> Null)
                /\ (forall n, Spec.brought is_cost st = Some n ->
                              exists x, to_float n = Ok x)) ->
             add_statistics accepted is_cost t sts
             = Ok (fold_left PrimFloat.add
                     (flat_map (Spec.contribution accepted is_cost) sts) t)).
  { induction sts as [| st sts IHs]; intros t Hall; [reflexivity |].
    cbn [add_statistics flat_map]. rewrite fold_left_app.
    rewrite add_statistic_contribution
      by (apply Hall; now left).
    cbn [bind]. apply IHs. intros st' Hin. apply Hall. now right. }
  unfold statistics_of, Spec.contributions.
  destruct (metaData r) as [| | md] eqn:Em; [| congruence |]; cbn [bind].
  - apply IH. intros r' Hr'. apply Hrs. now right.
  - destruct (statistics md) as [| | sts] eqn:Es; cbn [bind].
    + apply IH. intros r' Hr'. apply Hrs. now right.
    + apply IH. intros r' Hr'. apply Hrs. now right.
    + rewrite (Hsts sts total) by (intros st Hin; now apply (Hst md sts)).
      cbn [bind]. apply IH. intros r' Hr'. apply Hrs. now right.
Qed.

(** When [data["electricity"]] is itself null there is no object to take
    a reading list from, and the lookup raises. *)
Lemma monthly_total_null_electricity (cfg : SensorConfig) (data : Snapshot) :
  data_electricity data = Null ->
  _calculate_monthly_total cal cfg data
  = (Raise (Exn AttributeError "'NoneType' object has no attribute 'get'"
              None), []).
Proof.
  intros H. unfold _calculate_monthly_total, electricity_readings.
  now rewrite H.
Qed.

(** C1. The monthly aggregation sums the contributions of exactly the
    readings whose start timestamp parses to the target month: the value
    of each statistic with a target label for a consumption, a hundredth
    of its estimated amount for a cost, added from 0.0 in the order of
    the sorted readings and rounded to the precision of the sensor.  A
    reading whose timestamp is missing or does not parse is left out
    without any error, even when its content could not be read, so that
    the result is the same with and without it.  For a reading list that
    is empty or missing (the [electricity] key or its [readings] key is
    absent, or [readings] is null) the result is 0.0.  On the readings of
    the example, the cost of February 2024 is 12.34 + 0.66, that of
    January is 50, and the consumption of February is 1.75. *)
Theorem monthly_total_counts_the_month :
  (forall (cfg : SensorConfig) (data : Snapshot) (el : ElectricityData)
          (l : list Reading),
      data_electricity data = Has el ->
      readings el = Has l ->
      let target_labels := fst (_statistics_labels_for_key (key cfg)) in
      let as_cost := snd (_statistics_labels_for_key (key cfg)) in
      (forall r, In r l -> Spec.in_month cal r = true ->
                 Spec.readable target_labels as_cost r) ->
      returned (_calculate_monthly_total cal cfg data)
      = Ok (Spec.to_precision (precision cfg)
              (Spec.float_sum
                 (flat_map (Spec.contributions target_labels as_cost)
                    (filter (Spec.in_month cal)
                       (_safe_sorted_readings l))))))
  /\ (forall r : Reading,
         Spec.in_month cal r = true
         <-> exists s, startAt r = Has s
                       /\ month_of_iso cal s = Ok (current_month cal))
  /\ (forall (cfg : SensorConfig) (data data' : Snapshot)
             (el el' : ElectricityData) (before after : list Reading)
             (r : Reading),
         data_electricity data = Has el ->
         readings el = Has (before ++ r :: after) ->
         data_electricity data' = Has el' ->
         readings el' = Has (before ++ after) ->
         (get (startAt r) = None
          \/ exists s e, startAt r = Has s /\ month_of_iso cal s = Raise e) ->
         returned (_calculate_monthly_total cal cfg data)
         = returned (_calculate_monthly_total cal cfg data'))
  /\ (forall (cfg : SensorConfig) (data : Snapshot),
         data_electricity data = Absent
         \/ (exists el,
                data_electricity data = Has el
                /\ (readings el = Absent \/ readings el = Null
                    \/ readings el = Has [])) ->
         _calculate_monthly_total cal cfg data = (Ok 0%float, []))
  /\ (let february := Iso.calendar "2024-02" in
      let january := Iso.calendar "2024-01" in
      let data := Examples.snapshot (Has Examples.winter_readings) in
      returned (_calculate_monthly_total february Examples.cout_base data)
      = Ok 13%float
      /\ (0 + 1234 / 100 + 66 / 100 = 13)%float
      /\ returned (_calculate_monthly_total january Examples.cout_base data)
         = Ok 50%float
      /\ returned (_calculate_monthly_total february Examples.conso_base
                     data)
         = Ok 1.75%float
      /\ returned (_calculate_monthly_total january Examples.conso_base data)
         = Ok 40%float
      /\ returned (_calculate_monthly_total (Iso.calendar "2024-03")
                     Examples.cout_base data)
         = Ok 0%float).
Proof.
  assert (Hreadings : forall data el l,
             data_electricity data = Has el -> readings el = Has l ->
             electricity_readings data = Ok (Some l)).
  { intros data el l H1 H2. unfold electricity_readings.
    now rewrite H1, H2. }
  split; [| split; [| split; [| split]]].
  - intros cfg data el l Hel Hl target_labels as_cost Hread.
    rewrite (calculate_monthly_total_returned cfg data l
               (Hreadings _ _ _ Hel Hl)).
    fold target_labels as_cost.
    rewrite add_all_contributions.
    + reflexivity.
    + intros r Hr. apply filter_In in Hr. destruct Hr as [Hin Hm].
      apply Hread; [| exact Hm].
      exact (proj1 (sorted_by_key_In r l) Hin).
  - intros r. unfold Spec.in_month. split.
    + destruct (startAt r) as [| | s] eqn:Hs; cbn [get]; try discriminate.
      destruct (month_of_iso cal s) as [m | e] eqn:Hm; [| discriminate].
      intros H. apply String.eqb_eq in H. subst m. now exists s.
    + intros (s & Hs & Hm). rewrite Hs. cbn [get]. rewrite Hm.
      apply String.eqb_refl.
  - intros cfg data data' el el' before after r Hel Hl Hel' Hl' Hr.
    rewrite (calculate_monthly_total_returned cfg data _
               (Hreadings _ _ _ Hel Hl)).
    rewrite (calculate_monthly_total_returned cfg data' _
               (Hreadings _ _ _ Hel' Hl')).
    unfold _safe_sorted_readings. rewrite !filter_sorted_by_key.
    rewrite !filter_app. cbn [filter].
    assert (Hout : Spec.in_month cal r = false).
    { unfold Spec.in_month. destruct Hr as [Hr | (s & e & Hs & He)].
      - now rewrite Hr.
      - rewrite Hs. cbn [get]. now rewrite He. }
    now rewrite Hout.
  - intros cfg data [H | (el & H & [H' | [H' | H']])];
      unfold _calculate_monthly_total, electricity_readings;
      rewrite H; try rewrite H'; reflexivity.
  - vm_compute. repeat split.
Qed.

End MonthlyAggregation.

(** The two sides of a month boundary, with the offset of the meter's
    local time. *)
Example month_boundary :
  let last_of_january :=
    Examples.reading (Has "2024-01-31T23:59:59+01:00") [] in
  let first_of_february :=
    Examples.reading (Has "2024-02-01T00:00:00+01:00") [] in
  Spec.in_month (Iso.calendar "2024-01") last_of_january = true
  /\ Spec.in_month (Iso.calendar "2024-02") last_of_january = false
  /\ Spec.in_month (Iso.calendar "2024-02") first_of_february = true
  /\ Spec.in_month (Iso.calendar "2024-01") first_of_february = false.
Proof. vm_compute. repeat split. Qed.

(** What the aggregation reads for the cost of February 2024 in the
    example can be read. *)
Lemma winter_readings_readable (r : Api.Reading) :
  In r Examples.winter_readings ->
  Spec.in_month (Iso.calendar "2024-02") r = true ->
  Spec.readable ["CONSO_BASE"] true r.
Proof.
  intros Hin Hm. unfold Examples.winter_readings in Hin. cbn [In] in Hin.
  destruct Hin as [<- | [<- | [<- | [<- | [<- | []]]]]];
    try (vm_compute in Hm; discriminate Hm);
    (split; [discriminate |]);
    intros md sts st Emd Ests Hst _;
    injection Emd as <-; injection Ests as <-;
    cbn [In] in Hst;
    repeat (destruct Hst as [<- | Hst]); try contradiction;
    (split;
     [ intros _ c Ec; try discriminate Ec; injection Ec as <-; discriminate
     | intros n En; try discriminate En; injection En as <-;
       eexists; vm_compute; reflexivity ]).
Defined.

Lemma monthly_total_counts_the_month_witness :
  let february := Iso.calendar "2024-02" in
  let data := Examples.snapshot (Has Examples.winter_readings) in
  let counted :=
    filter (Spec.in_month february)
      (Sensor._safe_sorted_readings Examples.winter_readings) in
  (returned (Sensor._calculate_monthly_total february Examples.cout_base data)
   = Ok (Spec.to_precision (Some 2%nat)
           (Spec.float_sum
              (flat_map (Spec.contributions ["CONSO_BASE"] true) counted)))
   /\ flat_map (Spec.contributions ["CONSO_BASE"] true) counted
      = [12.34%float; 0.66%float])
  /\ returned
       (Sensor._calculate_monthly_total february Examples.cout_base
          (Examples.snapshot
             (Has [Examples.reading (Has "2024-02-01T00:00:00+01:00")
                     [Examples.priced "CONSO_BASE" 1234];
                   {| Api.startAt := Has "not a date";
                      Api.metaData := Null |}])))
     = returned
         (Sensor._calculate_monthly_total february Examples.cout_base
            (Examples.snapshot
               (Has [Examples.reading (Has "2024-02-01T00:00:00+01:00")
                       [Examples.priced "CONSO_BASE" 1234]])))
  /\ Sensor._calculate_monthly_total february Examples.cout_base
       (Examples.snapshot Null)
     = (Ok 0%float, []).
Proof.
  intros february data counted.
  assert (H0 : exists e, Sensor.month_of_iso february "" = Raise e)
    by (eexists; reflexivity).
  destruct (monthly_total_counts_the_month february H0)
    as (Hsum & _ & Hskip & Hnone & _).
  split; [split | split].
  - apply (Hsum Examples.cout_base data
             {| Api.readings := Has Examples.winter_readings |}
             Examples.winter_readings);
      [reflexivity | reflexivity | exact winter_readings_readable].
  - vm_compute. reflexivity.
  - eapply (Hskip Examples.cout_base _ _ _ _
             [Examples.reading (Has "2024-02-01T00:00:00+01:00")
                [Examples.priced "CONSO_BASE" 1234]]
             []
             {| Api.startAt := Has "not a date"; Api.metaData := Null |});
      [reflexivity | reflexivity | reflexivity | reflexivity |].
    right. eexists. eexists. split; reflexivity.
  - apply Hnone. right. eexists. split; [reflexivity |].
    right. left. reflexivity.
Defined.

(** ** Cost statistics *)

Section CostStatistics.
Import Api Sensor.

(** C7. In a cost aggregation, a statistic with an accepted label and a
    cost substructure holding the amount [a] adds [float(a) / 100] to the
    running total; without cost substructure (or without amount in it) the
    total is left as it is.  An amount of 1234 adds 12.34. *)
Theorem cost_statistic_adds_hundredths :
  (forall (accepted : list string) (total : float) (stat : Statistic)
          (rest : list Statistic) (cost : Cost) (amount : number) (x : float),
      label_in (get (label stat)) accepted = true ->
      costInclTax stat = Has cost ->
      estimatedAmount cost = Has amount ->
      to_float amount = Ok x ->
      add_statistic accepted true total stat = Ok (total + x / 100)%float
      /\ add_statistics accepted true total (stat :: rest)
         = add_statistics accepted true (total + x / 100)%float rest)
  /\ (forall (accepted : list string) (total : float) (stat : Statistic)
             (rest : list Statistic),
         label_in (get (label stat)) accepted = true ->
         (get (costInclTax stat) = None
          \/ exists cost, costInclTax stat = Has cost
                          /\ estimatedAmount cost = Absent) ->
         add_statistic accepted true total stat = Ok total
         /\ add_statistics accepted true total (stat :: rest)
            = add_statistics accepted true total rest)
  /\ to_float (Int 1234) = Ok 1234%float
  /\ (1234 / 100 = 12.34)%float
  /\ add_statistic ["CONSO_BASE"] true 0 (Examples.priced "CONSO_BASE" 1234)
     = Ok 12.34%float
  /\ _calculate_monthly_total (Iso.calendar "2024-02") Examples.cout_base
       (Examples.snapshot
          (Has [Examples.reading (Has "2024-02-10T12:00:00+01:00")
                  [Examples.priced "CONSO_BASE" 1234]]))
     = (Ok 12.34%float, []).
Proof.
  split; [| split; [| repeat split]].
  - intros accepted total stat rest cost amount x Hl Hc Ha Hx.
    assert (H : add_statistic accepted true total stat
                = Ok (total + x / 100)%float).
    { unfold add_statistic. rewrite Hl, Hc. cbn [negb get].
      rewrite Ha, Hx. reflexivity. }
    split; [exact H |]. cbn [add_statistics]. now rewrite H.
  - intros accepted total stat rest Hl Hc.
    assert (H : add_statistic accepted true total stat = Ok total).
    { unfold add_statistic. rewrite Hl. cbn [negb].
      destruct Hc as [Hc | (cost & Hc & Ha)].
      - now rewrite Hc.
      - rewrite Hc. cbn [get]. now rewrite Ha. }
    split; [exact H |]. cbn [add_statistics]. now rewrite H.
Qed.

Lemma cost_statistic_adds_hundredths_witness :
  add_statistic ["CONSO_BASE"] true 10
    (Examples.priced "CONSO_BASE" 1234)
  = Ok (10 + 1234 / 100)%float
  /\ add_statistic ["CONSO_BASE"] true 10 (Examples.unpriced "CONSO_BASE")
     = Ok 10%float.
Proof.
  split.
  - apply (proj1 (proj1 cost_statistic_adds_hundredths
                    ["CONSO_BASE"] 10%float
                    (Examples.priced "CONSO_BASE" 1234) []
                    {| estimatedAmount := Has (Int 1234) |} (Int 1234)
                    1234%float eq_refl eq_refl eq_refl eq_refl)).
  - apply (proj1 (proj1 (proj2 cost_statistic_adds_hundredths)
                    ["CONSO_BASE"] 10%float
                    (Examples.unpriced "CONSO_BASE") [] eq_refl
                    (or_introl eq_refl))).
Defined.

End CostStatistics.

(** ** Tariff detection *)

Section TariffDetection.
Import Api Sensor.

(** With the statistics of the last reading at hand, the tariff follows
    from their labels. *)
Lemma detect_tariff_by_labels (data : Snapshot) (prm_id : string)
  (earlier : list Reading) (latest : Reading) (stat : Statistic)
  (stats : list Statistic) :
  electricity_readings data = Ok (Some (earlier ++ [latest])) ->
  latest_statistics latest = Ok (Some (stat :: stats)) ->
  let labels := map label_or_empty (stat :: stats) in
  _detect_tariff_type_for_meter data prm_id
  = (Ok (if has_label "CONSO_BASE" labels then "BASE"
         else if has_label "CONSO_HEURES_PLEINES" labels
                 && has_label "CONSO_HEURES_CREUSES" labels
         then "HPHC"
         else "UNKNOWN"), []).
Proof.
  intros Hr Hs labels.
  unfold _detect_tariff_type_for_meter, detect_try_block.
  rewrite Hr. cbn [bind].
  destruct (earlier ++ [latest]) as [| r rs] eqn:E.
  - destruct earlier; discriminate E.
  - assert (Hlast : last rs r = latest).
    { transitivity (last (r :: rs) r); [now destruct rs |].
      rewrite <- E. apply last_last. }
    rewrite Hlast, Hs. cbn [bind]. fold labels.
    destruct (has_label "CONSO_BASE" labels); [reflexivity |].
    destruct (has_label "CONSO_HEURES_PLEINES" labels
              && has_label "CONSO_HEURES_CREUSES" labels); reflexivity.
Qed.

(** An exception that leaves the detection is an [AttributeError]. *)
Lemma detect_tariff_raises_only_AttributeError (data : Snapshot)
  (prm_id : string) (e : exn) :
  returned (_detect_tariff_type_for_meter data prm_id) = Raise e ->
  exn_cls e = AttributeError.
Proof.
  unfold _detect_tariff_type_for_meter.
  destruct (detect_try_block data) as [[t |] | e'] eqn:E;
    cbn [returned fst]; try discriminate.
  destruct (is_lookup_error e') eqn:Hl; cbn [fst]; [discriminate |].
  intros H. inversion H; subst e'; clear H.
  unfold detect_try_block, electricity_readings, latest_statistics in E.
  destruct (data_electricity data) as [| | el]; cbn [bind] in E.
  - discriminate E.
  - now inversion E.
  - destruct (readings el) as [| | [| r rs]]; cbn [bind] in E;
      try discriminate E.
    destruct (metaData (last rs r)) as [| | md]; cbn [bind] in E.
    + discriminate E.
    + now inversion E.
    + destruct (statistics md) as [| | [| s ss]]; cbn [bind] in E;
        try discriminate E.
      destruct (has_label "CONSO_BASE" _); [discriminate E |].
      destruct (_ && _); discriminate E.
Qed.

(** C6. When the last reading carries ["metaData": null], the lookup
    [None.get] raises [AttributeError], which is not among the classes of
    the [except] clause: the detection raises instead of answering
    "UNKNOWN". *)
Theorem detect_tariff_raises_on_null_metadata :
  _detect_tariff_type_for_meter
    (Examples.snapshot
       (Has [ {| startAt := Has "2024-02-10T12:00:00+01:00";
                 metaData := Null |} ]))
    "PRM1"
  = (Raise (Exn AttributeError
              "'NoneType' object has no attribute 'get'" None), []).
Proof. reflexivity. Qed.

Example detect_base :
  _detect_tariff_type_for_meter
    (Examples.snapshot
       (Has [Examples.reading (Has "2024-02-10T12:00:00+01:00")
               [Examples.priced "CONSO_BASE" 1234]]))
    "PRM1"
  = (Ok "BASE", []).
Proof. reflexivity. Qed.

Example detect_hphc :
  _detect_tariff_type_for_meter
    (Examples.snapshot
       (Has [Examples.reading Null
               [Examples.priced "CONSO_HEURES_PLEINES" 10;
                Examples.priced "CONSO_HEURES_CREUSES" 20]]))
    "PRM1"
  = (Ok "HPHC", []).
Proof. reflexivity. Qed.

Example detect_unknown :
  _detect_tariff_type_for_meter (Examples.snapshot (Has [])) "PRM1"
  = (Ok "UNKNOWN", [])
  /\ _detect_tariff_type_for_meter (Examples.snapshot Absent) "PRM1"
     = (Ok "UNKNOWN", [])
  /\ _detect_tariff_type_for_meter
       (Examples.snapshot (Has [Examples.reading Null []])) "PRM1"
     = (Ok "UNKNOWN", []).
Proof. repeat split. Qed.

End TariffDetection.

(* ===================================================================== *)
(** * Part III: further properties of the embedded code *)
(* ===================================================================== *)

(** ** More on the off-peak label parser *)

Section OffPeakParserMore.
Import Utils.

Lemma span_app (p : ascii -> bool) (s : list ascii) :
  fst (span p s) ++ snd (span p s) = s.
Proof.
  induction s as [| c tl IH]; simpl; [reflexivity |].
  destruct (p c); [| reflexivity].
  destruct (span p tl) as [run rest]. simpl in *. now rewrite IH.
Qed.

Lemma span_run (p : ascii -> bool) (s : list ascii) :
  Forall (fun c => p c = true) (fst (span p s)).
Proof.
  induction s as [| c tl IH]; simpl; [constructor |].
  destruct (p c) eqn:E; [| constructor].
  destruct (span p tl) as [run rest]. simpl in *. now constructor.
Qed.

Lemma span_rest (p : ascii -> bool) (s : list ascii) :
  match snd (span p s) with
  | [] => True
  | c :: _ => p c = false
  end.
Proof.
  induction s as [| c tl IH]; simpl; [exact I |].
  destruct (p c) eqn:E; [| exact E].
  destruct (span p tl) as [run rest]. exact IH.
Qed.

Lemma span_length (p : ascii -> bool) (s : list ascii) :
  (List.length (fst (span p s)) + List.length (snd (span p s))
   = List.length s)%nat.
Proof. rewrite <- (span_app p s) at 3. now rewrite length_app. Qed.

(** A match of the time pattern covers at least seven characters and no
    more than the text has. *)
Lemma match_time_pattern_length (s : list ascii) (g : groups) (n : nat) :
  match_time_pattern s = Some (g, n) -> (7 <= n <= List.length s)%nat.
Proof.
  unfold match_time_pattern.
  pose proof (span_length is_digit s) as L1.
  destruct (span is_digit s) as [[| a1 g1] [| h1 s1]]; try discriminate.
  destruct h1 as [[] [] [] [] [] [] [] []]; try discriminate.
  pose proof (span_length is_digit s1) as L2.
  destruct (span is_digit s1) as [[| a2 g2] [| h2 s2]]; try discriminate.
  destruct h2 as [[] [] [] [] [] [] [] []]; try discriminate.
  pose proof (span_length is_digit s2) as L3.
  destruct (span is_digit s2) as [[| a3 g3] [| h3 s3]]; try discriminate.
  destruct h3 as [[] [] [] [] [] [] [] []]; try discriminate.
  pose proof (span_length is_digit s3) as L4.
  destruct (span is_digit s3) as [[| a4 g4] s4]; try discriminate.
  intros H. inversion H; subst; clear H. simpl in *. lia.
Qed.

Lemma findall_from_bound (s : list ascii) :
  forall skip,
    (7 * List.length (findall_from skip s) + skip <= List.length s + skip
     /\ (skip <= List.length s ->
         7 * List.length (findall_from skip s) + skip <= List.length s))%nat.
Proof.
  induction s as [| c tl IH]; intros skip; simpl.
  - lia.
  - destruct skip as [| k].
    + destruct (match_time_pattern (c :: tl)) as [[g n] |] eqn:E.
      * apply match_time_pattern_length in E. simpl in E.
        destruct (IH (Nat.pred n)) as [_ H]. simpl. lia.
      * destruct (IH 0%nat) as [_ H]. lia.
    + destruct (IH k) as [H1 H2]. lia.
Qed.

Lemma parse_ranges_prefix (matches : list groups) :
  forall total res,
    exists done todo added,
      matches = done ++ todo
      /\ ranges (fst (parse_ranges matches total res))
         = ranges res ++ added
      /\ Forall2 (fun m r => range_of_match m = Ok r) done added
      /\ match snd (parse_ranges matches total res) with
         | Ok _ => todo = []
         | Raise e =>
             exists m rest, todo = m :: rest /\ range_of_match m = Raise e
         end
      /\ type (fst (parse_ranges matches total res)) = type res.
Proof.
  induction matches as [| m rest IH]; intros total res; simpl.
  - exists [], [], []. split; [reflexivity |].
    split; [now rewrite app_nil_r |]. split; [constructor |].
    split; reflexivity.
  - destruct (range_of_match m) as [x | e] eqn:Hm.
    + destruct (IH (total + duration_minutes x) (append_range x res))
        as (done & todo & added & H1 & H2 & H3 & H4 & H5).
      exists (m :: done), todo, (x :: added).
      split; [now rewrite H1 |]. split.
      { rewrite H2. simpl. now rewrite <- app_assoc. }
      split; [now constructor |]. split; assumption.
    + exists [], (m :: rest), []. simpl. split; [reflexivity |].
      split; [now rewrite app_nil_r |]. split; [constructor |].
      split; [now exists m, rest | reflexivity].
Qed.

(** What the [try] block leaves in the dictionary. *)
Lemma try_block_prefix (label : list ascii) :
  exists done todo,
    findall label = done ++ todo
    /\ Forall2 (fun m r => range_of_match m = Ok r) done
         (ranges (fst (try_block label default_result)))
    /\ match snd (try_block label default_result) with
       | Ok _ => todo = []
       | Raise e =>
           exists m rest, todo = m :: rest /\ range_of_match m = Raise e
       end
    /\ type (fst (try_block label default_result)) = match_type label.
Proof.
  unfold try_block.
  set (res1 := match match_type label with
               | Some t => set_type t default_result
               | None => default_result
               end).
  assert (H1 : ranges res1 = [] /\ type res1 = match_type label)
    by (subst res1; destruct (match_type label); split; reflexivity).
  destruct H1 as [Hr Ht].
  destruct (parse_ranges_prefix (findall label) 0 res1)
    as (done & todo & added & E1 & E2 & E3 & E4 & E5).
  rewrite Hr in E2. simpl in E2.
  exists done, todo.
  destruct (parse_ranges (findall label) 0 res1) as [res2 [t | e]];
    simpl in *; rewrite E2; repeat split; try assumption; congruence.
Qed.

(** The dictionary returned for a label is the one the [try] block leaves,
    and a warning is logged exactly when the block raised. *)
Lemma parse_some (s : string) :
  s <> "" ->
  parse_off_peak_hours (Some s)
  = (Ok (fst (try_block (list_ascii_of_string s) default_result)),
     match snd (try_block (list_ascii_of_string s) default_result) with
     | Ok _ => []
     | Raise e => [LogRecord WARNING s e]
     end).
Proof.
  intros Hs. unfold parse_off_peak_hours.
  destruct s as [| c s']; [congruence |]. cbn [truthy_str negb].
  destruct (try_block (list_ascii_of_string (String c s')) default_result)
    as [res [u | e]]; cbn [fst snd]; [reflexivity |].
  assert (Hx : is_Exception e = true)
    by (destruct e as [[] ? ?]; reflexivity).
  now rewrite Hx.
Qed.

(** X1. When the parser logs no warning, every occurrence of the time
    pattern has become a range: the count is the number of ranges, which
    is the number of occurrences, and the total is the summed minutes over
    60, rounded to 2 decimals. *)
Theorem parse_without_warning_is_complete (s : string) (res : OffPeak) :
  parse_off_peak_hours (Some s) = (Ok res, []) ->
  Spec.consistent res
  /\ List.length (ranges res)
     = List.length (findall (list_ascii_of_string s))
  /\ Forall2 (fun m r => range_of_match m = Ok r)
       (findall (list_ascii_of_string s)) (ranges res).
Proof.
  destruct s as [| c s'].
  - intros H. inversion H; subst. repeat split. constructor.
  - rewrite parse_some by discriminate.
    set (l := list_ascii_of_string (String c s')).
    destruct (try_block_prefix l) as (done & todo & E1 & E2 & E3 & _).
    destruct (try_block l default_result) as [res' [u | e]] eqn:E;
      cbn [fst snd] in *; intros H; inversion H; subst res'; clear H.
    subst todo. rewrite app_nil_r in E1. rewrite E1.
    split; [now apply (try_block_complete_consistent l res u) |].
    split; [| exact E2].
    symmetry. eapply Forall2_length. exact E2.
Qed.

Lemma parse_without_warning_is_complete_witness :
  Spec.consistent Examples.night_result
  /\ List.length (ranges Examples.night_result)
     = List.length (findall (list_ascii_of_string "HC 22H00-06H00"))
  /\ Forall2 (fun m r => range_of_match m = Ok r)
       (findall (list_ascii_of_string "HC 22H00-06H00"))
       (ranges Examples.night_result).
Proof.
  apply (parse_without_warning_is_complete "HC 22H00-06H00"
           Examples.night_result).
  vm_compute. reflexivity.
Defined.

Lemma range_of_match_within_a_day (m : groups) (r : TimeRange) :
  range_of_match m = Ok r -> SpecMore.within_a_day r.
Proof.
  destruct m as [[[g1 g2] g3] g4]. unfold range_of_match. intros H.
  apply bind_Ok_inv in H. destruct H as (sh & _ & H).
  apply bind_Ok_inv in H. destruct H as (sm & _ & H).
  apply bind_Ok_inv in H. destruct H as (eh & _ & H).
  apply bind_Ok_inv in H. destruct H as (em & _ & H).
  apply bind_Ok_inv in H. destruct H as (ts & Hts & H).
  apply bind_Ok_inv in H. destruct H as (te & Hte & H).
  assert (Hb : forall h m t, mk_time h m = Ok t ->
                             0 <= h <= 23 /\ 0 <= m <= 59).
  { intros h m0 t. unfold mk_time.
    destruct ((0 <=? h) && (h <=? 23)) eqn:E1; cbn [negb]; [| discriminate].
    destruct ((0 <=? m0) && (m0 <=? 59)) eqn:E2; cbn [negb]; [| discriminate].
    intros _. apply andb_true_iff in E1, E2. lia. }
  pose proof (Hb _ _ _ Hts) as [B1 B2]. pose proof (Hb _ _ _ Hte) as [B3 B4].
  apply mk_time_Ok_inv in Hts. apply mk_time_Ok_inv in Hte.
  subst ts te.
  assert (Er := f_equal (fun o => match o with Ok x => x | Raise _ => r end)
                  H).
  cbv beta iota in Er. subst r. unfold SpecMore.within_a_day.
  cbn [start_time end_time start_minutes end_minutes duration_minutes
       hour minute].
  destruct (eh * 60 + em <=? sh * 60 + sm) eqn:E; cbn [negb];
    [apply Z.leb_le in E | apply Z.leb_gt in E]; lia.
Qed.

(** X2. Every range the parser returns lies within one day: hours are in
    0..23, minutes in 0..59, start and end minutes in 0..1439, and the
    duration is between 1 and 1440 minutes, 1440 exactly when start and
    end coincide. *)
Theorem parsed_ranges_within_a_day (label : option string) (res : OffPeak)
  (r : TimeRange) :
  returned (parse_off_peak_hours label) = Ok res ->
  In r (ranges res) ->
  SpecMore.within_a_day r.
Proof.
  intros Hres Hin.
  destruct (parse_returns label) as (res' & Hret & Hsrc).
  rewrite Hret in Hres. inversion Hres; subst res'; clear Hres.
  destruct Hsrc as [-> | (s & ->)]; [destruct Hin |].
  pose proof (try_block_ranges SpecMore.within_a_day
                (list_ascii_of_string s) range_of_match_within_a_day) as HF.
  rewrite Forall_forall in HF. now apply HF.
Qed.

Lemma parsed_ranges_within_a_day_witness :
  SpecMore.within_a_day Examples.morning_range.
Proof.
  apply (parsed_ranges_within_a_day (Some "HC 00H30-06H30 22H00-24H00")
           Examples.partial_result Examples.morning_range).
  - vm_compute. reflexivity.
  - left. reflexivity.
Defined.

Lemma parsed_ranges_prefix_aux (s : string) (res : OffPeak) :
  returned (parse_off_peak_hours (Some s)) = Ok res ->
  exists done todo,
    findall (list_ascii_of_string s) = done ++ todo
    /\ Forall2 (fun m r => range_of_match m = Ok r) done (ranges res)
    /\ (todo = []
        \/ exists m rest e, todo = m :: rest /\ range_of_match m = Raise e).
Proof.
  destruct s as [| c s'].
  - intros H. inversion H; subst. exists [], []. repeat split.
    + constructor.
    + now left.
  - rewrite parse_some by discriminate. cbn [returned fst].
    intros H. inversion H; subst res; clear H.
    destruct (try_block_prefix (list_ascii_of_string (String c s')))
      as (done & todo & E1 & E2 & E3 & _).
    exists done, todo. split; [exact E1 |]. split; [exact E2 |].
    destruct (snd (try_block _ _)) as [u | e].
    + now left.
    + right. destruct E3 as (m & rest & E3 & E4). now exists m, rest, e.
Qed.

(** X3. The ranges returned are, in the order of the label, the ranges of
    the occurrences of the time pattern up to the first occurrence that
    fails to convert; nothing after a failing occurrence is kept. *)
Theorem parsed_ranges_are_a_prefix (s : string) (res : OffPeak) :
  returned (parse_off_peak_hours (Some s)) = Ok res ->
  exists done todo,
    findall (list_ascii_of_string s) = done ++ todo
    /\ Forall2 (fun m r => range_of_match m = Ok r) done (ranges res)
    /\ (todo = []
        \/ exists m rest e, todo = m :: rest /\ range_of_match m = Raise e).
Proof. apply parsed_ranges_prefix_aux. Qed.

Lemma parsed_ranges_are_a_prefix_witness :
  exists done todo,
    findall (list_ascii_of_string "HC 00H30-06H30 22H00-24H00")
    = done ++ todo
    /\ Forall2 (fun m r => range_of_match m = Ok r) done
         (ranges Examples.partial_result)
    /\ (todo = []
        \/ exists m rest e, todo = m :: rest /\ range_of_match m = Raise e).
Proof.
  apply (parsed_ranges_are_a_prefix "HC 00H30-06H30 22H00-24H00"
           Examples.partial_result).
  vm_compute. reflexivity.
Defined.

(** X4. A range takes at least seven characters of the label
    ([dHd-dHd]) and ranges do not overlap: seven times the number of
    ranges returned is at most the length of the label. *)
Theorem parsed_ranges_bounded_by_length (s : string) (res : OffPeak) :
  returned (parse_off_peak_hours (Some s)) = Ok res ->
  (7 * List.length (ranges res) <= String.length s)%nat.
Proof.
  intros H.
  destruct (parsed_ranges_prefix_aux s res H)
    as (done & todo & E1 & E2 & _).
  apply Forall2_length in E2. rewrite <- E2.
  destruct (findall_from_bound (list_ascii_of_string s) 0) as [_ B].
  unfold findall in E1. rewrite E1, length_app in B.
  assert (L : List.length (list_ascii_of_string s) = String.length s).
  { clear. induction s as [| c s IH]; simpl; [reflexivity | now rewrite IH]. }
  rewrite L in B. lia.
Qed.

(** X5. The type returned is the run of uppercase ASCII letters that
    opens the label, whether or not the ranges that follow convert; there
    is no type exactly when the label does not open with such a letter. *)
Theorem parsed_type_is_leading_capitals (s : string) (res : OffPeak) :
  returned (parse_off_peak_hours (Some s)) = Ok res ->
  match type res with
  | Some t =>
      t <> ""
      /\ Forall (fun c => is_upper c = true) (list_ascii_of_string t)
      /\ exists rest,
           list_ascii_of_string s = list_ascii_of_string t ++ rest
           /\ SpecMore.no_upper_head rest
  | None => SpecMore.no_upper_head (list_ascii_of_string s)
  end.
Proof.
  destruct s as [| c s'].
  - intros H. inversion H; subst. exact I.
  - rewrite parse_some by discriminate. cbn [returned fst].
    set (l := list_ascii_of_string (String c s')).
    intros H.
    assert (E : res = fst (try_block l default_result)) by congruence.
    subst res. clear H.
    destruct (try_block_prefix l) as (_ & _ & _ & _ & _ & ->).
    unfold match_type.
    pose proof (span_app is_upper l) as Happ.
    pose proof (span_run is_upper l) as Hrun.
    pose proof (span_rest is_upper l) as Hrest.
    destruct (span is_upper l) as [[| u run] rest]; cbn [fst snd] in *.
    + cbn [app] in Happ. rewrite <- Happ. exact Hrest.
    + rewrite list_ascii_of_string_of_list_ascii.
      split; [discriminate |]. split; [exact Hrun |].
      exists rest. split; [now rewrite Happ | exact Hrest].
Qed.

Lemma parsed_type_is_leading_capitals_witness :
  "HC" <> ""
  /\ Forall (fun c => is_upper c = true) (list_ascii_of_string "HC")
  /\ exists rest,
       list_ascii_of_string "HC 00H30-06H30 22H00-24H00"
       = list_ascii_of_string "HC" ++ rest
       /\ SpecMore.no_upper_head rest.
Proof.
  apply (parsed_type_is_leading_capitals "HC 00H30-06H30 22H00-24H00"
           Examples.partial_result).
  vm_compute. reflexivity.
Defined.

(** X6. [format_frequency_label] changes only the four interval names;
    any other string, and in particular every label it produces, is
    returned as it is. *)
Theorem format_frequency_label_fixes_other_strings (freq : string) :
  (freq <> "HOUR_INTERVAL" -> freq <> "DAY_INTERVAL" ->
   freq <> "WEEK_INTERVAL" -> freq <> "MONTH_INTERVAL" ->
   format_frequency_label freq = freq)
  /\ format_frequency_label (format_frequency_label freq)
     = format_frequency_label freq
  /\ (In freq Const.SUPPORTED_READING_FREQUENCIES ->
      format_frequency_label freq <> freq).
Proof.
  unfold format_frequency_label. split; [| split].
  - intros H1 H2 H3 H4.
    apply String.eqb_neq in H1, H2, H3, H4. now rewrite H1, H2, H3, H4.
  - destruct (String.eqb freq "HOUR_INTERVAL") eqn:E1; [reflexivity |].
    destruct (String.eqb freq "DAY_INTERVAL") eqn:E2; [reflexivity |].
    destruct (String.eqb freq "WEEK_INTERVAL") eqn:E3; [reflexivity |].
    destruct (String.eqb freq "MONTH_INTERVAL") eqn:E4; [reflexivity |].
    now rewrite E1, E2, E3, E4.
  - intros [<- | [<- | []]]; discriminate.
Qed.

Lemma format_frequency_label_fixes_other_strings_witness :
  format_frequency_label "YEAR_INTERVAL" = "YEAR_INTERVAL"
  /\ format_frequency_label "HOUR_INTERVAL" <> "HOUR_INTERVAL".
Proof.
  split.
  - apply (proj1 (format_frequency_label_fixes_other_strings
                    "YEAR_INTERVAL")); discriminate.
  - apply (proj2 (proj2 (format_frequency_label_fixes_other_strings
                           "HOUR_INTERVAL"))).
    left. reflexivity.
Defined.

Lemma parsed_ranges_bounded_by_length_witness :
  (7 * List.length (ranges Examples.partial_result)
   <= String.length "HC 00H30-06H30 22H00-24H00")%nat.
Proof.
  apply (parsed_ranges_bounded_by_length "HC 00H30-06H30 22H00-24H00"
           Examples.partial_result).
  vm_compute. reflexivity.
Defined.

End OffPeakParserMore.

(** ** More on the refresh coordinator *)

Section RefreshCoordinatorMore.
Import Api Coordinator.

Variable isoformat : datetime -> string.

(** Everything a successful [fetch_readings] went through. *)
Lemma fetch_readings_inv (self : Self) (now : datetime) (f : Fetched) :
  fetch_readings isoformat self now = Ok f ->
  exists ad aid sps meters eid gid rs,
    get_account_data (api_client self) (self_account_number self) = Ok ad
    /\ get (account_id ad) = Some aid
    /\ truthy_str (Some aid) = true
    /\ truthy_str (get (account_number ad)) = true
    /\ supply_points ad = Has sps
    /\ electricity sps = Has meters
    /\ first_meter_id (Some (filter_supply_points meters)) = Ok eid
    /\ first_meter_id (get (gas sps)) = Ok gid
    /\ (if truthy_str eid
        then get_energy_readings (api_client self)
               {| q_account_id := aid;
                  q_start := fst (_compute_date_window isoformat self now);
                  q_end := snd (_compute_date_window isoformat self now);
                  q_meter_id := match eid with Some m => m | None => "" end;
                  q_utility_type := "electricity";
                  q_reading_frequency := reading_frequency self;
                  q_reading_quality := "ACTUAL";
                  q_first := 500 |}
        else Ok []) = Ok rs
    /\ f = {| f_account_id := aid;
              f_account_data :=
                {| account_id := account_id ad;
                   account_number := account_number ad;
                   supply_points :=
                     Has {| electricity := Has (filter_supply_points meters);
                            gas := gas sps |} |};
              f_electricity_meter_id := eid;
              f_gas_meter_id := gid;
              f_window := _compute_date_window isoformat self now;
              f_electricity_readings := rs |}.
Proof.
  unfold fetch_readings. intros H.
  destruct (get_account_data (api_client self) (self_account_number self))
    as [ad | e] eqn:Hget; [| discriminate H].
  cbn [bind] in H.
  destruct (truthy_str (get (account_id ad))) eqn:Hid; cbn [negb] in H;
    [| discriminate H].
  destruct (truthy_str (get (account_number ad))) eqn:Hnum; cbn [negb] in H;
    [| discriminate H].
  unfold electricity_of in H.
  destruct (supply_points ad) as [| | sps] eqn:Hsps; try discriminate H.
  destruct (electricity sps) as [| | meters] eqn:Hel; try discriminate H.
  cbn [bind] in H.
  destruct (first_meter_id (Some (filter_supply_points meters)))
    as [eid | e] eqn:He; [| discriminate H].
  cbn [bind gas] in H.
  destruct (first_meter_id (get (gas sps))) as [gid | e] eqn:Hg;
    [| discriminate H].
  cbn [bind] in H.
  destruct (get (account_id ad)) as [aid |] eqn:Haid; [| discriminate Hid].
  destruct (_compute_date_window isoformat self now) as [a b] eqn:Hw.
  cbn [fst snd].
  destruct (if truthy_str eid then _ else _) as [rs | e] eqn:Hr in H;
    [| discriminate H].
  cbn [bind] in H.
  exists ad, aid, sps, meters, eid, gid, rs.
  repeat (split; [first [assumption | reflexivity] |]).
  congruence.
Qed.

Lemma first_meter_id_Ok (l : list Meter) (x : option string) :
  first_meter_id (Some l) = Ok x ->
  x = match l with
      | m :: _ => get (id m)
      | [] => None
      end.
Proof.
  destruct l as [| m tl]; simpl.
  - congruence.
  - destruct (id m); simpl; congruence.
Qed.

Lemma filter_head_find (p : Meter -> bool) (l : list Meter) :
  match filter p l with
  | m :: _ => Some m
  | [] => None
  end = find p l.
Proof.
  induction l as [| m tl IH]; simpl; [reflexivity |].
  destruct (p m); [reflexivity | exact IH].
Qed.

(** X7. The primary electricity meter of a fetch is the first meter of
    the account that is not terminated, and the primary gas meter is the
    first gas meter.  Readings are requested for the primary electricity
    meter only, over the computed window, with the configured frequency,
    quality "ACTUAL" and a page of 500; with no such meter (or a meter
    whose id is null or empty) the readings are the empty list. *)
Theorem primary_meter_is_first_kept (self : Self) (now : datetime)
  (f : Fetched) :
  fetch_readings isoformat self now = Ok f ->
  exists account_data sps meters,
    get_account_data (api_client self) (self_account_number self)
    = Ok account_data
    /\ supply_points account_data = Has sps
    /\ electricity sps = Has meters
    /\ f_electricity_meter_id f
       = match find (fun m => negb (is_terminated m)) meters with
         | Some m => get (id m)
         | None => None
         end
    /\ f_gas_meter_id f
       = match get (gas sps) with
         | Some (g :: _) => get (id g)
         | _ => None
         end
    /\ f_window f = _compute_date_window isoformat self now
    /\ (forall i,
           f_electricity_meter_id f = Some i -> i <> "" ->
           get_energy_readings (api_client self)
             {| q_account_id := f_account_id f;
                q_start := fst (f_window f);
                q_end := snd (f_window f);
                q_meter_id := i;
                q_utility_type := "electricity";
                q_reading_frequency := reading_frequency self;
                q_reading_quality := "ACTUAL";
                q_first := 500 |}
           = Ok (f_electricity_readings f))
    /\ (truthy_str (f_electricity_meter_id f) = false ->
        f_electricity_readings f = []).
Proof.
  intros H.
  destruct (fetch_readings_inv self now f H)
    as (ad & aid & sps & meters & eid & gid & rs
        & H1 & H2 & H3 & H4 & H5 & H6 & H7 & H8 & H9 & ->).
  exists ad, sps, meters. cbn [f_electricity_meter_id f_gas_meter_id f_window
                              f_account_id f_electricity_readings].
  split; [exact H1 |]. split; [exact H5 |]. split; [exact H6 |].
  split.
  { apply first_meter_id_Ok in H7. rewrite H7.
    unfold filter_supply_points.
    rewrite <- (filter_head_find (fun m => negb (is_terminated m)) meters).
    now destruct (filter _ meters). }
  split.
  { destruct (get (gas sps)) as [l |] eqn:Eg.
    - apply first_meter_id_Ok in H8. rewrite H8. now destruct l.
    - simpl in H8. congruence. }
  split; [reflexivity |]. split.
  - intros i -> Hi. destruct i as [| c i']; [congruence |].
    cbn [truthy_str] in H9. exact H9.
  - intros Hf. rewrite Hf in H9. congruence.
Qed.

(** X8. When every electricity meter of the account is terminated, the
    fetch succeeds without a primary electricity meter and with no
    readings, whatever [get_energy_readings] would have answered. *)
Theorem no_readings_without_meter (self : Self) (now : datetime)
  (account_data : AccountData) (sps : SupplyPoints) (meters : list Meter) :
  get_account_data (api_client self) (self_account_number self)
  = Ok account_data ->
  truthy_str (get (account_id account_data)) = true ->
  truthy_str (get (account_number account_data)) = true ->
  supply_points account_data = Has sps ->
  electricity sps = Has meters ->
  (forall m, In m meters -> is_terminated m = true) ->
  (forall g rest, gas sps = Has (g :: rest) -> id g <> Absent) ->
  exists f,
    fetch_readings isoformat self now = Ok f
    /\ f_electricity_meter_id f = None
    /\ f_electricity_readings f = []
    /\ supply_points (f_account_data f)
       = Has {| electricity := Has []; gas := gas sps |}.
Proof.
  intros Hget Hid Hnum Hsps Hel Hall Hgas.
  assert (Hnone : filter_supply_points meters = []).
  { unfold filter_supply_points. clear - Hall.
    induction meters as [| m tl IH]; simpl; [reflexivity |].
    rewrite (Hall m) by now left. simpl. apply IH.
    intros x Hx. apply Hall. now right. }
  assert (Hg : exists gid, first_meter_id (get (gas sps)) = Ok gid).
  { destruct (gas sps) as [| | [| g rest]] eqn:Eg; simpl;
      try (eexists; reflexivity).
    specialize (Hgas g rest eq_refl).
    destruct (id g); [congruence | |]; eexists; reflexivity. }
  destruct Hg as [gid Hg].
  unfold fetch_readings. rewrite Hget. cbn [bind].
  rewrite Hid, Hnum. cbn [negb]. unfold electricity_of.
  rewrite Hsps, Hel. cbn [bind]. rewrite Hnone. cbn [first_meter_id bind gas].
  rewrite Hg. cbn [bind].
  destruct (_compute_date_window isoformat self now) as [a b].
  cbn [truthy_str bind]. eexists. split; [reflexivity |].
  cbn. repeat split.
Qed.

(** X9. An account response that has its identifiers but lacks the
    supply points makes the refresh fail with [UpdateFailed]: the cause is
    a [KeyError] for a missing key and a [TypeError] for a null one. *)
Theorem refresh_fails_without_supply_points
  (remainder : Fetched -> result Snapshot) (self : Self) (now : datetime)
  (account_data : AccountData) :
  get_account_data (api_client self) (self_account_number self)
  = Ok account_data ->
  truthy_str (get (account_id account_data)) = true ->
  truthy_str (get (account_number account_data)) = true ->
  (supply_points account_data = Absent ->
   _async_update_data isoformat remainder self now
   = Raise (Exn UpdateFailed "Error communicating with API: 'supply_points'"
              (Some (Exn KeyError "'supply_points'" None))))
  /\ (supply_points account_data = Null ->
      _async_update_data isoformat remainder self now
      = Raise (Exn UpdateFailed
                 "Error communicating with API: 'NoneType' object is not subscriptable"
                 (Some (Exn TypeError
                          "'NoneType' object is not subscriptable" None))))
  /\ (forall sps,
         supply_points account_data = Has sps ->
         electricity sps = Absent ->
         _async_update_data isoformat remainder self now
         = Raise (Exn UpdateFailed
                    "Error communicating with API: 'electricity'"
                    (Some (Exn KeyError "'electricity'" None))))
  /\ (forall sps,
         supply_points account_data = Has sps ->
         electricity sps = Null ->
         _async_update_data isoformat remainder self now
         = Raise (Exn UpdateFailed
                    "Error communicating with API: 'NoneType' object is not iterable"
                    (Some (Exn TypeError
                             "'NoneType' object is not iterable" None)))).
Proof.
  intros Hget Hid Hnum.
  unfold _async_update_data, _fetch_all_data, fetch_readings.
  rewrite Hget. cbn [bind]. rewrite Hid, Hnum. cbn [negb].
  unfold electricity_of.
  split; [| split; [| split]].
  - intros ->. reflexivity.
  - intros ->. reflexivity.
  - intros sps -> ->. reflexivity.
  - intros sps -> ->. reflexivity.
Qed.

(** X10. Whatever the API client answers and whatever the rest of the
    fetch does, an exception that leaves [_async_update_data] is an
    [UpdateFailed]. *)
Theorem refresh_only_raises_update_failed
  (remainder : Fetched -> result Snapshot) (self : Self) (now : datetime)
  (e : exn) :
  _async_update_data isoformat remainder self now = Raise e ->
  exn_cls e = UpdateFailed.
Proof.
  unfold _async_update_data.
  destruct (_fetch_all_data isoformat remainder self now) as [d | err];
    [discriminate |].
  destruct (is_UpdateFailed err) eqn:E.
  - intros H. injection H as <-. now apply is_UpdateFailed_spec.
  - assert (Hx : is_Exception err = true)
      by (destruct err as [[] ? ?]; reflexivity).
    rewrite Hx. intros H. injection H as <-. reflexivity.
Qed.

Lemma sensor_guard_on_kept (meters : list Meter) :
  filter
    (fun elec_meter =>
       negb (eq_str (get (distributorStatus elec_meter)) "RESIL"
             && eq_str (get (poweredStatus elec_meter)) "LIMI"))
    (filter_supply_points meters)
  = filter_supply_points meters.
Proof.
  unfold filter_supply_points.
  induction meters as [| m tl IH]; simpl; [reflexivity |].
  destruct (negb (is_terminated m)) eqn:Em; simpl; [| exact IH].
  unfold is_terminated in Em. rewrite Em. simpl. now rewrite IH.
Qed.

(** X11. The meters that a successful fetch stores in the account data
    all pass the guard of the sensor platform: on data published from
    them, sensors are set up for every stored meter, in the same order. *)
Theorem stored_meters_pass_the_sensor_guard (self : Self) (now : datetime)
  (f : Fetched) (e : field ElectricityData) :
  fetch_readings isoformat self now = Ok f ->
  exists sps kept,
    supply_points (f_account_data f) = Has sps
    /\ electricity sps = Has kept
    /\ Sensor.setup_electricity_meters
         {| data_supply_points := supply_points (f_account_data f);
            data_electricity := e |}
       = Ok kept.
Proof.
  intros H.
  destruct (fetch_readings_inv self now f H)
    as (ad & aid & sps & meters & eid & gid & rs
        & _ & _ & _ & _ & _ & _ & _ & _ & _ & ->).
  cbn [f_account_data supply_points].
  eexists. exists (filter_supply_points meters).
  split; [reflexivity |]. split; [reflexivity |].
  unfold Sensor.setup_electricity_meters.
  cbn [data_supply_points electricity]. f_equal.
  apply sensor_guard_on_kept.
Qed.

End RefreshCoordinatorMore.

Lemma primary_meter_is_first_kept_witness :
  exists account_data sps meters,
    Coordinator.get_account_data
      (Coordinator.api_client
         (Examples.coordinator
            (Ok (Examples.account (Has "42") (Has "A-12345678")
                   [Examples.terminated_meter;
                    Examples.resil_active_meter]))
            "HOUR_INTERVAL"))
      "A-12345678"
    = Ok account_data
    /\ Api.supply_points account_data = Has sps
    /\ Api.electricity sps = Has meters
    /\ Coordinator.f_electricity_meter_id Examples.fetched
       = match find (fun m => negb (Coordinator.is_terminated m)) meters with
         | Some m => get (Api.id m)
         | None => None
         end
    /\ Coordinator.f_gas_meter_id Examples.fetched
       = match get (Api.gas sps) with
         | Some (g :: _) => get (Api.id g)
         | _ => None
         end
    /\ Coordinator.f_window Examples.fetched
       = Coordinator._compute_date_window Examples.isoformat
           (Examples.coordinator
              (Ok (Examples.account (Has "42") (Has "A-12345678")
                     [Examples.terminated_meter;
                      Examples.resil_active_meter]))
              "HOUR_INTERVAL")
           1762178400000000
    /\ (forall i,
           Coordinator.f_electricity_meter_id Examples.fetched = Some i ->
           i <> "" ->
           Coordinator.get_energy_readings
             (Coordinator.api_client
                (Examples.coordinator
                   (Ok (Examples.account (Has "42") (Has "A-12345678")
                          [Examples.terminated_meter;
                           Examples.resil_active_meter]))
                   "HOUR_INTERVAL"))
             {| Coordinator.q_account_id :=
                  Coordinator.f_account_id Examples.fetched;
                Coordinator.q_start :=
                  fst (Coordinator.f_window Examples.fetched);
                Coordinator.q_end :=
                  snd (Coordinator.f_window Examples.fetched);
                Coordinator.q_meter_id := i;
                Coordinator.q_utility_type := "electricity";
                Coordinator.q_reading_frequency := "HOUR_INTERVAL";
                Coordinator.q_reading_quality := "ACTUAL";
                Coordinator.q_first := 500 |}
           = Ok (Coordinator.f_electricity_readings Examples.fetched))
    /\ (truthy_str (Coordinator.f_electricity_meter_id Examples.fetched)
        = false ->
        Coordinator.f_electricity_readings Examples.fetched = []).
Proof.
  apply (primary_meter_is_first_kept Examples.isoformat
           (Examples.coordinator
              (Ok (Examples.account (Has "42") (Has "A-12345678")
                     [Examples.terminated_meter;
                      Examples.resil_active_meter]))
              "HOUR_INTERVAL")
           1762178400000000 Examples.fetched).
  vm_compute. reflexivity.
Defined.

Lemma no_readings_without_meter_witness :
  exists f,
    Coordinator.fetch_readings Examples.isoformat
      (ExamplesMore.failing_readings_coordinator
         [Examples.terminated_meter])
      1762178400000000
    = Ok f
    /\ Coordinator.f_electricity_meter_id f = None
    /\ Coordinator.f_electricity_readings f = []
    /\ Api.supply_points (Coordinator.f_account_data f)
       = Has {| Api.electricity := Has []; Api.gas := Absent |}.
Proof.
  apply (no_readings_without_meter Examples.isoformat
           (ExamplesMore.failing_readings_coordinator
              [Examples.terminated_meter])
           1762178400000000
           (Examples.account (Has "42") (Has "A-12345678")
              [Examples.terminated_meter])
           {| Api.electricity := Has [Examples.terminated_meter];
              Api.gas := Absent |}
           [Examples.terminated_meter]);
    try reflexivity.
  - intros m [<- | []]. reflexivity.
  - intros g rest H. discriminate H.
Defined.

Lemma refresh_fails_without_supply_points_witness :
  Coordinator._async_update_data Examples.isoformat Examples.publish
    (Examples.coordinator (Ok ExamplesMore.account_without_supply_points)
       "HOUR_INTERVAL")
    1762178400000000
  = Raise (Exn UpdateFailed "Error communicating with API: 'supply_points'"
             (Some (Exn KeyError "'supply_points'" None))).
Proof.
  apply (proj1 (refresh_fails_without_supply_points Examples.isoformat
                  Examples.publish
                  (Examples.coordinator
                     (Ok ExamplesMore.account_without_supply_points)
                     "HOUR_INTERVAL")
                  1762178400000000
                  ExamplesMore.account_without_supply_points
                  eq_refl eq_refl eq_refl)).
  reflexivity.
Defined.

Lemma refresh_only_raises_update_failed_witness :
  exn_cls
    (Exn UpdateFailed "Error communicating with API: timeout"
       (Some (Exn (OtherException "ClientError") "timeout" None)))
  = UpdateFailed.
Proof.
  apply (refresh_only_raises_update_failed Examples.isoformat
           Examples.publish
           (Examples.coordinator
              (Raise (Exn (OtherException "ClientError") "timeout" None))
              "HOUR_INTERVAL")
           0).
  reflexivity.
Defined.

Lemma stored_meters_pass_the_sensor_guard_witness :
  exists sps kept,
    Api.supply_points (Coordinator.f_account_data Examples.fetched) = Has sps
    /\ Api.electricity sps = Has kept
    /\ Sensor.setup_electricity_meters
         {| Api.data_supply_points :=
              Api.supply_points (Coordinator.f_account_data Examples.fetched);
            Api.data_electricity := Absent |}
       = Ok kept.
Proof.
  apply (stored_meters_pass_the_sensor_guard Examples.isoformat
           (Examples.coordinator
              (Ok (Examples.account (Has "42") (Has "A-12345678")
                     [Examples.terminated_meter;
                      Examples.resil_active_meter]))
              "HOUR_INTERVAL")
           1762178400000000 Examples.fetched Absent).
  vm_compute. reflexivity.
Defined.

(** ** More on the sorting of readings *)

Section SortedReadingsMore.
Import Api Sensor.

Lemma string_leb_refl (s : string) : String.leb s s = true.
Proof.
  unfold String.leb.
  assert (E : String.compare s s = Eq).
  { induction s as [| c s IH]; simpl; [reflexivity |].
    unfold Ascii.compare. now rewrite N.compare_refl. }
  now rewrite E.
Qed.

Lemma insert_by_key_perm (x : Reading) (l : list Reading) :
  Permutation (x :: l) (insert_by_key x l).
Proof.
  induction l as [| y tl IH]; simpl; [reflexivity |].
  destruct (String.leb (sort_key x) (sort_key y)); [reflexivity |].
  rewrite perm_swap. now constructor.
Qed.

Lemma sorted_by_key_perm (l : list Reading) :
  Permutation l (sorted_by_key l).
Proof.
  induction l as [| x l IH]; simpl; [constructor |].
  rewrite <- insert_by_key_perm. now constructor.
Qed.

(** Readings that all have the key [k] are left in place by the sort. *)
Lemma sorted_by_key_same_key (k : string) (l : list Reading) :
  Forall (fun r => sort_key r = k) l -> sorted_by_key l = l.
Proof.
  induction l as [| x l IH]; intros H; simpl; [reflexivity |].
  inversion H as [| ? ? Hx Hl]; subst. rewrite (IH Hl).
  destruct l as [| y tl]; simpl; [reflexivity |].
  inversion Hl as [| ? ? Hy _]; subst. rewrite Hy.
  now rewrite string_leb_refl.
Qed.

(** X13. [_safe_sorted_readings] returns the same readings, rearranged in
    non-decreasing order of their key (the start timestamp, or the empty
    string when it is missing); readings with the same key keep the order
    in which they were delivered. *)
Theorem sorted_readings_are_a_stable_permutation (l : list Reading) :
  Permutation l (_safe_sorted_readings l)
  /\ StronglySorted Spec.key_le (_safe_sorted_readings l)
  /\ forall k : string,
       filter (fun r => String.eqb (sort_key r) k) (_safe_sorted_readings l)
       = filter (fun r => String.eqb (sort_key r) k) l.
Proof.
  unfold _safe_sorted_readings. split; [apply sorted_by_key_perm |].
  split; [apply sorted_by_key_sorted |].
  intros k. rewrite filter_sorted_by_key.
  apply (sorted_by_key_same_key k).
  apply Forall_forall. intros r Hr. apply filter_In in Hr.
  destruct Hr as [_ Hr]. now apply String.eqb_eq in Hr.
Qed.

End SortedReadingsMore.

(** ** More on the statistics of a reading *)

Section StatisticsMore.
Import Api Sensor.

(** X14. Statistics whose label is not accepted (or missing) play no part
    in the sum: they add nothing and raise nothing, whatever their value
    or cost may be, so that removing them leaves the result unchanged. *)
Theorem other_labels_are_ignored (accepted : list string) (is_cost : bool)
  (stats : list Statistic) :
  forall total : float,
    add_statistics accepted is_cost total stats
    = add_statistics accepted is_cost total
        (filter (fun stat => label_in (get (label stat)) accepted) stats).
Proof.
  induction stats as [| stat rest IH]; intros total; [reflexivity |].
  cbn [add_statistics filter].
  destruct (label_in (get (label stat)) accepted) eqn:E.
  - cbn [add_statistics].
    destruct (add_statistic accepted is_cost total stat) as [t | e];
      cbn [bind]; [apply IH | reflexivity].
  - unfold add_statistic at 1. rewrite E. cbn [negb bind]. apply IH.
Qed.

(** X15. In a consumption aggregation a statistic with an accepted label
    adds [float(value)] to the running total, and nothing when its value
    is missing or null; its cost substructure is not looked at. *)
Theorem consumption_statistic_adds_value :
  (forall (accepted : list string) (total : float) (stat : Statistic)
          (v : number) (x : float),
      label_in (get (label stat)) accepted = true ->
      value stat = Has v ->
      to_float v = Ok x ->
      add_statistic accepted false total stat = Ok (total + x)%float)
  /\ (forall (accepted : list string) (total : float) (stat : Statistic),
         label_in (get (label stat)) accepted = true ->
         get (value stat) = None ->
         add_statistic accepted false total stat = Ok total)
  /\ (forall (accepted : list string) (total : float) (stat : Statistic)
             (c : field Cost),
         add_statistic accepted false total stat
         = add_statistic accepted false total
             {| label := label stat; value := value stat;
                costInclTax := c |}).
Proof.
  split; [| split].
  - intros accepted total stat v x Hl Hv Hx. unfold add_statistic.
    rewrite Hl, Hv. cbn [negb get]. now rewrite Hx.
  - intros accepted total stat Hl Hv. unfold add_statistic.
    now rewrite Hl, Hv.
  - intros. reflexivity.
Qed.

Lemma consumption_statistic_adds_value_witness :
  add_statistic ["BASE"] false 10
    {| label := Has "BASE"; value := Has (Float 1.5);
       costInclTax := Has {| estimatedAmount := Null |} |}
  = Ok (10 + 1.5)%float
  /\ add_statistic ["BASE"] false 10 (Examples.unpriced "BASE")
     = Ok 10%float.
Proof.
  split.
  - apply (proj1 consumption_statistic_adds_value ["BASE"] 10%float
             {| label := Has "BASE"; value := Has (Float 1.5);
                costInclTax := Has {| estimatedAmount := Null |} |}
             (Float 1.5) 1.5%float); reflexivity.
  - apply (proj1 (proj2 consumption_statistic_adds_value) ["BASE"] 10%float
             (Examples.unpriced "BASE")); reflexivity.
Defined.

End StatisticsMore.

(** ** More on the tariff detection *)

Section TariffDetectionMore.
Import Api Sensor.

Lemma detect_try_block_cases (data : Snapshot) :
  (exists t, detect_try_block data = Ok (Some t) /\ SpecMore.is_tariff t)
  \/ detect_try_block data = Ok None
  \/ (detect_try_block data
      = Raise (Exn AttributeError
                 "'NoneType' object has no attribute 'get'" None)
      /\ SpecMore.null_on_the_way data).
Proof.
  unfold detect_try_block, electricity_readings, latest_statistics,
    SpecMore.null_on_the_way, SpecMore.is_tariff.
  destruct (data_electricity data) as [| | el]; cbn [bind].
  - left. exists "UNKNOWN". auto.
  - right. right. auto.
  - destruct (readings el) as [| | [| r rs]] eqn:Er; cbn [bind];
      try (left; exists "UNKNOWN"; now auto).
    destruct (metaData (last rs r)) as [| | md] eqn:Em; cbn [bind].
    + left. exists "UNKNOWN". auto.
    + right. right. split; [reflexivity |]. right. now exists el, r, rs.
    + destruct (statistics md) as [| | [| s ss]]; cbn [bind];
        try (left; exists "UNKNOWN"; now auto).
      destruct (has_label "CONSO_BASE" _);
        [left; exists "BASE"; now auto |].
      destruct (_ && _); [left; exists "HPHC"; now auto |].
      right. now left.
Qed.

Lemma null_on_the_way_raises (data : Snapshot) :
  SpecMore.null_on_the_way data ->
  detect_try_block data
  = Raise (Exn AttributeError "'NoneType' object has no attribute 'get'"
             None).
Proof.
  unfold detect_try_block, electricity_readings, latest_statistics.
  intros [H | (el & r & rs & H1 & H2 & H3)].
  - now rewrite H.
  - rewrite H1, H2. cbn [bind]. now rewrite H3.
Qed.

Lemma detect_tariff_answers_or_raises_aux (data : Snapshot)
  (prm_id : string) :
  (exists t,
      _detect_tariff_type_for_meter data prm_id = (Ok t, [])
      /\ SpecMore.is_tariff t)
  \/ _detect_tariff_type_for_meter data prm_id
     = (Raise (Exn AttributeError
                 "'NoneType' object has no attribute 'get'" None), []).
Proof.
  unfold _detect_tariff_type_for_meter.
  destruct (detect_try_block_cases data)
    as [(t & E & Ht) | [E | (E & Hn)]]; rewrite E; cbn.
  - left. now exists t.
  - left. exists "UNKNOWN". split; [reflexivity |]. right. now right.
  - now right.
Qed.

(** X17. Whenever the tariff detection returns, its answer is "BASE",
    "HPHC" or "UNKNOWN".  When [data["electricity"]] is null, or the last
    reading of the list has a null [metaData], it raises the
    [AttributeError] of the failed lookup, which the [except] clause of
    the function does not catch. *)
Theorem detect_tariff_answers_or_raises (data : Snapshot) (prm_id : string) :
  (forall t,
      returned (_detect_tariff_type_for_meter data prm_id) = Ok t ->
      SpecMore.is_tariff t)
  /\ (SpecMore.null_on_the_way data ->
      returned (_detect_tariff_type_for_meter data prm_id)
      = Raise (Exn AttributeError
                 "'NoneType' object has no attribute 'get'" None)).
Proof.
  split.
  - intros t. unfold _detect_tariff_type_for_meter.
    destruct (detect_try_block_cases data)
      as [(t' & E & Ht) | [E | (E & Hn)]]; rewrite E; cbn.
    + intros H. assert (t = t') by congruence. now subst t'.
    + intros H. assert (t = "UNKNOWN") by congruence. subst t.
      right. now right.
    + discriminate.
  - intros Hn. unfold _detect_tariff_type_for_meter.
    now rewrite (null_on_the_way_raises data Hn).
Qed.

(** X18. The tariff detected depends on the last reading of the list as
    delivered and on nothing else: not on the readings before it, and not
    on the meter for which it is asked. *)
Theorem detect_tariff_reads_the_last_reading_only (data data' : Snapshot)
  (earlier : list Reading) (latest : Reading) (prm_id prm_id' : string) :
  electricity_readings data = Ok (Some (earlier ++ [latest])) ->
  electricity_readings data' = Ok (Some [latest]) ->
  _detect_tariff_type_for_meter data prm_id
  = _detect_tariff_type_for_meter data' prm_id'.
Proof.
  intros H H'.
  assert (E : detect_try_block data = detect_try_block data').
  { unfold detect_try_block. rewrite H, H'. cbn [bind].
    destruct (earlier ++ [latest]) as [| r rs] eqn:El.
    - destruct earlier; discriminate El.
    - assert (Hlast : last rs r = latest).
      { transitivity (last (r :: rs) r); [now destruct rs |].
        rewrite <- El. apply last_last. }
      now rewrite Hlast. }
  unfold _detect_tariff_type_for_meter. rewrite <- E.
  destruct (detect_try_block_cases data)
    as [(t & Et & _) | [Et | (Et & _)]]; rewrite Et; reflexivity.
Qed.

Lemma detect_tariff_reads_the_last_reading_only_witness :
  _detect_tariff_type_for_meter
    (Examples.snapshot
       (Has [Examples.reading (Has "2024-02-11T12:00:00+01:00")
               [Examples.priced "CONSO_HEURES_PLEINES" 10;
                Examples.priced "CONSO_HEURES_CREUSES" 20];
             Examples.reading (Has "2024-02-10T12:00:00+01:00")
               [Examples.priced "CONSO_BASE" 1234]]))
    "PRM1"
  = _detect_tariff_type_for_meter
      (Examples.snapshot
         (Has [Examples.reading (Has "2024-02-10T12:00:00+01:00")
                 [Examples.priced "CONSO_BASE" 1234]]))
      "PRM2".
Proof.
  apply (detect_tariff_reads_the_last_reading_only _ _
           [Examples.reading (Has "2024-02-11T12:00:00+01:00")
              [Examples.priced "CONSO_HEURES_PLEINES" 10;
               Examples.priced "CONSO_HEURES_CREUSES" 20]]
           (Examples.reading (Has "2024-02-10T12:00:00+01:00")
              [Examples.priced "CONSO_BASE" 1234]));
    reflexivity.
Defined.

End TariffDetectionMore.

Lemma detect_tariff_answers_or_raises_witness :
  SpecMore.is_tariff "HPHC"
  /\ returned
       (Sensor._detect_tariff_type_for_meter
          {| Api.data_supply_points := Absent;
             Api.data_electricity := Null |} "PRM1")
     = Raise (Exn AttributeError
                "'NoneType' object has no attribute 'get'" None).
Proof.
  split.
  - apply (proj1 (detect_tariff_answers_or_raises
                    (Examples.snapshot
                       (Has [Examples.reading
                               (Has "2024-02-11T12:00:00+01:00")
                               [Examples.priced "CONSO_HEURES_PLEINES" 10;
                                Examples.priced "CONSO_HEURES_CREUSES" 20]]))
                    "PRM1")).
    reflexivity.
  - apply (proj2 (detect_tariff_answers_or_raises
                    {| Api.data_supply_points := Absent;
                       Api.data_electricity := Null |} "PRM1")).
    left. reflexivity.
Defined.

(** ** The window of the readings *)

Section WindowInfo.
Import Api Sensor SensorMore.

Lemma insert_string_perm (x : string) (l : list string) :
  Permutation (x :: l) (insert_string x l).
Proof.
  induction l as [| y tl IH]; simpl; [reflexivity |].
  destruct (String.leb x y); [reflexivity |].
  rewrite perm_swap. now constructor.
Qed.

Lemma sorted_strings_perm (l : list string) :
  Permutation l (sorted_strings l).
Proof.
  induction l as [| x l IH]; simpl; [constructor |].
  rewrite <- insert_string_perm. now constructor.
Qed.

Lemma insert_string_sorted (x : string) (l : list string) :
  StronglySorted (fun a b => String.leb a b = true) l ->
  StronglySorted (fun a b => String.leb a b = true) (insert_string x l).
Proof.
  induction l as [| y tl IH]; intros Hs; simpl.
  - constructor; constructor.
  - inversion Hs as [| ? ? Htl Hy]; subst.
    destruct (String.leb x y) eqn:E.
    + constructor; [assumption |]. constructor; [exact E |].
      eapply Forall_impl; [| exact Hy].
      intros z Hz. eapply string_leb_trans; eassumption.
    + constructor; [now apply IH |].
      eapply Permutation_Forall; [apply insert_string_perm |].
      constructor; [| assumption].
      destruct (String.leb_total x y) as [H | H]; [congruence | exact H].
Qed.

Lemma sorted_strings_sorted (l : list string) :
  StronglySorted (fun a b => String.leb a b = true) (sorted_strings l).
Proof.
  induction l as [| x l IH]; simpl; [constructor |].
  now apply insert_string_sorted.
Qed.

(** In a sorted list the head is a lower bound and the last element an
    upper bound. *)
Lemma sorted_bounds (l : list string) (d : string) :
  StronglySorted (fun a b => String.leb a b = true) l ->
  forall s, In s l ->
            String.leb (hd d l) s = true /\ String.leb s (last l d) = true.
Proof.
  induction l as [| x tl IH]; intros Hs s Hin; [destruct Hin |].
  inversion Hs as [| ? ? Htl Hx]; subst. cbn [hd].
  rewrite Forall_forall in Hx.
  destruct Hin as [<- | Hin].
  - split; [apply string_leb_refl |].
    destruct tl as [| y tl']; [apply string_leb_refl |].
    change (last (x :: y :: tl') d) with (last (y :: tl') d).
    apply Hx. clear. generalize y.
    induction tl' as [| z tl IH]; intros y0; [now left |].
    right. apply (IH z).
  - split; [now apply Hx |].
    destruct tl as [| y tl']; [destruct Hin |].
    change (last (x :: y :: tl') d) with (last (y :: tl') d).
    now apply (IH Htl).
Qed.

Lemma starts_of_In (readings : list Reading) (s : string) :
  In s (starts_of readings)
  <-> s <> "" /\ exists r, In r readings /\ startAt r = Has s.
Proof.
  unfold starts_of. rewrite in_flat_map. split.
  - intros (r & Hr & Hs). destruct (startAt r) as [| | [| c t]] eqn:E;
      cbn [get] in Hs; try destruct Hs.
    + subst s. split; [discriminate |]. now exists r.
    + destruct H.
  - intros (Hne & r & Hr & E). exists r. split; [exact Hr |].
    rewrite E. cbn [get]. destruct s; [congruence | now left].
Qed.

(** X19. [_window_info] counts the readings that have a non-empty start
    timestamp.  With none it returns [(None, None, 0)]; otherwise the
    window start and end are timestamps of the readings, and every such
    timestamp lies between them in the order of strings. *)
Theorem window_info_bounds_the_timestamps (readings : list Reading) :
  let '(window_start, window_end, readings_count) :=
    _window_info readings in
  readings_count = Z.of_nat (List.length (starts_of readings))
  /\ (readings_count = 0
      <-> forall r, In r readings -> truthy_str (get (startAt r)) = false)
  /\ match window_start, window_end with
     | Some a, Some b =>
         In a (starts_of readings) /\ In b (starts_of readings)
         /\ forall r s,
              In r readings -> startAt r = Has s -> s <> "" ->
              String.leb a s = true /\ String.leb s b = true
     | None, None => readings_count = 0
     | _, _ => False
     end.
Proof.
  unfold _window_info.
  assert (Hnone : starts_of readings = []
                  <-> forall r, In r readings ->
                                truthy_str (get (startAt r)) = false).
  { split.
    - intros E r Hr. destruct (get (startAt r)) as [[| c t] |] eqn:Eg;
        try reflexivity.
      assert (Hin : In (String c t) (starts_of readings)).
      { apply starts_of_In. split; [discriminate |]. exists r.
        split; [exact Hr |]. destruct (startAt r); try discriminate Eg.
        cbn [get] in Eg. congruence. }
      rewrite E in Hin. destruct Hin.
    - intros H. destruct (starts_of readings) as [| s l] eqn:E;
        [reflexivity |].
      assert (Hin : In s (starts_of readings)) by (rewrite E; now left).
      apply starts_of_In in Hin. destruct Hin as (Hne & r & Hr & Es).
      specialize (H r Hr). rewrite Es in H. cbn [get] in H.
      destruct s; [congruence | discriminate H]. }
  destruct (starts_of readings) as [| s0 l0] eqn:E.
  - split; [reflexivity |]. split; [| reflexivity].
    split; [intros _; now apply Hnone | reflexivity].
  - pose proof (sorted_strings_perm (s0 :: l0)) as Hp.
    pose proof (sorted_strings_sorted (s0 :: l0)) as Hs.
    set (ss := sorted_strings (s0 :: l0)) in *.
    assert (Hlen : List.length ss = List.length (s0 :: l0))
      by (symmetry; now apply Permutation_length).
    split; [now rewrite Hlen |]. split.
    { rewrite Hlen. cbn [List.length]. split; [lia |].
      intros H. apply Hnone in H. discriminate H. }
    assert (Hne : ss <> [])
      by (intros Ess; rewrite Ess in Hlen; discriminate Hlen).
    assert (Hhd : In (hd "" ss) ss) by (destruct ss; [congruence | now left]).
    assert (Hlast : In (last ss "") ss).
    { destruct ss as [| a tl]; [congruence |].
      clear - tl. generalize a.
      induction tl as [| b tl IH]; intros a0; [now left |].
      right. apply (IH b). }
    split; [eapply Permutation_in; [symmetry; exact Hp | exact Hhd] |].
    split; [eapply Permutation_in; [symmetry; exact Hp | exact Hlast] |].
    intros r s Hr Es Hnes.
    apply (sorted_bounds ss "" Hs).
    eapply Permutation_in; [exact Hp |]. rewrite <- E.
    apply starts_of_In. split; [exact Hnes |]. now exists r.
Qed.

End WindowInfo.

(** ** The entities created by the sensor platform *)

Section SensorEntities.
Import Api Sensor SensorMore.

(** X20. The sensors created for a meter follow the tariff detected:
    base consumption, base cost and contract for "BASE"; peak and
    off-peak consumption and cost, and contract, for "HPHC"; the contract
    sensor alone for any other answer.  Every sensor created other than
    the contract one sums exactly one statistics label and is rounded to
    2 decimals. *)
Theorem sensors_created_per_tariff (tariff_type : string) :
  map key (electricity_sensor_configs tariff_type)
  = (if String.eqb tariff_type "BASE"
     then ["conso_base"; "cout_base"; "contract"]
     else if String.eqb tariff_type "HPHC"
     then ["conso_hp"; "conso_hc"; "cout_hp"; "cout_hc"; "contract"]
     else ["contract"])
  /\ forall cfg,
       In cfg (electricity_sensor_configs tariff_type) ->
       (key cfg = "contract"
        /\ _statistics_labels_for_key (key cfg) = ([], false))
       \/ (exists lbl,
              fst (_statistics_labels_for_key (key cfg)) = [lbl]
              /\ precision cfg = Some 2%nat).
Proof.
  unfold electricity_sensor_configs.
  destruct (String.eqb tariff_type "BASE") eqn:E1;
    [| destruct (String.eqb tariff_type "HPHC") eqn:E2].
  - apply String.eqb_eq in E1. subst tariff_type.
    split; [reflexivity |]. cbn.
    intros cfg [<- | [<- | [<- | []]]]; cbn;
      first [left; split; reflexivity | right; eexists; split; reflexivity].
  - apply String.eqb_eq in E2. subst tariff_type.
    split; [reflexivity |]. cbn.
    intros cfg [<- | [<- | [<- | [<- | [<- | []]]]]]; cbn;
      first [left; split; reflexivity | right; eexists; split; reflexivity].
  - cbn [ELECTRICITY_SENSORS filter key str_in existsb].
    rewrite !andb_false_l, !orb_false_r. cbn.
    split; [reflexivity |].
    intros cfg [<- | []]. left. split; reflexivity.
Qed.

Lemma detect_ignores_the_meter (data : Snapshot) (p q : string) :
  returned (_detect_tariff_type_for_meter data p)
  = returned (_detect_tariff_type_for_meter data q).
Proof.
  unfold _detect_tariff_type_for_meter.
  destruct (detect_try_block_cases data)
    as [(t & Et & _) | [Et | (Et & _)]]; rewrite Et; reflexivity.
Qed.

Lemma electricity_entities_of_Ok (data : Snapshot) (meters : list Meter) :
  forall l,
    returned (electricity_entities_of data meters) = Ok l ->
    meters = []
    \/ exists tariff_type,
         returned (_detect_tariff_type_for_meter data "") = Ok tariff_type
         /\ l = flat_map
                  (fun m =>
                     map (fun cfg => (get (id m), cfg))
                         (electricity_sensor_configs tariff_type))
                  meters.
Proof.
  induction meters as [| m rest IH]; intros l H; [now left |].
  right. cbn [electricity_entities_of] in H.
  destruct (_detect_tariff_type_for_meter data (str_of (get (id m))))
    as [[t | e] logs] eqn:Ed; [| discriminate H].
  assert (Et : returned (_detect_tariff_type_for_meter data "") = Ok t).
  { rewrite (detect_ignores_the_meter data "" (str_of (get (id m)))).
    now rewrite Ed. }
  exists t. split; [exact Et |].
  destruct (electricity_entities_of data rest) as [[others | e] logs']
    eqn:Er; [| discriminate H].
  cbn [returned fst] in H. injection H as <-.
  cbn [flat_map]. f_equal.
  destruct (IH others eq_refl) as [-> | (t' & Et' & ->)].
  - cbn in Er. now injection Er as <-.
  - rewrite Et in Et'. now injection Et' as <-.
Qed.

(** X21. When the sensor platform sets up the electricity sensors without
    error, every meter that passes the guard gets the same list of
    sensors: the one of the tariff detected on the snapshot, which is the
    same for all meters. *)
Theorem every_meter_gets_the_same_sensors (data : Snapshot)
  (l : list (option string * SensorConfig)) :
  returned (electricity_entities data) = Ok l ->
  exists meters tariff_type,
    setup_electricity_meters data = Ok meters
    /\ SpecMore.is_tariff tariff_type
    /\ (meters <> [] ->
        forall prm_id,
          returned (_detect_tariff_type_for_meter data prm_id)
          = Ok tariff_type)
    /\ l = flat_map
             (fun m =>
                map (fun cfg => (get (id m), cfg))
                    (electricity_sensor_configs tariff_type))
             meters.
Proof.
  unfold electricity_entities.
  destruct (setup_electricity_meters data) as [meters | e]; [| discriminate].
  intros H. exists meters.
  destruct (electricity_entities_of_Ok data meters l H)
    as [-> | (t & Et & ->)].
  - exists "UNKNOWN". split; [reflexivity |].
    split; [right; now right |]. split; [congruence |].
    cbn in H. now injection H as <-.
  - exists t. split; [reflexivity |]. split.
    + destruct (detect_tariff_answers_or_raises_aux data "")
        as [(t' & E' & Ht') | E'].
      * rewrite E' in Et. cbn in Et. now injection Et as <-.
      * rewrite E' in Et. discriminate Et.
    + split; [| reflexivity].
      intros _ prm_id. now rewrite (detect_ignores_the_meter data prm_id "").
Qed.

(** X22. The sensor platform creates no gas sensor: the constructor of
    [OctopusGasSensor] takes three arguments and is called with four, so
    the generator of the gas entities raises [TypeError] as soon as the
    snapshot lists a gas meter, and yields nothing otherwise. *)
Theorem gas_sensors_are_never_created (data : Snapshot)
  (reading_frequency : string) :
  (forall l, gas_entities data reading_frequency = Ok l -> l = [])
  /\ (forall sps g rest,
         data_supply_points data = Has sps ->
         gas sps = Has (g :: rest) ->
         gas_entities data reading_frequency
         = Raise (Exn TypeError
                    "OctopusGasSensor.__init__() takes 4 positional arguments but 5 were given"
                    None)).
Proof.
  unfold gas_entities. split.
  - intros l. destruct (data_supply_points data) as [| | sps];
      try (intros H; now inversion H).
    destruct (gas sps) as [| | [| g rest]]; intros H; now inversion H.
  - intros sps g rest -> ->. reflexivity.
Qed.

End SensorEntities.

Lemma every_meter_gets_the_same_sensors_witness :
  exists meters tariff_type,
    Sensor.setup_electricity_meters ExamplesMore.base_snapshot = Ok meters
    /\ SpecMore.is_tariff tariff_type
    /\ (meters <> [] ->
        forall prm_id,
          returned (Sensor._detect_tariff_type_for_meter
                      ExamplesMore.base_snapshot prm_id)
          = Ok tariff_type)
    /\ ExamplesMore.base_entities
       = flat_map
           (fun m =>
              map (fun cfg => (get (Api.id m), cfg))
                  (SensorMore.electricity_sensor_configs tariff_type))
           meters.
Proof.
  apply (every_meter_gets_the_same_sensors ExamplesMore.base_snapshot
           ExamplesMore.base_entities).
  vm_compute. reflexivity.
Defined.

(** ** The off-peak binary sensors *)

Section BinarySensors.
Import Api Utils BinarySensor.

Lemma ranges_empty_iff (s : string) (res : OffPeak) :
  returned (parse_off_peak_hours (Some s)) = Ok res ->
  (ranges res = [] <-> SpecMore.first_range_is_valid s = false).
Proof.
  intros H.
  destruct (parsed_ranges_prefix_aux s res H) as (done & todo & E1 & E2 & E3).
  unfold SpecMore.first_range_is_valid. rewrite E1.
  inversion E2 as [Hd Hr | m r done' rs' Hm Hrest Hd Hr]; subst.
  - cbn [app]. split; [intros _ | reflexivity].
    destruct E3 as [-> | (m & rest & e & -> & Hm)]; [reflexivity |].
    now rewrite Hm.
  - cbn [app]. rewrite Hm. split; discriminate.
Qed.

Lemma parse_catches_every_error_aux (label : option string) :
  exists res, returned (parse_off_peak_hours label) = Ok res.
Proof. destruct (parse_returns label) as (res & H & _). now exists res. Qed.

Lemma hc_sensor_for_made (freq : string) (m : Meter) :
  exists made,
    returned (hc_sensor_for freq m) = Ok made
    /\ match made with
       | Some s =>
           SpecMore.has_off_peak_hours m = true
           /\ get (id m) = Some (prm_id s)
           /\ reading_frequency s = freq
           /\ exists label off_peak_data,
                get (offPeakLabel m) = Some label
                /\ returned (parse_off_peak_hours (Some label))
                   = Ok off_peak_data
                /\ electricity_sensor_attributes s
                   = electricity_attributes off_peak_data freq (prm_id s)
       | None => SpecMore.has_off_peak_hours m = false
       end.
Proof.
  unfold hc_sensor_for, SpecMore.has_off_peak_hours.
  destruct (get (id m)) as [[| c p] |]; cbn [truthy_str andb];
    try (exists None; split; reflexivity).
  destruct (get (offPeakLabel m)) as [[| c' l] |]; cbn [truthy_str];
    try (exists None; split; reflexivity).
  destruct (parse_catches_every_error_aux (Some (String c' l)))
    as [res Hres].
  pose proof (ranges_empty_iff (String c' l) res Hres) as Hiff.
  destruct (parse_off_peak_hours (Some (String c' l))) as [[res' | e] logs]
    eqn:Ep; cbn [returned fst] in Hres; [| discriminate Hres].
  injection Hres as ->.
  destruct (ranges res) as [| r rs] eqn:Er.
  - exists None. split; [reflexivity |]. now apply Hiff.
  - eexists (Some _). split; [reflexivity |]. cbn.
    split.
    { destruct (SpecMore.first_range_is_valid (String c' l)); [reflexivity |].
      destruct Hiff as [_ Hiff]. now discriminate Hiff. }
    split; [reflexivity |]. split; [reflexivity |].
    exists (String c' l), res. rewrite Ep. repeat split.
Qed.

Lemma hc_sensors_made (freq : string) (meters : list Meter) :
  exists sensors,
    returned (hc_sensors freq meters) = Ok sensors
    /\ map (fun s => Some (prm_id s)) sensors
       = map (fun m => get (id m))
           (filter SpecMore.has_off_peak_hours meters)
    /\ Forall (fun s => reading_frequency s = freq) sensors.
Proof.
  induction meters as [| m rest IH].
  - exists []. repeat split. constructor.
  - destruct IH as (others & Ho & Hids & Hfreq).
    destruct (hc_sensor_for_made freq m) as (made & Hm & Hmade).
    cbn [hc_sensors filter].
    destruct (hc_sensor_for freq m) as [[made' | e] logs];
      cbn [returned fst] in Hm; [| discriminate Hm].
    injection Hm as ->.
    destruct (hc_sensors freq rest) as [[others' | e] logs'];
      cbn [returned fst] in Ho; [| discriminate Ho].
    injection Ho as ->.
    destruct made as [s |].
    + destruct Hmade as (Hhas & Hid & Hf & _).
      rewrite Hhas. exists (s :: others). split; [reflexivity |].
      split; [cbn [map]; now rewrite Hid, Hids | now constructor].
    + rewrite Hmade. exists others. now split.
Qed.

(** X23. The binary-sensor platform never fails on a list of meters: it
    creates one off-peak sensor, in order, for each meter that has an
    identifier and an off-peak label whose first time range is valid, and
    for no other meter; each sensor carries the configured frequency. *)
Theorem hc_sensors_for_meters_with_off_peak_hours (data : Snapshot)
  (sps : SupplyPoints) (meters : list Meter) (freq : string) :
  data_supply_points data = Has sps ->
  electricity sps = Has meters ->
  exists sensors,
    returned (async_setup_entry (Some data) freq) = Ok sensors
    /\ map (fun s => Some (prm_id s)) sensors
       = map (fun m => get (id m))
           (filter SpecMore.has_off_peak_hours meters)
    /\ Forall (fun s => reading_frequency s = freq) sensors.
Proof.
  intros Hs He. unfold async_setup_entry. rewrite Hs, He.
  apply hc_sensors_made.
Qed.

Lemma digits_only_string_of_uint (d : Decimal.uint) :
  SpecMore.digits_only (NilEmpty.string_of_uint d).
Proof. induction d; simpl; auto. Qed.

Lemma decimal_of_nat_digits (i : nat) :
  SpecMore.digits_only (NilZero.string_of_uint (Nat.to_uint i))
  /\ NilZero.string_of_uint (Nat.to_uint i) <> "".
Proof.
  unfold NilZero.string_of_uint.
  destruct (Nat.to_uint i) as [| d | d | d | d | d | d | d | d | d | d];
    (split; [| discriminate]);
    try (simpl; split; [reflexivity | apply digits_only_string_of_uint]).
  simpl. auto.
Qed.

Lemma decimal_of_nat_inj (i j : nat) :
  NilZero.string_of_uint (Nat.to_uint i)
  = NilZero.string_of_uint (Nat.to_uint j) ->
  i = j.
Proof.
  assert (Hn : forall n, Nat.to_uint n <> Decimal.Nil).
  { intros n E. pose proof (DecimalNat.Unsigned.of_to n) as H.
    rewrite E in H. cbn in H. subst n. discriminate E. }
  intros H. apply DecimalNat.Unsigned.to_uint_inj.
  pose proof (NilZero.usu _ (Hn i)) as Hi.
  pose proof (NilZero.usu _ (Hn j)) as Hj.
  rewrite H in Hi. rewrite Hi in Hj. now injection Hj.
Qed.

(** A run of digits followed by a suffix that starts with an underscore
    splits in one way only. *)
Lemma digits_then_suffix (d1 : string) :
  forall d2 s1 s2,
    SpecMore.digits_only d1 -> SpecMore.digits_only d2 ->
    (d1 ++ String "_" s1 = d2 ++ String "_" s2)%string ->
    d1 = d2 /\ s1 = s2.
Proof.
  induction d1 as [| c d1 IH]; intros [| c2 d2] s1 s2 H1 H2 E; simpl in *.
  - injection E as <-. now split.
  - injection E as <- _. destruct H2 as [H2 _]. discriminate H2.
  - injection E as -> _. destruct H1 as [H1 _]. discriminate H1.
  - injection E as <- E. destruct H1 as [_ H1], H2 as [_ H2].
    destruct (IH d2 s1 s2 H1 H2 E) as [-> ->]. now split.
Qed.

Lemma range_key_inj (i j : nat) (s s' : string) :
  SpecMore.range_suffix s -> SpecMore.range_suffix s' ->
  range_key i s = range_key j s' -> i = j /\ s = s'.
Proof.
  intros Hs Hs' E. unfold range_key in E. simpl in E.
  injection E as E.
  destruct (decimal_of_nat_digits i) as [Di _].
  destruct (decimal_of_nat_digits j) as [Dj _].
  destruct Hs as [-> | [-> | ->]], Hs' as [-> | [-> | ->]];
    destruct (digits_then_suffix _ _ _ _ Di Dj E) as [Ed Es];
    try discriminate Es;
    (split; [now apply decimal_of_nat_inj | reflexivity]).
Qed.

Lemma dict_get_set_same (k : string) (v : attribute) (d : dict) :
  dict_get k (dict_set k v d) = Some v.
Proof.
  induction d as [| [k' v'] tl IH]; simpl.
  - now rewrite String.eqb_refl.
  - destruct (String.eqb k' k) eqn:E; simpl; rewrite E; [reflexivity | exact IH].
Qed.

Lemma dict_get_set_other (k k0 : string) (v : attribute) (d : dict) :
  k0 <> k -> dict_get k (dict_set k0 v d) = dict_get k d.
Proof.
  intros Hne. induction d as [| [k' v'] tl IH]; simpl.
  - apply String.eqb_neq in Hne. now rewrite Hne.
  - destruct (String.eqb k' k0) eqn:E; simpl.
    + apply String.eqb_eq in E. subst k'.
      apply String.eqb_neq in Hne. now rewrite Hne.
    + destruct (String.eqb k' k); [reflexivity | exact IH].
Qed.

(** Adding ranges from index [i] on leaves every other key as it was. *)
Lemma add_ranges_other (k : string) (rs : list TimeRange) :
  forall (i : nat) (d : dict),
    (forall j s, (i <= j)%nat -> SpecMore.range_suffix s ->
                 range_key j s <> k) ->
    dict_get k (add_ranges i rs d) = dict_get k d.
Proof.
  induction rs as [| r rest IH]; intros i d Hk; [reflexivity |].
  cbn [add_ranges]. rewrite IH.
  - rewrite !dict_get_set_other; [reflexivity | | |];
      apply Hk; unfold SpecMore.range_suffix; auto.
  - intros j s Hj. apply Hk. lia.
Qed.

Lemma add_ranges_nth (rs : list TimeRange) :
  forall (i n : nat) (d : dict) (r : TimeRange),
    nth_error rs n = Some r ->
    dict_get (range_key (i + n) "_start") (add_ranges i rs d)
    = Some (Str (start r))
    /\ dict_get (range_key (i + n) "_end") (add_ranges i rs d)
       = Some (Str (end_ r))
    /\ dict_get (range_key (i + n) "_duration") (add_ranges i rs d)
       = Some (Num (duration_hours r)).
Proof.
  induction rs as [| r0 rest IH]; intros i n d r Hn;
    [destruct n; discriminate Hn |].
  assert (S1 : SpecMore.range_suffix "_start") by (now left).
  assert (S2 : SpecMore.range_suffix "_end") by (right; now left).
  assert (S3 : SpecMore.range_suffix "_duration") by (right; now right).
  destruct n as [| n'].
  - cbn in Hn. injection Hn as ->. rewrite Nat.add_0_r. cbn [add_ranges].
    assert (Hfar : forall s0, SpecMore.range_suffix s0 ->
                     forall j s, (S i <= j)%nat -> SpecMore.range_suffix s ->
                                 range_key j s <> range_key i s0).
    { intros s0 Hs0 j s Hj Hs E.
      apply range_key_inj in E; [lia | assumption | assumption]. }
    rewrite !add_ranges_other by (now apply Hfar).
    split; [| split].
    + rewrite dict_get_set_other; [rewrite dict_get_set_other |].
      * apply dict_get_set_same.
      * intros E. apply range_key_inj in E; auto. destruct E. discriminate.
      * intros E. apply range_key_inj in E; auto. destruct E. discriminate.
    + rewrite dict_get_set_other.
      * apply dict_get_set_same.
      * intros E. apply range_key_inj in E; auto. destruct E. discriminate.
    + apply dict_get_set_same.
  - cbn [add_ranges]. replace (i + S n')%nat with (S i + n')%nat by lia.
    now apply IH.
Qed.

(** No range key is one of the five keys the dictionary starts with. *)
Lemma range_key_not_base (j : nat) (s : string) :
  SpecMore.range_suffix s ->
  range_key j s <> "off_peak_type"
  /\ range_key j s <> "off_peak_total_hours"
  /\ range_key j s <> "off_peak_range_count"
  /\ range_key j s <> "reading_frequency"
  /\ range_key j s <> "prm_id".
Proof.
  intros Hs. unfold range_key.
  repeat split; try (simpl; discriminate).
  simpl. intros E. injection E as E.
  destruct (decimal_of_nat_digits j) as [D N].
  destruct (NilZero.string_of_uint (Nat.to_uint j)) as [| c t];
    [congruence |].
  simpl in E. injection E as -> _. destruct D as [D _]. discriminate D.
Qed.

(** X24. The attributes of an off-peak sensor can be read back: the type,
    the total, the count, the frequency and the identifier are those of
    the parsed label, and for the range of rank [n] (from 1) the keys
    [off_peak_range_<n>_start], [_end] and [_duration] hold its start,
    its end and its duration in hours; no range overwrites another. *)
Theorem hc_sensor_attributes_read_back (freq : string) (meter : Meter)
  (sensor : HcSensor) :
  returned (hc_sensor_for freq meter) = Ok (Some sensor) ->
  exists label off_peak_data,
    get (offPeakLabel meter) = Some label
    /\ returned (parse_off_peak_hours (Some label)) = Ok off_peak_data
    /\ let attrs := electricity_sensor_attributes sensor in
       dict_get "off_peak_type" attrs
       = Some (match type off_peak_data with
               | Some t => Str t
               | None => NoneValue
               end)
       /\ dict_get "off_peak_total_hours" attrs
          = Some (Num (total_hours off_peak_data))
       /\ dict_get "off_peak_range_count" attrs
          = Some (Count (range_count off_peak_data))
       /\ dict_get "reading_frequency" attrs = Some (Str freq)
       /\ dict_get "prm_id" attrs = Some (Str (prm_id sensor))
       /\ forall (n : nat) (r : TimeRange),
            nth_error (ranges off_peak_data) n = Some r ->
            dict_get (range_key (S n) "_start") attrs = Some (Str (start r))
            /\ dict_get (range_key (S n) "_end") attrs
               = Some (Str (end_ r))
            /\ dict_get (range_key (S n) "_duration") attrs
               = Some (Num (duration_hours r)).
Proof.
  intros H.
  destruct (hc_sensor_for_made freq meter) as (made & Hm & Hmade).
  rewrite H in Hm. injection Hm as <-.
  destruct Hmade as (_ & _ & _ & label & data & Hl & Hp & Ha).
  exists label, data. split; [exact Hl |]. split; [exact Hp |].
  cbv zeta. rewrite Ha. unfold electricity_attributes.
  assert (Hbase : forall k,
             (forall j s, SpecMore.range_suffix s -> range_key j s <> k) ->
             forall d, dict_get k (add_ranges 1 (ranges data) d)
                       = dict_get k d).
  { intros k Hk d. apply add_ranges_other. intros j s _ Hs. now apply Hk. }
  repeat split.
  - rewrite Hbase; [reflexivity |].
    intros j s Hs. now destruct (range_key_not_base j s Hs) as (? & _).
  - rewrite Hbase; [reflexivity |].
    intros j s Hs. now destruct (range_key_not_base j s Hs) as (_ & ? & _).
  - rewrite Hbase; [reflexivity |].
    intros j s Hs.
    now destruct (range_key_not_base j s Hs) as (_ & _ & ? & _).
  - rewrite Hbase; [reflexivity |].
    intros j s Hs.
    now destruct (range_key_not_base j s Hs) as (_ & _ & _ & ? & _).
  - rewrite Hbase; [reflexivity |].
    intros j s Hs.
    now destruct (range_key_not_base j s Hs) as (_ & _ & _ & _ & ?).
  - now apply (add_ranges_nth (ranges data) 1 n).
  - now apply (add_ranges_nth (ranges data) 1 n).
  - now apply (add_ranges_nth (ranges data) 1 n).
Qed.

End BinarySensors.

Lemma hc_sensors_for_meters_with_off_peak_hours_witness :
  exists sensors,
    returned (BinarySensor.async_setup_entry
                (Some ExamplesMore.off_peak_snapshot) "HOUR_INTERVAL")
    = Ok sensors
    /\ map (fun s => Some (BinarySensor.prm_id s)) sensors
       = map (fun m => get (Api.id m))
           (filter SpecMore.has_off_peak_hours
              [Examples.resil_active_meter; ExamplesMore.night_meter;
               ExamplesMore.invalid_hours_meter])
    /\ Forall (fun s => BinarySensor.reading_frequency s = "HOUR_INTERVAL")
         sensors.
Proof.
  apply (hc_sensors_for_meters_with_off_peak_hours
           ExamplesMore.off_peak_snapshot
           {| Api.electricity :=
                Has [Examples.resil_active_meter; ExamplesMore.night_meter;
                     ExamplesMore.invalid_hours_meter];
              Api.gas := Absent |});
    reflexivity.
Defined.

Example hc_sensors_of_the_example :
  BinarySensor.async_setup_entry (Some ExamplesMore.off_peak_snapshot)
    "HOUR_INTERVAL"
  = (Ok [ExamplesMore.night_sensor],
     [LogRecord WARNING "HC 25H00-06H00"
        (Exn ValueError "hour must be in 0..23" None)]).
Proof. vm_compute. reflexivity. Qed.

Lemma hc_sensor_attributes_read_back_witness :
  BinarySensor.dict_get "off_peak_range_1_start"
    (BinarySensor.electricity_sensor_attributes ExamplesMore.night_sensor)
  = Some (BinarySensor.Str "22:00")
  /\ BinarySensor.dict_get "off_peak_range_1_duration"
       (BinarySensor.electricity_sensor_attributes ExamplesMore.night_sensor)
     = Some (BinarySensor.Num 8).
Proof.
  destruct (hc_sensor_attributes_read_back "HOUR_INTERVAL"
              ExamplesMore.night_meter ExamplesMore.night_sensor)
    as (label & data & Hl & Hp & _ & _ & _ & _ & _ & Hn).
  - vm_compute. reflexivity.
  - injection Hl as <-.
    assert (Ed : data = Examples.night_result).
    { vm_compute in Hp. now injection Hp as <-. }
    subst data.
    destruct (Hn 0%nat Examples.night_range eq_refl) as (H1 & _ & H3).
    split; [exact H1 | exact H3].
Defined.
